(** * Personal finance tracker: aggregation and CRUD core

    A shallow embedding of the transaction / budget logic of
    [Dashboard.tsx] (component [PersonalFinanceApp]) and of the mocked
    remote API of [Stage2.tsx] ([mockApi] and component [App]), and the
    properties of that logic.

    Conventions of the embedding.
    - A React component is a state record; a handler is a function from the
      state (and the values the environment supplies: the result of
      [crypto.randomUUID()], of [new Date()]) to the next state.
    - A JavaScript number is a value of an arithmetic interface [Arith],
      instantiated by IEEE-754 binary64 ([F64], what the program runs on).
    - A [Date] is its time value, an integer number of milliseconds since
      the epoch ([getTime]).
    - An array is a list; an object used as a dictionary is a list of
      key/value pairs in property-enumeration order. *)

From Stdlib Require Import Bool Arith ZArith Lia List String Ascii.
From Stdlib Require Import Permutation Sorted Floats.
Import ListNotations.

Local Open Scope list_scope.
Local Open Scope Z_scope.

(** ** Numbers *)

(** The operations the aggregation code performs on numbers. *)
Class Arith := {
  num : Type;
  n0 : num;                       (* the literal 0 *)
  nadd : num -> num -> num;       (* x + y *)
  ToBoolean : num -> bool;        (* truthiness, as tested by [x || 0] *)
  toFixed2 : num -> string;       (* x.toFixed(2) *)
  round2 : num -> num             (* parseFloat(x.toFixed(2)) *)
}.

(** The operations the form handlers perform on numbers. *)
Class NumberIO (A : Arith) := {
  Number_ : string -> num;        (* Number(s) *)
  isNaN : num -> bool;
  isFinite : num -> bool;
  lez : num -> bool;              (* x <= 0 *)
  toString : num -> string        (* x.toString() *)
}.

Declare Scope num_scope.
Delimit Scope num_scope with num.
Infix "+" := nadd : num_scope.

(** [v || 0] where [v] is the result of a property read ([None] is
    [undefined]). *)
Definition or0 {A : Arith} (v : option num) : num :=
  match v with
  | Some x => if ToBoolean x then x else n0
  | None => n0
  end.

(** [l.reduce((acc, x) => acc + x, 0)]. *)
Definition sum {A : Arith} (l : list num) : num :=
  fold_left nadd l n0.

(** Truthiness of a string: every string but the empty one. *)
Definition nonempty (s : string) : bool := negb (s =? "")%string.

(** ** Data *)

Definition Date := Z.

Definition getTime (d : Date) : Z := d.

Record Transaction {A : Arith} := mkTransaction {
  tx_id : string;
  tx_date : Date;
  tx_category : string;
  tx_description : string;
  tx_amount : num
}.

Record Budget {A : Arith} := mkBudget {
  b_category : string;
  b_amount : num
}.

Arguments mkTransaction {A} _ _ _ _ _.
Arguments mkBudget {A} _ _.

(** Truthiness of a [T | undefined] whose [T] values are objects. *)
Definition defined {X : Type} (o : option X) : bool :=
  match o with
  | Some _ => true
  | None => false
  end.

(** ** Arrays *)

(** [Array.prototype.sort(cmp)] is a stable sort; with a comparator that is
    a total preorder the result is the one stable sorted arrangement,
    whatever algorithm the engine runs. It is computed here by insertion. *)
Section ArraySort.
Context {X : Type} (cmp : X -> X -> Z).

Fixpoint insert (x : X) (l : list X) : list X :=
  match l with
  | [] => [x]
  | y :: l' => if cmp x y <=? 0 then x :: y :: l' else y :: insert x l'
  end.

Fixpoint sort (l : list X) : list X :=
  match l with
  | [] => []
  | x :: l' => insert x (sort l')
  end.
End ArraySort.

(** [l.slice(0, n)]. *)
Definition slice0 {X : Type} (n : nat) (l : list X) : list X := firstn n l.

(** The effect of [const m = l.find(p); if (m) m.f = ...]: the first
    element satisfying [p] is updated in place. *)
Fixpoint update_first {X : Type} (p : X -> bool) (f : X -> X) (l : list X) : list X :=
  match l with
  | [] => []
  | x :: l' => if p x then f x :: l' else x :: update_first p f l'
  end.

(** [l.findIndex(p) > -1]. *)
Definition findIndex_found {X : Type} (p : X -> bool) (l : list X) : bool :=
  existsb p l.

(** ** Text *)

Module Text.
Local Open Scope string_scope.
Local Open Scope Z_scope.

Definition digit_char (d : Z) : ascii := ascii_of_N (Z.to_N (48 + d)).

Definition digit_of (c : ascii) : option Z :=
  let n := Z.of_N (N_of_ascii c) in
  if (48 <=? n) && (n <=? 57) then Some (n - 48) else None.

(** The last [w] decimal digits of [n], most significant first. *)
Fixpoint fixed_digits (w : nat) (n : Z) : string :=
  match w with
  | O => ""
  | S w' => String (digit_char ((n / 10 ^ Z.of_nat w') mod 10)) (fixed_digits w' n)
  end.

(** Number of decimal digits of a natural number ([1] for [0]). *)
Fixpoint ndigits_fuel (fuel : nat) (n : Z) : nat :=
  match fuel with
  | O => 1%nat
  | S f => if n <? 10 then 1%nat else S (ndigits_fuel f (n / 10))
  end.

Definition ndigits (n : Z) : nat := ndigits_fuel (Z.to_nat (Z.log2 n)) n.

(** The decimal numeral of a natural number. *)
Definition decimal (n : Z) : string := fixed_digits (ndigits n) n.

(** [s.padStart(w, "0")] for a decimal numeral [s] of [n]. *)
Definition padStart0 (w : nat) (n : Z) : string :=
  fixed_digits (Nat.max w (ndigits n)) n.

(** Value of a string of decimal digits, [None] on any other character. *)
Fixpoint digits_value (acc : Z) (s : string) : option Z :=
  match s with
  | "" => Some acc
  | String c s' =>
      match digit_of c with
      | Some d => digits_value (10 * acc + d) s'
      | None => None
      end
  end.
End Text.

(** ** IEEE-754 binary64 numbers *)

(** The numbers of the program. A string is a sequence of UTF-16 code
    units; the model keeps to code units below 256. *)
Module F64.
Local Open Scope string_scope.
Local Open Scope Z_scope.

(** The double nearest to [p / q] (ties to even), signed by [neg]. *)
Definition of_ratio (neg : bool) (p q : Z) : float :=
  match p, q with
  | Zpos p', Zpos q' =>
      SF2Prim (SFdiv prec emax (S754_finite neg p' 0) (S754_finite false q' 0))
  | _, _ => if neg then neg_zero else PrimFloat.zero
  end.

(** The value [m * 2^e] as a fraction. *)
Definition fraction (m : positive) (e : Z) : Z * Z :=
  if 0 <=? e then (Zpos m * 2 ^ e, 1) else (Zpos m, 2 ^ (- e)).

(** *** [Number::toString] *)

(** The [n] with [10^(n-1) <= p/q < 10^n], searched from an estimate. *)
Definition below_pow10 (p q n : Z) : bool :=
  if 0 <=? n then p <? 10 ^ n * q else p * 10 ^ (- n) <? q.

Fixpoint adjust_up (fuel : nat) (p q n : Z) : Z :=
  match fuel with
  | O => n
  | S f => if below_pow10 p q n then n else adjust_up f p q (n + 1)
  end.

Fixpoint adjust_down (fuel : nat) (p q n : Z) : Z :=
  match fuel with
  | O => n
  | S f => if below_pow10 p q (n - 1) then adjust_down f p q (n - 1) else n
  end.

Definition decimal_exponent (p q : Z) : Z :=
  let est := (Z.log2 p - Z.log2 q) * 30103 / 100000 in
  adjust_down 8 p q (adjust_up 8 p q est).

(** [p/q] scaled to [k] digits before the point at decimal exponent [n]:
    [floor (p/q / 10^(n-k))]. *)
Definition scaled_floor (p q n k : Z) : Z :=
  if 0 <=? n - k then p / (q * 10 ^ (n - k)) else (p * 10 ^ (k - n)) / q.

(** Does the decimal [s * 10^(n-k)] denote the double [x]? *)
Definition denotes (x : float) (s n k : Z) : bool :=
  let y := if 0 <=? n - k then of_ratio false (s * 10 ^ (n - k)) 1
           else of_ratio false s (10 ^ (k - n)) in
  (y =? x)%float.

(** Is [lo] at least as close to [p/q] as [lo + 1], at scale [n - k]
    (on a tie, is [lo] even)? *)
Definition lower_is_closer (p q n k lo : Z) : bool :=
  let '(a, b) := if 0 <=? n - k then (p, q * 10 ^ (n - k)) else (p * 10 ^ (k - n), q) in
  let d := 2 * a - (2 * lo + 1) * b in
  if d <? 0 then true else if 0 <? d then false else Z.even lo.

(** The shortest digits [(s, n)] of [x = p/q > 0] with [k] or more
    digits. *)
Fixpoint shortest (fuel : nat) (x : float) (p q n0 k : Z) : Z * Z * Z :=
  let lo := scaled_floor p q n0 k in
  let hi := lo + 1 in
  let lo_ok := denotes x lo n0 k in
  let hi_ok := denotes x hi n0 k in
  let hi_digits := if hi =? 10 ^ k then (10 ^ (k - 1), n0 + 1, k) else (hi, n0, k) in
  match fuel with
  | O => (lo, n0, k)
  | S f =>
      if lo_ok && hi_ok
      then (if lower_is_closer p q n0 k lo then (lo, n0, k) else hi_digits)
      else if lo_ok then (lo, n0, k)
      else if hi_ok then hi_digits
      else shortest f x p q n0 (k + 1)
  end.

Fixpoint zeros (n : nat) : string :=
  match n with
  | O => ""
  | S n' => String "0" (zeros n')
  end.

(** The text of a positive finite double from its digits. *)
Definition render (s n k : Z) : string :=
  let digits := Text.fixed_digits (Z.to_nat k) s in
  if (k <=? n) && (n <=? 21)
  then (digits ++ zeros (Z.to_nat (n - k)))%string
  else if (0 <? n) && (n <=? 21)
  then (substring 0 (Z.to_nat n) digits ++ "."
        ++ substring (Z.to_nat n) (Z.to_nat (k - n)) digits)%string
  else if (-6 <? n) && (n <=? 0)
  then ("0." ++ zeros (Z.to_nat (- n)) ++ digits)%string
  else
    let e := n - 1 in
    let esign := if e <? 0 then "-" else "+" in
    let exponent := (esign ++ Text.decimal (Z.abs e))%string in
    if k =? 1 then (digits ++ "e" ++ exponent)%string
    else (substring 0 1 digits ++ "." ++ substring 1 (Z.to_nat (k - 1)) digits
          ++ "e" ++ exponent)%string.

Definition toString (x : float) : string :=
  match Prim2SF x with
  | S754_nan => "NaN"
  | S754_zero _ => "0"
  | S754_infinity s => if s then "-Infinity" else "Infinity"
  | S754_finite s m e =>
      let '(p, q) := fraction m e in
      let '(d, n, k) := shortest 17 (abs x) p q (decimal_exponent p q) 1 in
      ((if s then "-" else "") ++ render d n k)%string
  end.

(** *** [Number.prototype.toFixed] with two fraction digits *)

Definition toFixed2 (x : float) : string :=
  match Prim2SF x with
  | S754_nan => "NaN"
  | S754_infinity s => if s then "-Infinity" else "Infinity"
  | S754_zero _ => "0.00"
  | S754_finite s m e =>
      let '(p, q) := fraction m e in
      if 10 ^ 21 * q <=? p then toString x
      else
        let n := (200 * p + q) / (2 * q) in
        ((if s then "-" else "") ++ Text.decimal (n / 100) ++ "."
         ++ Text.fixed_digits 2 (n mod 100))%string
  end.

(** *** Numeric literals in strings *)

Definition isWhiteSpace (c : ascii) : bool :=
  let n := Z.of_N (N_of_ascii c) in
  ((9 <=? n) && (n <=? 13)) || (n =? 32) || (n =? 160).

Fixpoint trimStart (s : string) : string :=
  match s with
  | String c s' => if isWhiteSpace c then trimStart s' else s
  | "" => ""
  end.

Fixpoint all_white (s : string) : bool :=
  match s with
  | String c s' => isWhiteSpace c && all_white s'
  | "" => true
  end.

(** Leading decimal digits: their value on top of [acc], their number,
    and the rest. *)
Fixpoint scan_digits (acc cnt : Z) (s : string) : Z * Z * string :=
  match s with
  | String c s' =>
      match Text.digit_of c with
      | Some d => scan_digits (10 * acc + d) (cnt + 1) s'
      | None => (acc, cnt, s)
      end
  | "" => (acc, cnt, s)
  end.

(** An [ExponentPart] at the head of [s], if there is one. *)
Definition scan_exponent (s : string) : Z * string :=
  match s with
  | String c s1 =>
      if (Ascii.eqb c "e" || Ascii.eqb c "E")%bool then
        let '(neg, s2) :=
          match s1 with
          | String "+" r => (false, r)
          | String "-" r => (true, r)
          | _ => (false, s1)
          end in
        let '(v, cnt, s3) := scan_digits 0 0 s2 in
        if 0 <? cnt then ((if neg then - v else v), s3) else (0, s)
      else (0, s)
  | "" => (0, s)
  end.

(** The longest prefix of [s] that is a [StrDecimalLiteral]: its value
    and the rest of [s]. *)
Definition scan_decimal (s : string) : option (float * string) :=
  let '(neg, s0) :=
    match s with
    | String "+" r => (false, r)
    | String "-" r => (true, r)
    | _ => (false, s)
    end in
  if prefix "Infinity" s0
  then Some ((if neg then neg_infinity else infinity),
             substring 8 (String.length s0 - 8) s0)
  else
    let '(i, ci, s1) := scan_digits 0 0 s0 in
    let '(mant, cf, s2) :=
      match s1 with
      | String "." r =>
          let '(f, cf, r') := scan_digits i 0 r in
          if (0 <? ci) || (0 <? cf) then (f, cf, r') else (i, 0, s1)
      | _ => (i, 0, s1)
      end in
    if (ci + cf =? 0) then None
    else
      let '(ex, s3) := scan_exponent s2 in
      let e10 := ex - cf in
      Some ((if 0 <=? e10 then of_ratio neg (mant * 10 ^ e10) 1
             else of_ratio neg mant (10 ^ (- e10))), s3).

(** Leading digits in base [b]. *)
Definition digit_in (b : Z) (c : ascii) : option Z :=
  let n := Z.of_N (N_of_ascii c) in
  let d := if (48 <=? n) && (n <=? 57) then n - 48
           else if (97 <=? n) && (n <=? 102) then n - 87
           else if (65 <=? n) && (n <=? 70) then n - 55
           else b in
  if d <? b then Some d else None.

Fixpoint scan_base (b acc cnt : Z) (s : string) : Z * Z * string :=
  match s with
  | String c s' =>
      match digit_in b c with
      | Some d => scan_base b (b * acc + d) (cnt + 1) s'
      | None => (acc, cnt, s)
      end
  | "" => (acc, cnt, s)
  end.

(** A [NonDecimalIntegerLiteral] that is the whole of [s]. *)
Definition non_decimal (s : string) : option float :=
  match s with
  | String "0" (String c r) =>
      let base := if (Ascii.eqb c "x" || Ascii.eqb c "X")%bool then Some 16
                  else if (Ascii.eqb c "o" || Ascii.eqb c "O")%bool then Some 8
                  else if (Ascii.eqb c "b" || Ascii.eqb c "B")%bool then Some 2
                  else None in
      match base with
      | Some b =>
          let '(v, cnt, rest) := scan_base b 0 0 r in
          if (0 <? cnt) && all_white rest then Some (of_ratio false v 1) else Some nan
      | None => None
      end
  | _ => None
  end.

(** [Number(s)] for a string [s]. *)
Definition Number_ (s : string) : float :=
  let t := trimStart s in
  match t with
  | "" => PrimFloat.zero
  | _ =>
      match non_decimal t with
      | Some x => x
      | None =>
          match scan_decimal t with
          | Some (x, rest) => if all_white rest then x else nan
          | None => nan
          end
      end
  end.

(** [parseFloat(s)]. *)
Definition parseFloat (s : string) : float :=
  match scan_decimal (trimStart s) with
  | Some (x, _) => x
  | None => nan
  end.

Definition ToBoolean (x : float) : bool := negb (is_zero x || is_nan x).

Definition arith : Arith :=
  Build_Arith float PrimFloat.zero PrimFloat.add ToBoolean toFixed2
              (fun x => parseFloat (toFixed2 x)).

Definition io : NumberIO arith :=
  Build_NumberIO arith Number_ is_nan is_finite
                 (fun x => (x <=? PrimFloat.zero)%float) toString.
End F64.

(** ** Calendar *)

(** Proleptic Gregorian calendar on day numbers (days since 1970-01-01),
    as [YearFromTime], [MonthFromTime], [DateFromTime] and [MakeDay]
    compute it. [civil_from_days] and [days_from_civil] number the months
    from 1. *)
Module Calendar.
Definition msPerDay : Z := 86400000.

(** [Day(t)] and [TimeWithinDay(t)]. *)
Definition Day (t : Z) : Z := t / msPerDay.
Definition TimeWithinDay (t : Z) : Z := t mod msPerDay.

(** Day number to (year, month, day of month). *)
Definition civil_from_days (z : Z) : Z * Z * Z :=
  let z := z + 719468 in
  let era := z / 146097 in
  let doe := z mod 146097 in
  let yoe := (doe - doe / 1460 + doe / 36524 - doe / 146096) / 365 in
  let doy := doe - (365 * yoe + yoe / 4 - yoe / 100) in
  let mp := (5 * doy + 2) / 153 in
  let d := doy - (153 * mp + 2) / 5 + 1 in
  let m := if mp <? 10 then mp + 3 else mp - 9 in
  let y := yoe + era * 400 + (if m <=? 2 then 1 else 0) in
  (y, m, d).

(** (year, month, day of month) to day number. *)
Definition days_from_civil (y m d : Z) : Z :=
  let y := y - (if m <=? 2 then 1 else 0) in
  let era := y / 400 in
  let yoe := y - era * 400 in
  let mp := if 2 <? m then m - 3 else m + 9 in
  let doy := (153 * mp + 2) / 5 + d - 1 in
  let doe := yoe * 365 + yoe / 4 - yoe / 100 + doy in
  era * 146097 + doe - 719468.

(** The definitions of the language specification, which the closed
    forms above are proved to compute. [DayFromYear(y)] is the day number
    of January 1st of year [y]; the year of a day is the [y] with
    [DayFromYear(y) <= day < DayFromYear(y + 1)]; the month and the day of
    the month are read off the day within the year from a table that
    depends on the year being a leap year. *)
Definition DayFromYear (y : Z) : Z :=
  365 * (y - 1970) + (y - 1969) / 4 - (y - 1901) / 100 + (y - 1601) / 400.

Definition InLeapYear (y : Z) : Z :=
  if (y mod 4 =? 0) && (negb (y mod 100 =? 0) || (y mod 400 =? 0)) then 1 else 0.

Definition month_of_day (dwy leap : Z) : Z :=
  if dwy <? 31 then 0
  else if dwy <? 59 + leap then 1
  else if dwy <? 90 + leap then 2
  else if dwy <? 120 + leap then 3
  else if dwy <? 151 + leap then 4
  else if dwy <? 181 + leap then 5
  else if dwy <? 212 + leap then 6
  else if dwy <? 243 + leap then 7
  else if dwy <? 273 + leap then 8
  else if dwy <? 304 + leap then 9
  else if dwy <? 334 + leap then 10
  else 11.

Definition date_of_day (dwy leap : Z) : Z :=
  match month_of_day dwy leap with
  | 0 => dwy + 1
  | 1 => dwy - 30
  | 2 => dwy - 58 - leap
  | 3 => dwy - 89 - leap
  | 4 => dwy - 119 - leap
  | 5 => dwy - 150 - leap
  | 6 => dwy - 180 - leap
  | 7 => dwy - 211 - leap
  | 8 => dwy - 242 - leap
  | 9 => dwy - 272 - leap
  | 10 => dwy - 303 - leap
  | _ => dwy - 333 - leap
  end.

(** The table against the closed form, for the day [doy] of a year that
    starts in March. *)
Definition table_agrees (doy leap : Z) : bool :=
  let dwy := if doy <? 306 then doy + 59 + leap else doy - 306 in
  let mp := (5 * doy + 2) / 153 in
  (month_of_day dwy leap =? (if mp <? 10 then mp + 3 else mp - 9) - 1)
  && (date_of_day dwy leap =? doy - (153 * mp + 2) / 5 + 1).

(** [MonthFromTime] numbers the months from 0. *)
Definition YearFromTime (t : Z) : Z := fst (fst (civil_from_days (Day t))).
Definition MonthFromTime (t : Z) : Z := snd (fst (civil_from_days (Day t))) - 1.
Definition DateFromTime (t : Z) : Z := snd (civil_from_days (Day t)).

(** A time value a [Date] can hold. *)
Definition valid_time (t : Z) : Prop := - 8640000000000000 <= t <= 8640000000000000.
End Calendar.

(** ** Objects used as dictionaries *)

(** The own enumerable properties of an object created as [{}], in the
    order [Object.entries] lists them: array-index keys first, in
    ascending numeric order, then the other keys in creation order. Only
    own data properties are modelled: the properties of the programs are
    stated for keys that do not name a member inherited from
    [Object.prototype] ([inherited]). *)
Module Obj.
Local Open Scope string_scope.
Local Open Scope Z_scope.

Definition t (V : Type) := list (string * V).

(** The names of the members of [Object.prototype], which an object
    created as [{}] inherits. A read of such a key on an object without
    an own property of that name gives the inherited member, and an
    assignment to ["__proto__"] creates no property: for these keys the
    object is not the dictionary modelled here. *)
Definition inherited (k : string) : bool :=
  existsb (String.eqb k)
    ["constructor"; "__defineGetter__"; "__defineSetter__"; "hasOwnProperty";
     "__lookupGetter__"; "__lookupSetter__"; "isPrototypeOf"; "propertyIsEnumerable";
     "toString"; "valueOf"; "__proto__"; "toLocaleString"].

(** The array index a key denotes, if it is a canonical numeric string
    below [2^32 - 1]. *)
Definition array_index (k : string) : option Z :=
  match k with
  | "" => None
  | String c rest =>
      if (Ascii.eqb c "0") && nonempty rest then None
      else match Text.digits_value 0 k with
           | Some v => if v <=? 4294967294 then Some v else None
           | None => None
           end
  end.

(** [o[k]], for a key [k] that is not [inherited]. *)
Fixpoint get {V} (o : t V) (k : string) : option V :=
  match o with
  | [] => None
  | (k', v) :: o' => if (k' =? k)%string then Some v else get o' k
  end.

(** Assignment to an existing property keeps its position. *)
Fixpoint replace {V} (o : t V) (k : string) (v : V) : t V :=
  match o with
  | [] => []
  | (k', v') :: o' => if (k' =? k)%string then (k, v) :: o' else (k', v') :: replace o' k v
  end.

(** Creation of an array-index property [i]. *)
Fixpoint add_index {V} (o : t V) (i : Z) (k : string) (v : V) : t V :=
  match o with
  | [] => [(k, v)]
  | (k', v') :: o' =>
      match array_index k' with
      | Some j => if j <? i then (k', v') :: add_index o' i k v
                  else (k, v) :: (k', v') :: o'
      | None => (k, v) :: (k', v') :: o'
      end
  end.

(** [o[k] = v], for a key [k] that is not [inherited]. *)
Definition set {V} (o : t V) (k : string) (v : V) : t V :=
  match get o k with
  | Some _ => replace o k v
  | None =>
      match array_index k with
      | Some i => add_index o i k v
      | None => (o ++ [(k, v)])%list
      end
  end.

(** [Object.entries(o)]. *)
Definition entries {V} (o : t V) : list (string * V) := o.
End Obj.

(** ** Dashboard.tsx: component [PersonalFinanceApp] *)

Module Dashboard.
Section Component.
Context {A : Arith} {IO : NumberIO A}.

(** The local time zone, as the offset in milliseconds that
    [LocalTime(t) = t + tz] adds to a time value. *)
Variable tz : Z.

(** [format(date, 'yyyy-MM')] of date-fns: the year of the era and the
    month of the local time, each padded with leading zeros. *)
Definition format_yyyy_MM (d : Date) : string :=
  let t := getTime d + tz in
  let signedYear := Calendar.YearFromTime t in
  let year := if 0 <? signedYear then signedYear else 1 - signedYear in
  (Text.padStart0 4 year ++ "-" ++ Text.padStart0 2 (Calendar.MonthFromTime t + 1))%string.

(** *** Computed values *)

Record MonthTotal := mkMonthTotal { month : string; m_total : num }.
Record CategoryTotal := mkCategoryTotal { category : string; total : num }.
Record ComparisonRow := mkRow { r_category : string; budgeted : num; actual : num }.

Definition monthlyTotals (transactions : list Transaction) : Obj.t num :=
  fold_left (fun monthlyTotals t =>
               let month := format_yyyy_MM (tx_date t) in
               Obj.set monthlyTotals month
                 (or0 (Obj.get monthlyTotals month) + tx_amount t)%num)
            transactions [].

Definition monthlyExpenses (transactions : list Transaction) : list MonthTotal :=
  map (fun '(month, total) => mkMonthTotal month (round2 total))
      (Obj.entries (monthlyTotals transactions)).

Definition categoryTotals (transactions : list Transaction) : Obj.t num :=
  fold_left (fun categoryTotals t =>
               Obj.set categoryTotals (tx_category t)
                 (or0 (Obj.get categoryTotals (tx_category t)) + tx_amount t)%num)
            transactions [].

Definition categoryExpenses (transactions : list Transaction) : list CategoryTotal :=
  map (fun '(category, total) => mkCategoryTotal category (round2 total))
      (Obj.entries (categoryTotals transactions)).

Definition totalExpenses (transactions : list Transaction) : string :=
  toFixed2 (fold_left (fun acc t => (acc + tx_amount t)%num) transactions n0).

(** [categoryBreakdown] repeats [categoryExpenses]. *)
Definition categoryBreakdown (transactions : list Transaction) : list CategoryTotal :=
  map (fun '(category, total) => mkCategoryTotal category (round2 total))
      (Obj.entries (categoryTotals transactions)).

(** [[...transactions].sort((a, b) => b.date.getTime() - a.date.getTime())]. *)
Definition sortedByDate (transactions : list Transaction) : list Transaction :=
  sort (fun a b => getTime (tx_date b) - getTime (tx_date a)) transactions.

(** The source fixes [n] to 5. *)
Definition recent (n : nat) (transactions : list Transaction) : list Transaction :=
  slice0 n (sortedByDate transactions).

Definition recentTransactions (transactions : list Transaction) : list Transaction :=
  recent 5 transactions.

Definition comparison_init (budgets : list Budget) : list ComparisonRow :=
  map (fun budget => mkRow (b_category budget) (b_amount budget) n0) budgets.

Definition comparison_step (comparison : list ComparisonRow) (transaction : Transaction)
  : list ComparisonRow :=
  let p := fun item => (r_category item =? tx_category transaction)%string in
  match find p comparison with
  | Some _ =>
      update_first p
        (fun categoryMatch =>
           mkRow (r_category categoryMatch) (budgeted categoryMatch)
                 (actual categoryMatch + tx_amount transaction)%num)
        comparison
  | None =>
      (comparison ++ [mkRow (tx_category transaction) n0 (tx_amount transaction)])%list
  end.

Definition budgetComparison (transactions : list Transaction) (budgets : list Budget)
  : list ComparisonRow :=
  map (fun item => mkRow (r_category item) (budgeted item) (round2 (actual item)))
      (fold_left comparison_step transactions (comparison_init budgets)).

(** *** State and handlers *)

Record State := mkState {
  transactions : list Transaction;
  budgets : list Budget;
  isAddingTransaction : bool;
  editingTransactionId : option string;
  formDate : option Date;
  formCategory : string;
  formDescription : string;
  formAmount : string;
  budgetCategory : string;
  budgetAmount : string;
  isAddingBudget : bool;
  editingBudgetId : option string
}.

(** The state of a freshly mounted component with empty storage. *)
Definition initial : State :=
  mkState [] [] false None None "" "" "" "" "" false None.

Definition setTransactions (l : list Transaction) (s : State) : State :=
  mkState l (budgets s) (isAddingTransaction s) (editingTransactionId s)
          (formDate s) (formCategory s) (formDescription s) (formAmount s)
          (budgetCategory s) (budgetAmount s) (isAddingBudget s) (editingBudgetId s).

Definition setBudgets (l : list Budget) (s : State) : State :=
  mkState (transactions s) l (isAddingTransaction s) (editingTransactionId s)
          (formDate s) (formCategory s) (formDescription s) (formAmount s)
          (budgetCategory s) (budgetAmount s) (isAddingBudget s) (editingBudgetId s).

Definition setIsAddingTransaction (b : bool) (s : State) : State :=
  mkState (transactions s) (budgets s) b (editingTransactionId s)
          (formDate s) (formCategory s) (formDescription s) (formAmount s)
          (budgetCategory s) (budgetAmount s) (isAddingBudget s) (editingBudgetId s).

Definition setIsAddingBudget (b : bool) (s : State) : State :=
  mkState (transactions s) (budgets s) (isAddingTransaction s) (editingTransactionId s)
          (formDate s) (formCategory s) (formDescription s) (formAmount s)
          (budgetCategory s) (budgetAmount s) b (editingBudgetId s).

(** The transaction form: date, category, description, amount and the id
    being edited. *)
Definition setTransactionForm (d : option Date) (c desc a : string) (e : option string)
    (s : State) : State :=
  mkState (transactions s) (budgets s) (isAddingTransaction s) e d c desc a
          (budgetCategory s) (budgetAmount s) (isAddingBudget s) (editingBudgetId s).

(** The budget form: category, amount and the category being edited. *)
Definition setBudgetForm (c a : string) (e : option string) (s : State) : State :=
  mkState (transactions s) (budgets s) (isAddingTransaction s) (editingTransactionId s)
          (formDate s) (formCategory s) (formDescription s) (formAmount s)
          c a (isAddingBudget s) e.

(** [setBudgetCategory(e.target.value)], the select of the budget form. *)
Definition setBudgetCategory (c : string) (s : State) : State :=
  setBudgetForm c (budgetAmount s) (editingBudgetId s) s.

(** [setBudgetAmount(e.target.value)], the input of the budget form. *)
Definition setBudgetAmount (a : string) (s : State) : State :=
  setBudgetForm (budgetCategory s) a (editingBudgetId s) s.

(** Truthiness of a [string | null]. *)
Definition truthy_id (e : option string) : bool :=
  match e with
  | Some i => nonempty i
  | None => false
  end.

Definition clearTransactionForm (s : State) : State :=
  setTransactionForm None "" "" "" None s.

(** A handler returns the next state and the message it alerts, if any.
    [uuid] is the value [crypto.randomUUID()] returns. *)
Definition handleAddTransaction (uuid : string) (s : State) : State * option string :=
  let hasErrors :=
    negb (defined (formDate s))
    || negb (nonempty (formCategory s))
    || negb (nonempty (formDescription s))
    || (negb (nonempty (formAmount s)) || isNaN (Number_ (formAmount s))) in
  match hasErrors, formDate s with
  | false, Some d =>
      let editing := editingTransactionId s in
      let newTransaction :=
        mkTransaction (match editing with
                       | Some i => if nonempty i then i else uuid
                       | None => uuid
                       end)
                      d (formCategory s) (formDescription s) (Number_ (formAmount s)) in
      let s1 :=
        match editing with
        | Some i =>
            if nonempty i
            then setTransactions
                   (map (fun t => if (tx_id t =? i)%string then newTransaction else t)
                        (transactions s)) s
            else setTransactions (transactions s ++ [newTransaction]) s
        | None => setTransactions (transactions s ++ [newTransaction]) s
        end in
      (setIsAddingTransaction false (clearTransactionForm s1), None)
  | _, _ => (s, Some "Please fill in all fields with valid values."%string)
  end.

Definition handleEditTransaction (id : string) (s : State) : State :=
  match find (fun t => (tx_id t =? id)%string) (transactions s) with
  | Some transactionToEdit =>
      setIsAddingTransaction true
        (setTransactionForm (Some (tx_date transactionToEdit))
                            (tx_category transactionToEdit)
                            (tx_description transactionToEdit)
                            (toString (tx_amount transactionToEdit))
                            (Some id) s)
  | None => s
  end.

Definition handleDeleteTransaction (id : string) (s : State) : State :=
  clearTransactionForm
    (setTransactions (filter (fun t => negb (tx_id t =? id)%string) (transactions s)) s).

Definition clearBudgetForm (s : State) : State :=
  setBudgetForm "" "" None s.

Definition handleAddBudget (s : State) : State * option string :=
  let hasErrors :=
    negb (nonempty (budgetCategory s))
    || (negb (nonempty (budgetAmount s))
        || isNaN (Number_ (budgetAmount s))
        || lez (Number_ (budgetAmount s))) in
  if hasErrors then (s, Some "Please enter a valid category and amount."%string)
  else
    let newBudget := mkBudget (budgetCategory s) (Number_ (budgetAmount s)) in
    let upsert :=
      if findIndex_found (fun b => (b_category b =? budgetCategory s)%string) (budgets s)
      then setBudgets
             (map (fun b => if (b_category b =? budgetCategory s)%string then newBudget else b)
                  (budgets s)) s
      else setBudgets (budgets s ++ [newBudget]) s in
    let s1 :=
      match editingBudgetId s with
      | Some e =>
          if nonempty e
          then setBudgets
                 (map (fun b => if (b_category b =? e)%string then newBudget else b)
                      (budgets s)) s
          else upsert
      | None => upsert
      end in
    (setIsAddingBudget false (clearBudgetForm s1), None).

Definition handleEditBudget (category : string) (s : State) : State :=
  match find (fun b => (b_category b =? category)%string) (budgets s) with
  | Some budgetToEdit =>
      setIsAddingBudget true
        (setBudgetForm (b_category budgetToEdit) (toString (b_amount budgetToEdit))
                       (Some category) s)
  | None => s
  end.

Definition handleDeleteBudget (category : string) (s : State) : State :=
  clearBudgetForm
    (setBudgets (filter (fun b => negb (b_category b =? category)%string) (budgets s)) s).

(** The "Add Budget" button: [setIsAddingBudget(true); clearBudgetForm()]. *)
Definition openBudgetForm (s : State) : State :=
  clearBudgetForm (setIsAddingBudget true s).

(** The "Add Transaction" button and the "Cancel" button of the
    transaction form. *)
Definition openTransactionForm (s : State) : State :=
  clearTransactionForm (setIsAddingTransaction true s).

Definition cancelTransactionForm (s : State) : State :=
  clearTransactionForm (setIsAddingTransaction false s).

(** The inputs of the transaction form: [setFormDate], [setFormCategory],
    [setFormDescription], [setFormAmount]. *)
Definition setFormDate (d : option Date) (s : State) : State :=
  setTransactionForm d (formCategory s) (formDescription s) (formAmount s)
                     (editingTransactionId s) s.

Definition setFormCategory (c : string) (s : State) : State :=
  setTransactionForm (formDate s) c (formDescription s) (formAmount s)
                     (editingTransactionId s) s.

Definition setFormDescription (d : string) (s : State) : State :=
  setTransactionForm (formDate s) (formCategory s) d (formAmount s)
                     (editingTransactionId s) s.

Definition setFormAmount (a : string) (s : State) : State :=
  setTransactionForm (formDate s) (formCategory s) (formDescription s) a
                     (editingTransactionId s) s.

(** What the user can do on the transactions tab. *)
Inductive Event :=
| ClickAddTransaction
| ClickCancel
| PickDate (d : option Date)
| SelectCategory (c : string)
| TypeDescription (d : string)
| TypeAmount (a : string)
| ClickSave (uuid : string)
| ClickEdit (id : string)
| ClickDelete (id : string).

Definition step (e : Event) (s : State) : State :=
  match e with
  | ClickAddTransaction => openTransactionForm s
  | ClickCancel => cancelTransactionForm s
  | PickDate d => setFormDate d s
  | SelectCategory c => setFormCategory c s
  | TypeDescription d => setFormDescription d s
  | TypeAmount a => setFormAmount a s
  | ClickSave uuid => fst (handleAddTransaction uuid s)
  | ClickEdit id => handleEditTransaction id s
  | ClickDelete id => handleDeleteTransaction id s
  end.

(** The state after a sequence of events. *)
Definition run (events : list Event) (s : State) : State :=
  fold_left (fun s e => step e s) events s.
End Component.
End Dashboard.

(** ** Stage2.tsx: component [DashboardPage] *)

Module DashboardPage.
Section Component.
Context {X : Type}.

(** [handleAddTransaction]: the new transaction goes to the front. *)
Definition handleAddTransaction (newTransaction : X) (prevTransactions : list X) : list X :=
  newTransaction :: prevTransactions.

(** [transactions.slice(0, 5)]: the first five of the list, unsorted. *)
Definition recentTransactions (transactions : list X) : list X :=
  slice0 5 transactions.
End Component.
End DashboardPage.

(** ** Dashboard.tsx: persistence of the transactions *)

(** The transactions are saved with [JSON.stringify] and loaded with
    [JSON.parse] and a reviver. A document is represented by its tree:
    the text of a document and its reading back into the tree are not
    modelled. Numbers are binary64. *)
Module Persistence.

#[warnings="-register-all"]
Inductive json :=
| JNull
| JBool (b : bool)
| JNumber (x : float)
| JString (s : string)
| JArray (l : list json)
| JObject (l : list (string * json)).

(** The time value of a [Date]: a time, [NaN] (an invalid date), or a
    value the language leaves to the implementation (the date of a string
    in another format than the one [toISOString] writes). *)
Inductive time_value :=
| Time (t : Z)
| InvalidDate
| Unspecified.

(** The values in memory, with [Date] objects. *)
#[warnings="-register-all"]
Inductive value :=
| VNull
| VBool (b : bool)
| VNumber (x : float)
| VString (s : string)
| VDate (t : time_value)
| VArray (l : list value)
| VObject (l : list (string * value)).

(** *** Dates as text *)

Definition sign_text (negative : bool) : string :=
  if negative then "-"%string else "+"%string.

(** The year of a date-time string: four digits, or a sign and six digits
    outside 0..9999. *)
Definition year_text (y : Z) : string :=
  let sign := sign_text (y <? 0) in
  if (0 <=? y) && (y <=? 9999) then Text.fixed_digits 4 y
  else (sign ++ Text.fixed_digits 6 (Z.abs y))%string.

(** [Date.prototype.toISOString]: [YYYY-MM-DDTHH:mm:ss.sssZ] in UTC. *)
Definition toISOString (t : Z) : string :=
  let '(y, m, d) := Calendar.civil_from_days (Calendar.Day t) in
  let ms := Calendar.TimeWithinDay t in
  (year_text y ++ "-" ++ Text.fixed_digits 2 m ++ "-" ++ Text.fixed_digits 2 d
   ++ "T" ++ Text.fixed_digits 2 (ms / 3600000)
   ++ ":" ++ Text.fixed_digits 2 (ms / 60000 mod 60)
   ++ ":" ++ Text.fixed_digits 2 (ms / 1000 mod 60)
   ++ "." ++ Text.fixed_digits 3 (ms mod 1000) ++ "Z")%string.

(** Exactly [w] decimal digits at the head of [s]: their value on top of
    [acc], and the rest. *)
Fixpoint read_digits (w : nat) (acc : Z) (s : string) : option (Z * string) :=
  match w with
  | O => Some (acc, s)
  | S w' =>
      match s with
      | String c r =>
          match Text.digit_of c with
          | Some d => read_digits w' (10 * acc + d) r
          | None => None
          end
      | EmptyString => None
      end
  end.

(** The character [c] at the head of [s]: the rest. *)
Definition expect (c : ascii) (s : string) : option string :=
  match s with
  | String c' r => if Ascii.eqb c' c then Some r else None
  | EmptyString => None
  end.

(** The year at the head of a date-time string: four digits, or a sign
    and six digits ([-000000] is not a year). *)
Definition read_year (s : string) : option (Z * string) :=
  match s with
  | String c r =>
      if Ascii.eqb c "+" then read_digits 6 0 r
      else if Ascii.eqb c "-" then
        match read_digits 6 0 r with
        | Some (y, r') => if y =? 0 then None else Some (- y, r')
        | None => None
        end
      else read_digits 4 0 s
  | EmptyString => None
  end.

(** The fields of a string in the format of [toISOString]. *)
Definition read_fields (s : string) : option (Z * Z * Z * Z * Z * Z * Z) :=
  match read_year s with
  | None => None
  | Some (y, s) =>
  match expect "-" s with None => None | Some s =>
  match read_digits 2 0 s with None => None | Some (mo, s) =>
  match expect "-" s with None => None | Some s =>
  match read_digits 2 0 s with None => None | Some (d, s) =>
  match expect "T" s with None => None | Some s =>
  match read_digits 2 0 s with None => None | Some (h, s) =>
  match expect ":" s with None => None | Some s =>
  match read_digits 2 0 s with None => None | Some (mi, s) =>
  match expect ":" s with None => None | Some s =>
  match read_digits 2 0 s with None => None | Some (sec, s) =>
  match expect "." s with None => None | Some s =>
  match read_digits 3 0 s with None => None | Some (ms, s) =>
  match expect "Z" s with None => None | Some s =>
  match s with
  | EmptyString => Some (y, mo, d, h, mi, sec, ms)
  | _ => None
  end end end end end end end end end end end end end end
  end.

(** [TimeClip]. *)
Definition TimeClip (t : Z) : time_value :=
  if Z.abs t <=? 8640000000000000 then Time t else InvalidDate.

(** [Date.parse] on a string in the format of [toISOString]: the fields
    in their ranges make a time ([MakeDay], [MakeTime], [MakeDate]), other
    fields make [NaN]. *)
Definition Date_parse (s : string) : time_value :=
  match read_fields s with
  | Some (y, mo, d, h, mi, sec, ms) =>
      if (1 <=? mo) && (mo <=? 12) && (1 <=? d) && (d <=? 31)
         && (mi <=? 59) && (sec <=? 59)
         && ((h <=? 23) || ((h =? 24) && (mi =? 0) && (sec =? 0) && (ms =? 0)))
      then TimeClip (Calendar.days_from_civil y mo d * Calendar.msPerDay
                     + h * 3600000 + mi * 60000 + sec * 1000 + ms)
      else InvalidDate
  | None => Unspecified
  end.

(** The integer part of a finite double. *)
Definition truncate (x : float) : Z :=
  match Prim2SF x with
  | S754_finite s m e =>
      let n := if 0 <=? e then Zpos m * 2 ^ e else Zpos m / 2 ^ (- e) in
      if s then - n else n
  | _ => 0
  end.

(** [new Date(v)] for a value read from a document. The date of an array
    or an object goes through its text and is left unspecified. *)
Definition new_Date (v : value) : value :=
  VDate
    match v with
    | VNull => Time 0
    | VBool b => Time (if b then 1 else 0)
    | VNumber x => if is_finite x then TimeClip (truncate x) else InvalidDate
    | VString s => Date_parse s
    | VDate t => t
    | VArray _ => Unspecified
    | VObject _ => Unspecified
    end.

(** *** Documents *)

(** A number as a document holds it: a finite number prints to a numeral
    that reads back as the same number, except that [-0] prints as [0];
    the others print as [null]. *)
Definition number_json (x : float) : json :=
  if is_finite x then JNumber (if is_zero x then PrimFloat.zero else x) else JNull.

(** [JSON.stringify(v)], as a tree. A [Date] is written as its [toJSON]
    gives it: the [toISOString] of a time, [null] for an invalid date. *)
Fixpoint stringify (v : value) : json :=
  match v with
  | VNull => JNull
  | VBool b => JBool b
  | VNumber x => number_json x
  | VString s => JString s
  | VDate (Time t) => JString (toISOString t)
  | VDate _ => JNull
  | VArray l => JArray (map stringify l)
  | VObject l => JObject (map (fun kv => (fst kv, stringify (snd kv))) l)
  end.

(** [l.map((x, i) => f(i, x))], the indices counted from [i]. *)
Definition mapi {X Y : Type} (f : nat -> X -> Y) : nat -> list X -> list Y :=
  fix go (i : nat) (l : list X) : list Y :=
    match l with
    | [] => []
    | x :: l' => f i x :: go (S i) l'
    end.

(** [JSON.parse(text, reviver)], on the tree of the text: every value is
    replaced, children first, by what the reviver returns for it and its
    key; the key of an array element is its index, the key of the whole
    document is the empty string. *)
Fixpoint revive (reviver : string -> value -> value) (key : string) (j : json) : value :=
  reviver key
    match j with
    | JNull => VNull
    | JBool b => VBool b
    | JNumber x => VNumber x
    | JString s => VString s
    | JArray l =>
        VArray (mapi (fun i x => revive reviver (Text.decimal (Z.of_nat i)) x) O l)
    | JObject l =>
        VObject (map (fun kx => (fst kx, revive reviver (fst kx) (snd kx))) l)
    end.

(** The reviver of the component:
    [(key, value) => key === 'date' ? new Date(value) : value]. *)
Definition date_reviver (key : string) (v : value) : value :=
  if (key =? "date")%string then new_Date v else v.

(** A transaction as the object the component holds. *)
Definition transaction_value (t : Transaction (A := F64.arith)) : value :=
  VObject [("id"%string, VString (tx_id t));
           ("date"%string, VDate (Time (getTime (tx_date t))));
           ("category"%string, VString (tx_category t));
           ("description"%string, VString (tx_description t));
           ("amount"%string, VNumber (tx_amount t))].

Definition transactions_value (txs : list (Transaction (A := F64.arith))) : value :=
  VArray (map transaction_value txs).

(** The effect that saves the transactions:
    [localStorage.setItem('financeTransactions', JSON.stringify(transactions))];
    the entry is [None] when absent. *)
Definition save (txs : list (Transaction (A := F64.arith))) : option json :=
  Some (stringify (transactions_value txs)).

(** The initial state of [transactions]:
    [saved ? JSON.parse(saved, reviver) : []]. *)
Definition load (saved : option json) : value :=
  match saved with
  | Some doc => revive date_reviver ""%string doc
  | None => VArray []
  end.
End Persistence.

(** ** Stage2.tsx: [mockApi] and component [App] *)

Module Stage2.
Section App.
Context {A : Arith} {IO : NumberIO A}.

(** A date field of a transaction in memory that is either a [Date] or
    the text a document holds for a date, which [JSON.parse] returns as
    it is. *)
Inductive Stamp :=
| AsDate (d : Date)
| AsText (s : string).

(** A transaction in memory, as [createTransaction] or
    [updateTransaction] returns it to the component: [updateTransaction]
    takes [createdAt] from the parsed document, as text. *)
Record Transaction := mkTransaction {
  t_id : string;
  t_amount : num;
  t_date : Date;
  t_description : string;
  t_createdAt : Stamp;
  t_updatedAt : Date
}.

(** A transaction as the stored document holds it and [JSON.parse]
    returns it: the dates as text, the amount [null] ([None]) when the
    number was not finite. *)
Record Stored := mkStored {
  s_id : string;
  s_amount : option num;
  s_date : string;
  s_description : string;
  s_createdAt : string;
  s_updatedAt : string
}.

(** What [JSON.stringify] writes for a number and [JSON.parse] reads
    back: the number when it is finite, [-0] as [0]; [null] otherwise. *)
Definition number_written (x : num) : option num :=
  if isFinite x then Some (if ToBoolean x then x else n0) else None.

(** What [JSON.stringify] writes for a date field: the [toISOString] of
    a [Date], a text as it is. *)
Definition date_written (d : Date) : string := Persistence.toISOString (getTime d).

Definition stamp_written (c : Stamp) : string :=
  match c with
  | AsDate d => date_written d
  | AsText s => s
  end.

(** The stored form of a transaction in memory. *)
Definition written (t : Transaction) : Stored :=
  mkStored (t_id t) (number_written (t_amount t)) (date_written (t_date t))
           (t_description t) (stamp_written (t_createdAt t)) (date_written (t_updatedAt t)).

(** The argument of [createTransaction] as the component builds it. *)
Record Candidate := mkCandidate {
  c_amount : num;
  c_date : Date;
  c_description : string
}.

(** The argument [updates] of [updateTransaction] as the component
    builds it: [{amount, date: formData.date, description}]. *)
Record Updates := mkUpdates {
  u_amount : num;
  u_date : Date;
  u_description : string
}.

(** [{...found, ...updates, updatedAt: now}] for an entry [found] of the
    parsed document: the id and [createdAt] are those of the document,
    the amount, the date and the description those of [updates]. *)
Definition merge (found : Stored) (updates : Updates) (now : Date) : Transaction :=
  mkTransaction (s_id found) (u_amount updates) (u_date updates) (u_description updates)
                (AsText (s_createdAt found)) now.

(** The ["transactions"] entry of [localStorage], by the array its text
    denotes; [None] when the entry is absent. *)
Definition Storage := option (list Stored).

(** [stored ? JSON.parse(stored) : []]. *)
Definition stored (st : Storage) : list Stored :=
  match st with
  | Some l => l
  | None => []
  end.

Definition has_id (id : string) (t : Transaction) : bool := (t_id t =? id)%string.

Definition stored_has_id (id : string) (t : Stored) : bool := (s_id t =? id)%string.

(** [mockApi.createTransaction]; [uuid] is what [crypto.randomUUID()]
    returns and [now] what the two calls of [new Date()] return. The
    parsed entries are written back as they were read. *)
Definition mockApi_createTransaction (uuid : string) (now : Date * Date) (transaction : Candidate)
    (st : Storage) : Transaction * Storage :=
  let newTransaction :=
    mkTransaction uuid (c_amount transaction) (c_date transaction)
                  (c_description transaction) (AsDate (fst now)) (snd now) in
  (newTransaction, Some (stored st ++ [written newTransaction])).

(** [mockApi.updateTransaction]; the result [None] is [null]. *)
Definition mockApi_updateTransaction (now : Date) (id : string) (updates : Updates)
    (st : Storage) : option Transaction * Storage :=
  match find (stored_has_id id) (stored st) with
  | None => (None, st)
  | Some found =>
      let updatedTransaction := merge found updates now in
      (Some updatedTransaction,
       Some (update_first (stored_has_id id) (fun _ => written updatedTransaction)
                          (stored st)))
  end.

(** [mockApi.deleteTransaction]. *)
Definition mockApi_deleteTransaction (id : string) (st : Storage) : Storage :=
  Some (filter (fun t => negb (stored_has_id id t)) (stored st)).

(** *** Component state *)

Record FormData := mkFormData {
  f_amount : string;
  f_date : option Date;
  f_description : string
}.

Record State := mkState {
  storage : Storage;
  transactions : list Transaction;
  loading : bool;
  error : option string;
  isDialogOpen : bool;
  editingTransaction : option Transaction;
  formData : FormData
}.

Definition setError (e : option string) (s : State) : State :=
  mkState (storage s) (transactions s) (loading s) e (isDialogOpen s)
          (editingTransaction s) (formData s).

Definition setLoading (b : bool) (s : State) : State :=
  mkState (storage s) (transactions s) b (error s) (isDialogOpen s)
          (editingTransaction s) (formData s).

Definition setTransactions (l : list Transaction) (s : State) : State :=
  mkState (storage s) l (loading s) (error s) (isDialogOpen s)
          (editingTransaction s) (formData s).

Definition setStorage (st : Storage) (s : State) : State :=
  mkState st (transactions s) (loading s) (error s) (isDialogOpen s)
          (editingTransaction s) (formData s).

Definition closeModal (s : State) : State :=
  mkState (storage s) (transactions s) (loading s) None false None (formData s).

(** The two validation steps shared by [addTransaction] and
    [updateTransaction]: the message to report, if any. *)
Definition validate (f : FormData) : option string :=
  if negb (nonempty (f_amount f)) || negb (defined (f_date f))
     || negb (nonempty (f_description f))
  then Some "Please fill in all fields."%string
  else if isNaN (Number_ (f_amount f)) || lez (Number_ (f_amount f))
       then Some "Amount must be a positive number."%string
       else None.

Definition addTransaction (uuid : string) (now : Date * Date) (s : State) : State :=
  match validate (formData s), f_date (formData s) with
  | None, Some d =>
      let amount := Number_ (f_amount (formData s)) in
      let s1 := setError None (setLoading true s) in
      let '(newTransaction, st) :=
        mockApi_createTransaction uuid now
          (mkCandidate amount d (f_description (formData s))) (storage s1) in
      let s2 := setTransactions (newTransaction :: transactions s1) (setStorage st s1) in
      setLoading false (closeModal s2)
  | Some msg, _ => setError (Some msg) s
  | None, None => s
  end.

Definition updateTransaction (now : Date) (id : string) (s : State) : State :=
  match validate (formData s), f_date (formData s) with
  | None, Some d =>
      let amount := Number_ (f_amount (formData s)) in
      let s1 := setError None (setLoading true s) in
      let '(result, st) :=
        mockApi_updateTransaction now id
          (mkUpdates amount d (f_description (formData s))) (storage s1) in
      let s2 := setStorage st s1 in
      match result with
      | None => setLoading false (setError (Some "Transaction not found."%string) s2)
      | Some updatedTransaction =>
          setLoading false
            (closeModal
               (setTransactions
                  (map (fun transaction =>
                          if has_id id transaction then updatedTransaction else transaction)
                       (transactions s2)) s2))
      end
  | Some msg, _ => setError (Some msg) s
  | None, None => s
  end.

Definition deleteTransactionHandler (id : string) (s : State) : State :=
  let s1 := setError None (setLoading true s) in
  let s2 := setStorage (mockApi_deleteTransaction id (storage s1)) s1 in
  setLoading false
    (setTransactions (filter (fun t => negb (has_id id t)) (transactions s2)) s2).
End App.
End Stage2.

(** * Vocabulary of the properties *)

Section Vocabulary.
Context {A : Arith}.

(** A list without its repetitions: each element at its first occurrence. *)
Fixpoint first_occurrences (l : list string) : list string :=
  match l with
  | [] => []
  | c :: l' => c :: filter (fun c' => negb (c' =? c)%string) (first_occurrences l')
  end.

Definition mem (c : string) (l : list string) : bool :=
  existsb (fun c' => (c' =? c)%string) l.

(** The amounts of the transactions of category [c], in list order. *)
Definition amounts_of (c : string) (txs : list Transaction) : list num :=
  map tx_amount (filter (fun t => (tx_category t =? c)%string) txs).

(** The amount budgeted for category [c], [0] without a budget. *)
Definition budgeted_for (c : string) (budgets : list Budget) : num :=
  match find (fun b => (b_category b =? c)%string) budgets with
  | Some b => b_amount b
  | None => n0
  end.

(** The sum of a non-empty list accumulated from its first element, as a
    row created by the first transaction of a category accumulates it. *)
Definition sum1 (l : list num) : num :=
  match l with
  | [] => n0
  | a :: l' => fold_left nadd l' a
  end.

(** The categories a fold over [txs] adds to rows of categories [seen]. *)
Definition new_categories (seen : list string) (txs : list Transaction) : list string :=
  first_occurrences (filter (fun c => negb (mem c seen)) (map tx_category txs)).

(** A row once the transactions [txs] are added to it, and the row the
    first transaction of category [c] among [txs] creates, once the others
    are added. *)
Definition settled (txs : list Transaction) (r : Dashboard.ComparisonRow) : Dashboard.ComparisonRow :=
  Dashboard.mkRow (Dashboard.r_category r) (Dashboard.budgeted r)
    (fold_left nadd (amounts_of (Dashboard.r_category r) txs) (Dashboard.actual r)).

Definition opened (txs : list Transaction) (c : string) : Dashboard.ComparisonRow :=
  Dashboard.mkRow c n0 (sum1 (amounts_of c txs)).

(** Accumulating from [0] or from the first element rounds to the same
    two decimals. *)
Definition sum_start_law : Prop :=
  forall (a : num) (l : list num),
    round2 (fold_left nadd l a) = round2 (fold_left nadd l (n0 + a)%num).
End Vocabulary.

(** ** Natural numbers as binary64 numbers *)

(** The binary64 number nearest to the natural number [k]; below [2^53]
    it is [k] itself. *)
Definition whole (k : Z) : float := F64.of_ratio false k 1.



(** The scenario of the specification, on binary64 numbers: three
    transactions dated by calendar days, each date the local midnight of
    its day as [new Date(y, m - 1, d)] builds it, and one budget. *)
Module Scenario.
Definition localMidnight (tz : Z) (y m d : Z) : Date :=
  Calendar.days_from_civil y m d * Calendar.msPerDay - tz.

Definition groceries (tz : Z) : Transaction (A := F64.arith) :=
  mkTransaction (A := F64.arith) "1" (localMidnight tz 2024 1 10) "Food" "Groceries" 50%float.

Definition gas (tz : Z) : Transaction (A := F64.arith) :=
  mkTransaction (A := F64.arith) "2" (localMidnight tz 2024 1 15) "Transportation" "Gas" 25%float.

Definition dinner (tz : Z) : Transaction (A := F64.arith) :=
  mkTransaction (A := F64.arith) "3" (localMidnight tz 2024 2 1) "Food" "Dinner" 100%float.

Definition transactions (tz : Z) : list (Transaction (A := F64.arith)) :=
  [groceries tz; gas tz; dinner tz].

Definition budgets : list (Budget (A := F64.arith)) :=
  [mkBudget (A := F64.arith) "Food" 120%float].
End Scenario.

(** A session on the budget tab, from the freshly mounted component:
    budgets for Food and Housing are added, then the Food budget is
    opened for editing and saved with its category changed to Housing. *)
Module BudgetSession.
Definition add (category amount : string) (s : Dashboard.State) : Dashboard.State :=
  fst (Dashboard.handleAddBudget (IO := F64.io)
         (Dashboard.setBudgetAmount amount
            (Dashboard.setBudgetCategory category (Dashboard.openBudgetForm s)))).

Definition two_budgets : Dashboard.State :=
  add "Housing" "200" (add "Food" "100" Dashboard.initial).

Definition edited : Dashboard.State :=
  fst (Dashboard.handleAddBudget (IO := F64.io)
         (Dashboard.setBudgetCategory "Housing"
            (Dashboard.handleEditBudget (IO := F64.io) "Food" two_budgets))).
End BudgetSession.

(** A transaction form filled in for a new transaction, with the amount
    as typed. *)
Module CreateSession.
Definition filled (amount : string) : Dashboard.State :=
  Dashboard.setTransactionForm (Some (Scenario.localMidnight 0 2024 1 10))
    "Food" "Groceries" amount None (Dashboard.initial (A := F64.arith)).

(** An id of the form [crypto.randomUUID()] gives. *)
Definition listed_id : string := "3f2b8c1e-5d4a-4e6f-9a7b-0c1d2e3f4a5b".

(** The same form over a list that holds a transaction of the id
    [listed_id], as the list read from [localStorage] can. *)
Definition filled_again (amount : string) : Dashboard.State :=
  Dashboard.setTransactions
    [mkTransaction (A := F64.arith) listed_id (Scenario.localMidnight 0 2024 1 15)
                   "Transportation" "Gas" 25%float]
    (filled amount).


(** The dialog of [App] of Stage2.tsx filled in, nothing listed or
    stored. *)
Definition dialog (amount : string) : Stage2.State (A := F64.arith) :=
  Stage2.mkState None [] false None true None
    (Stage2.mkFormData amount (Some (Scenario.localMidnight 0 2024 1 10)) "Groceries").
End CreateSession.

(** Two transactions of 0.004 each, in two categories. *)
Module Rounding.
Definition a : Transaction (A := F64.arith) :=
  mkTransaction (A := F64.arith) "1" (Scenario.localMidnight 0 2024 1 10)
                "Food" "Sweet" (F64.Number_ "0.004").

Definition b : Transaction (A := F64.arith) :=
  mkTransaction (A := F64.arith) "2" (Scenario.localMidnight 0 2024 1 10)
                "Other" "Stamp" (F64.Number_ "0.004").

Definition transactions : list (Transaction (A := F64.arith)) := [a; b].
End Rounding.

(** Three transactions of which the first and the last cancel each
    other: 2^70 and -2^70 for Food, 0.01 in between for another
    category. *)
Module Cancellation.
Definition transactions : list (Transaction (A := F64.arith)) :=
  [mkTransaction (A := F64.arith) "1" (Scenario.localMidnight 0 2024 1 10)
                 "Food" "Loan" (F64.Number_ "1180591620717411303424");
   mkTransaction (A := F64.arith) "2" (Scenario.localMidnight 0 2024 1 11)
                 "Other" "Stamp" (F64.Number_ "0.01");
   mkTransaction (A := F64.arith) "3" (Scenario.localMidnight 0 2024 1 12)
                 "Food" "Repaid" (F64.Number_ "-1180591620717411303424")].
End Cancellation.

(** Three transactions of one category whose amounts add up to NaN, and
    a budget of the category. *)
Module Undefined.
Definition transactions : list (Transaction (A := F64.arith)) :=
  [mkTransaction (A := F64.arith) "1" (Scenario.localMidnight 0 2024 1 10)
                 "Food" "Gift" infinity;
   mkTransaction (A := F64.arith) "2" (Scenario.localMidnight 0 2024 1 11)
                 "Food" "Refund" neg_infinity;
   mkTransaction (A := F64.arith) "3" (Scenario.localMidnight 0 2024 1 12)
                 "Food" "Snack" 5%float].
End Undefined.

(** A transaction as it is after a save and a load: an amount [-0] has
    become [0]. *)
Definition reloaded (t : Transaction (A := F64.arith)) : Transaction (A := F64.arith) :=
  mkTransaction (A := F64.arith) (tx_id t) (tx_date t) (tx_category t) (tx_description t)
    (if is_zero (tx_amount t) then PrimFloat.zero else tx_amount t).

(** Equality of transactions field by field, the amounts compared as
    [===] compares numbers. *)
Definition same_transaction (t t' : Transaction (A := F64.arith)) : Prop :=
  tx_id t = tx_id t' /\ tx_date t = tx_date t' /\ tx_category t = tx_category t'
  /\ tx_description t = tx_description t'
  /\ PrimFloat.eqb (tx_amount t) (tx_amount t') = true.

(** A transaction a collection may validly hold: its date is a time and
    its amount is finite. *)
Definition valid_transaction (t : Transaction (A := F64.arith)) : Prop :=
  Calendar.valid_time (getTime (tx_date t)) /\ is_finite (tx_amount t) = true.

(** The document of a transaction: the date as its ISO-8601 text, the
    other fields as they are. *)
Definition transaction_json (t : Transaction (A := F64.arith)) : Persistence.json :=
  Persistence.JObject
    [("id"%string, Persistence.JString (tx_id t));
     ("date"%string, Persistence.JString (Persistence.toISOString (getTime (tx_date t))));
     ("category"%string, Persistence.JString (tx_category t));
     ("description"%string, Persistence.JString (tx_description t));
     ("amount"%string, Persistence.JNumber (tx_amount (reloaded t)))].

(** A transaction whose description reads like a date. *)
Module DateLike.
Definition transactions : list (Transaction (A := F64.arith)) :=
  [mkTransaction (A := F64.arith) "1" (Scenario.localMidnight 0 2024 1 10)
                 "Food" "2024-01-10T00:00:00.000Z" 50%float;
   Scenario.gas 3600000].
End DateLike.

(** The transaction being edited, if any, is in the list. *)
Definition editing_exists {A : Arith} (s : Dashboard.State) : Prop :=
  forall i, Dashboard.editingTransactionId s = Some i -> nonempty i = true ->
            In i (map tx_id (Dashboard.transactions s)).

(** Two doubles that are equal or both zeros (of either sign). *)
Definition zeroish (x y : float) : Prop :=
  x = y \/ exists s1 s2, Prim2SF x = S754_zero s1 /\ Prim2SF y = S754_zero s2.

(** The order of dates, latest first, and the comparator that sorts into
    it. *)
Section SortKey.
Context {X : Type} (key : X -> Z).

Definition desc (a b : X) : Z := key b - key a.
Definition before (a b : X) : Prop := key b <= key a.
Definition has_key (d : Z) (a : X) : bool := key a =? d.
End SortKey.

(** * The rest of the two files *)

(** ** Dashboard.tsx: the categories and how dates are shown *)

Module DashboardText.
Local Open Scope string_scope.
Local Open Scope Z_scope.

(** [CATEGORIES]: the options of the category selects. *)
Definition CATEGORIES : list string :=
  ["Food"; "Housing"; "Transportation"; "Entertainment"; "Utilities";
   "Healthcare"; "Clothing"; "Savings"; "Other"].

(** [formatDate]: [format(date, 'yyyy-MM-dd')] of date-fns, the year of
    the era, the month and the day of the month of the local time, each
    padded with leading zeros. [tz] is the offset of the local time. *)
Definition formatDate (tz : Z) (date : Date) : string :=
  let t := getTime date + tz in
  let signedYear := Calendar.YearFromTime t in
  let year := if 0 <? signedYear then signedYear else 1 - signedYear in
  Text.padStart0 4 year ++ "-" ++ Text.padStart0 2 (Calendar.MonthFromTime t + 1)
  ++ "-" ++ Text.padStart0 2 (Calendar.DateFromTime t).

End DashboardText.

(** ** Dashboard.tsx: the budget tab *)

Module BudgetTab.
Section Tab.
Context {A : Arith} {IO : NumberIO A}.

(** The "Cancel" button of the budget form:
    [setIsAddingBudget(false); clearBudgetForm()]. *)
Definition cancelBudgetForm (s : Dashboard.State) : Dashboard.State :=
  Dashboard.clearBudgetForm (Dashboard.setIsAddingBudget false s).

(** What the user can do on the budget tab. *)
Inductive Event :=
| ClickAddBudget
| ClickCancel
| SelectCategory (c : string)
| TypeAmount (a : string)
| ClickSave
| ClickEdit (category : string)
| ClickDelete (category : string).

Definition step (e : Event) (s : Dashboard.State) : Dashboard.State :=
  match e with
  | ClickAddBudget => Dashboard.openBudgetForm s
  | ClickCancel => cancelBudgetForm s
  | SelectCategory c => Dashboard.setBudgetCategory c s
  | TypeAmount a => Dashboard.setBudgetAmount a s
  | ClickSave => fst (Dashboard.handleAddBudget s)
  | ClickEdit category => Dashboard.handleEditBudget category s
  | ClickDelete category => Dashboard.handleDeleteBudget category s
  end.

Definition run (events : list Event) (s : Dashboard.State) : Dashboard.State :=
  fold_left (fun s e => step e s) events s.
End Tab.
End BudgetTab.

(** ** Dashboard.tsx: persistence of the budgets *)

(** The budgets are saved with [JSON.stringify] and loaded with
    [JSON.parse] without a reviver. *)
Module BudgetStorage.
Import Persistence.

(** [JSON.parse(text)], on the tree of the text: every value as it is. *)
Definition parse (doc : json) : value := revive (fun _ v => v) ""%string doc.

(** A budget as the object the component holds. *)
Definition budget_value (b : Budget (A := F64.arith)) : value :=
  VObject [("category"%string, VString (b_category b));
           ("amount"%string, VNumber (b_amount b))].

Definition budgets_value (bs : list (Budget (A := F64.arith))) : value :=
  VArray (map budget_value bs).

(** The effect that saves the budgets:
    [localStorage.setItem('financeBudgets', JSON.stringify(budgets))]. *)
Definition save (bs : list (Budget (A := F64.arith))) : option json :=
  Some (stringify (budgets_value bs)).

(** The initial state of [budgets]: [saved ? JSON.parse(saved) : []]. *)
Definition load (saved : option json) : value :=
  match saved with
  | Some doc => parse doc
  | None => VArray []
  end.
End BudgetStorage.

(** ** Stage2.tsx: [fetchTransactions], [TransactionForm] and the figures
    of [DashboardPage] *)

(** A transaction of this component is an object with the fields [_id],
    [amount], [date], [description] and [category]: the record
    [Transaction] on binary64 numbers, [tx_id] being [_id]. *)
Module Stage2Page.
Local Open Scope string_scope.
Local Open Scope Z_scope.

Local Abbreviation Tx := (Transaction (A := F64.arith)).
Local Abbreviation mkTx := (mkTransaction (A := F64.arith)).

(** [new Date(year, monthIndex, day)]: the local midnight of the day. *)
Definition localDate (tz : Z) (year monthIndex day : Z) : Date :=
  Calendar.days_from_civil year (monthIndex + 1) day * Calendar.msPerDay - tz.

(** The transactions [fetchTransactions] resolves to. *)
Definition fetchTransactions (tz : Z) : list Tx :=
  [mkTx "1" (localDate tz 2024 0 10) "Food" "Groceries" 50%float;
   mkTx "2" (localDate tz 2024 0 15) "Transportation" "Gas" 25%float;
   mkTx "3" (localDate tz 2024 0 20) "Food" "Dinner" 100%float;
   mkTx "4" (localDate tz 2024 0 5) "Entertainment" "Movie" 30%float;
   mkTx "5" (localDate tz 2024 1 12) "Utilities" "Utilities" 75%float;
   mkTx "6" (localDate tz 2024 1 18) "Shopping" "Clothes" 200%float;
   mkTx "7" (localDate tz 2024 1 22) "Food" "Lunch" 60%float;
   mkTx "8" (localDate tz 2024 2 8) "Transportation" "Bus Fare" 40%float;
   mkTx "9" (localDate tz 2024 2 14) "Entertainment" "Concert" 120%float;
   mkTx "10" (localDate tz 2024 2 25) "Utilities" "Internet" 90%float].

(** [transactions.reduce((acc, t) => acc + t.amount, 0)]. *)
Definition totalExpenses (transactions : list Tx) : float :=
  fold_left (fun (acc : float) (t : Tx) => (acc + tx_amount t)%float) transactions 0%float.

(** [!v] for the result [v] of a property read ([None] is [undefined]). *)
Definition falsy (v : option float) : bool :=
  match v with
  | Some x => negb (F64.ToBoolean x)
  | None => true
  end.

(** The number a property read gives to [+]: [undefined] converts to
    NaN. *)
Definition ToNumber (v : option float) : float :=
  match v with
  | Some x => x
  | None => nan
  end.

(** The reducer of [categoryBreakdown]:
    [if (!acc[category]) acc[category] = 0; acc[category] += t.amount]. *)
Definition categoryBreakdown (transactions : list Tx) : Obj.t float :=
  fold_left (fun (acc : Obj.t float) (t : Tx) =>
               let category := tx_category t in
               let acc1 := if falsy (Obj.get acc category)
                           then Obj.set acc category 0%float else acc in
               Obj.set acc1 category
                 (ToNumber (Obj.get acc1 category) + tx_amount t)%float)
            transactions [].

Record PieSlice := mkPieSlice { name : string; value : float }.

Definition categoryPieData (transactions : list Tx) : list PieSlice :=
  map (fun '(name, value) => mkPieSlice name value)
      (Obj.entries (categoryBreakdown transactions)).

(** *** [TransactionForm] *)

(** The state of the form; the amount comes from an input of type
    [number]. *)
Record Form := mkForm {
  amount : string;
  date : option Date;
  description : string;
  category : string;
  isSubmitting : bool;
  formError : string
}.

(** The state of the page the form acts on. *)
Record Page := mkPage {
  transactions : list Tx;
  showAddTransactionModal : bool
}.

Definition setFormError (e : string) (f : Form) : Form :=
  mkForm (amount f) (date f) (description f) (category f) (isSubmitting f) e.

(** [handleSubmit], with [onAddTransaction] the page's
    [handleAddTransaction] and [onClose] closing the modal. [uuid] is what
    [crypto.randomUUID()] returns and [now] what [new Date()] returns. *)
Definition handleSubmit (uuid : string) (now : Date) (f : Form) (p : Page) : Form * Page :=
  if negb (nonempty (amount f)) || negb (defined (date f))
     || negb (nonempty (description f)) || negb (nonempty (category f))
  then (setFormError "Please fill in all fields." f, p)
  else if (F64.Number_ (amount f) <=? 0)%float
  then (setFormError "Amount must be greater than zero." f, p)
  else
    match date f with
    | Some d =>
        let newTransaction :=
          mkTx uuid d (category f) (description f) (F64.Number_ (amount f)) in
        (mkForm "" (Some now) "" "" false "",
         mkPage (DashboardPage.handleAddTransaction newTransaction (transactions p)) false)
    | None => (f, p)
    end.
End Stage2Page.

(** ** Stage2.tsx: the dialog, the chart and the views of [App] *)

Module App.
Section UI.
Context {A : Arith} {IO : NumberIO A}.

(** The local time zone, as for [Dashboard]. *)
Variable tz : Z.

(** [openModal(transaction)]; [None] is the call without an argument. *)
Definition openModal (transaction : option Stage2.Transaction) (s : Stage2.State)
    : Stage2.State :=
  match transaction with
  | Some t =>
      Stage2.mkState (Stage2.storage s) (Stage2.transactions s) (Stage2.loading s)
        (Stage2.error s) true (Some t)
        (Stage2.mkFormData (toString (Stage2.t_amount t)) (Some (Stage2.t_date t))
                           (Stage2.t_description t))
  | None =>
      Stage2.mkState (Stage2.storage s) (Stage2.transactions s) (Stage2.loading s)
        (Stage2.error s) true None
        (Stage2.mkFormData ""%string None ""%string)
  end.

Definition setFormData (f : Stage2.FormData) (s : Stage2.State) : Stage2.State :=
  Stage2.mkState (Stage2.storage s) (Stage2.transactions s) (Stage2.loading s)
    (Stage2.error s) (Stage2.isDialogOpen s) (Stage2.editingTransaction s) f.

(** The named inputs of the dialog. *)
Inductive Field := Amount | Description.

(** [handleInputChange]: [{...formData, [e.target.name]: e.target.value}]. *)
Definition handleInputChange (name : Field) (value : string) (s : Stage2.State)
    : Stage2.State :=
  let f := Stage2.formData s in
  match name with
  | Amount =>
      setFormData (Stage2.mkFormData value (Stage2.f_date f) (Stage2.f_description f)) s
  | Description =>
      setFormData (Stage2.mkFormData (Stage2.f_amount f) (Stage2.f_date f) value) s
  end.

(** [handleDateChange]: [{...formData, date}]. *)
Definition handleDateChange (date : option Date) (s : Stage2.State) : Stage2.State :=
  let f := Stage2.formData s in
  setFormData (Stage2.mkFormData (Stage2.f_amount f) date (Stage2.f_description f)) s.

(** What the component renders: [if (loading) return ...; if (error)
    return ...; return ...]. Only the last has buttons and inputs. *)
Inductive View :=
| Loading
| ErrorPanel (message : string)
| Main.

Definition view (s : Stage2.State) : View :=
  if Stage2.loading s then Loading
  else match Stage2.error s with
       | Some message => if nonempty message then ErrorPanel message else Main
       | None => Main
       end.

(** What the user can do: the "Add Transaction" button, the buttons of a
    row, and the inputs and buttons of the dialog. [uuid] and [now] are
    what [crypto.randomUUID()] and [new Date()] return to the handler. *)
Inductive Event :=
| ClickAddTransaction
| ClickEdit (transaction : Stage2.Transaction)
| ClickDelete (id : string)
| Type_ (name : Field) (value : string)
| PickDate (date : option Date)
| ClickCancel
| ClickSubmit (uuid : string) (now : Date * Date).

(** The handler an event runs. The submit button runs
    [updateTransaction(editingTransaction.id)] or [addTransaction()]. *)
Definition handle (e : Event) (s : Stage2.State) : Stage2.State :=
  match e with
  | ClickAddTransaction => openModal None s
  | ClickEdit transaction => openModal (Some transaction) s
  | ClickDelete id => Stage2.deleteTransactionHandler id s
  | Type_ name value => handleInputChange name value s
  | PickDate date => handleDateChange date s
  | ClickCancel => Stage2.closeModal s
  | ClickSubmit uuid now =>
      match Stage2.editingTransaction s with
      | Some t => Stage2.updateTransaction (fst now) (Stage2.t_id t) s
      | None => Stage2.addTransaction uuid now s
      end
  end.

(** An event reaches its handler when the view that holds its control is
    rendered. *)
Definition step (e : Event) (s : Stage2.State) : Stage2.State :=
  match view s with
  | Main => handle e s
  | _ => s
  end.

Definition run (events : list Event) (s : Stage2.State) : Stage2.State :=
  fold_left (fun s e => step e s) events s.

(** The state of the component once mounted with nothing stored: the
    effect that loads the transactions has run. *)
Definition mounted : Stage2.State :=
  Stage2.mkState None [] false None false None
    (Stage2.mkFormData ""%string None ""%string).

(** *** The chart *)

Record ChartPoint := mkChartPoint { c_date : string; c_amount : num }.

(** [groupedData] of [prepareChartData]:
    [if (groupedData[d]) groupedData[d] += t.amount; else groupedData[d] = t.amount]. *)
Definition groupedData (transactions : list Stage2.Transaction) : Obj.t num :=
  fold_left (fun groupedData t =>
               let formattedDate := DashboardText.formatDate tz (Stage2.t_date t) in
               match Obj.get groupedData formattedDate with
               | Some x =>
                   if ToBoolean x
                   then Obj.set groupedData formattedDate (x + Stage2.t_amount t)%num
                   else Obj.set groupedData formattedDate (Stage2.t_amount t)
               | None => Obj.set groupedData formattedDate (Stage2.t_amount t)
               end)
            transactions [].

(** [prepareChartData]: the value it gives to [chartData]. *)
Definition prepareChartData (transactions : list Stage2.Transaction) : list ChartPoint :=
  match transactions with
  | [] => []
  | _ => map (fun '(date, amount) => mkChartPoint date amount)
             (Obj.entries (groupedData transactions))
  end.
End UI.
End App.

(** ** Stage2.tsx: loading the stored transactions *)

(** [mockApi.getTransactions] and the effect of [App] that runs it. The
    stored text is read by [JSON.parse] without a reviver, so what the
    effect sorts are the values of a document. *)
Module Reload.
Import Persistence.

(** The outcome of an evaluation: a value, an exception, or a value the
    language leaves to the implementation. *)
Inductive outcome (X : Type) :=
| Returns (x : X)
| Throws
| ImplementationDefined.

Arguments Returns {X} x.
Arguments Throws {X}.
Arguments ImplementationDefined {X}.

Definition bind {X Y : Type} (o : outcome X) (f : X -> outcome Y) : outcome Y :=
  match o with
  | Returns x => f x
  | Throws => Throws
  | ImplementationDefined => ImplementationDefined
  end.

(** [v.date]: reading a property of [null] throws; an object has the
    property or not ([None] is [undefined]); no other value has it. *)
Definition get_date (v : value) : outcome (option value) :=
  match v with
  | VNull => Throws
  | VObject l => Returns (Obj.get l "date"%string)
  | _ => Returns None
  end.

(** [d.getTime()]: only a [Date] has the method; the call throws on every
    other value. *)
Definition call_getTime (d : option value) : outcome time_value :=
  match d with
  | Some (VDate t) => Returns t
  | _ => Throws
  end.

(** The comparator [(a, b) => b.date.getTime() - a.date.getTime()], as
    the sort reads its result: NaN counts as 0. *)
Definition byDateDescending (a b : value) : outcome Z :=
  bind (get_date b) (fun db =>
  bind (call_getTime db) (fun tb =>
  bind (get_date a) (fun da =>
  bind (call_getTime da) (fun ta =>
    match tb, ta with
    | Time x, Time y => Returns (x - y)
    | Unspecified, _ => ImplementationDefined
    | _, Unspecified => ImplementationDefined
    | _, _ => Returns 0
    end)))).

(** [Array.prototype.sort(cmp)] with a comparator that may throw: the
    sort of a list of two or more elements calls the comparator, and an
    exception of the comparator ends the sort. *)
Section SortWith.
Context {X : Type} (cmp : X -> X -> outcome Z).

Fixpoint insert_with (x : X) (l : list X) : outcome (list X) :=
  match l with
  | [] => Returns [x]
  | y :: l' =>
      bind (cmp x y) (fun c =>
        if c <=? 0 then Returns (x :: y :: l')
        else bind (insert_with x l') (fun r => Returns (y :: r)))
  end.

Fixpoint sort_with (l : list X) : outcome (list X) :=
  match l with
  | [] => Returns []
  | x :: l' => bind (sort_with l') (insert_with x)
  end.
End SortWith.

(** [mockApi.getTransactions]:
    [storedTransactions ? JSON.parse(storedTransactions) : []]. *)
Definition getTransactions (storedTransactions : option json) : value :=
  match storedTransactions with
  | Some doc => BudgetStorage.parse doc
  | None => VArray []
  end.

(** [data.sort(...)]: only an array has the method. *)
Definition sorted (data : value) : outcome (list value) :=
  match data with
  | VArray l => sort_with byDateDescending l
  | _ => Throws
  end.

(** The part of the state of [App] the effect acts on. *)
Record State := mkState {
  transactions : list value;
  loading : bool;
  error : option string
}.

(** The effect [fetchTransactions] of [App]. [message] is the text of the
    exception, if one is thrown. *)
Definition fetchTransactions (message : string) (storedTransactions : option json)
    (s : State) : outcome State :=
  match sorted (getTransactions storedTransactions) with
  | Returns data => Returns (mkState data false None)
  | Throws =>
      Returns (mkState (transactions s) false
                 (Some (if nonempty message then message
                        else "Failed to fetch transactions"%string)))
  | ImplementationDefined => ImplementationDefined
  end.

(** A date field that is a [Date] or a text. *)
Definition stamp_value (c : Stage2.Stamp) : value :=
  match c with
  | Stage2.AsDate d => VDate (Time (getTime d))
  | Stage2.AsText s => VString s
  end.

(** A transaction as the object [mockApi] holds and stores. *)
Definition transaction_value (t : Stage2.Transaction (A := F64.arith)) : value :=
  VObject [("amount"%string, VNumber (Stage2.t_amount t));
           ("date"%string, VDate (Time (getTime (Stage2.t_date t))));
           ("description"%string, VString (Stage2.t_description t));
           ("id"%string, VString (Stage2.t_id t));
           ("createdAt"%string, stamp_value (Stage2.t_createdAt t));
           ("updatedAt"%string, VDate (Time (getTime (Stage2.t_updatedAt t))))].

(** What [localStorage.setItem("transactions", JSON.stringify(transactions))]
    stores for a list of such objects. *)
Definition stored_document (l : list (Stage2.Transaction (A := F64.arith))) : option json :=
  Some (stringify (VArray (map transaction_value l))).
End Reload.

(** ** Vocabulary of the further properties *)

(** Is a key an array index? *)
Definition is_index (k : string) : bool := defined (Obj.array_index k).

(** The order in which the properties of an object are enumerated, on
    two keys: an array index comes before a larger one and before every
    other key. *)
Definition enumerated_before (a b : string) : Prop :=
  match Obj.array_index a, Obj.array_index b with
  | Some i, Some j => i <= j
  | Some _, None => True
  | None, Some _ => False
  | None, None => True
  end.

(** The elements of [l] that are not in [seen], each at its first
    occurrence. *)
Definition unseen (seen l : list string) : list string :=
  first_occurrences (filter (fun c => negb (mem c seen)) l).

Section Grouping.
Context {V T : Type} (key : T -> string).

(** The dictionary a loop of assignments [o[key t] = val o t] builds. *)
Definition assigned (val : Obj.t V -> T -> V) (o : Obj.t V) (l : list T) : Obj.t V :=
  fold_left (fun o t => Obj.set o (key t) (val o t)) l o.

(** The elements of key [k], in list order. *)
Definition with_key (k : string) (l : list T) : list T :=
  filter (fun t => (key t =? k)%string) l.
End Grouping.

(** The assignment of the sums by key: [(o[k] || 0) + amount]. *)
Definition add_to {A : Arith} {T : Type} (key : T -> string) (amount : T -> num)
    (o : Obj.t num) (t : T) : num :=
  (or0 (Obj.get o (key t)) + amount t)%num.

(** The elements of [l] have keys that name no member of
    [Object.prototype]. *)
Definition ordinary {T : Type} (key : T -> string) (l : list T) : Prop :=
  forall t, In t l -> Obj.inherited (key t) = false.

(** The total a loop of assignments [o[k] = (o[k] || 0) + x] leaves
    under a key that is assigned the amounts [l]: a total that is falsy,
    0 or NaN, counts as 0 when the next amount is added. *)
Definition sum_or0 {A : Arith} (l : list num) : num :=
  fold_left (fun acc x => (or0 (Some acc) + x)%num) l n0.

(** The total a loop [if (o[k]) o[k] += x; else o[k] = x] leaves under a
    key that is assigned the amounts [l]: a total that is falsy is
    replaced by the next amount. *)
Definition sum_reset {A : Arith} (l : list num) : num :=
  match l with
  | [] => n0
  | a :: l' => fold_left (fun acc x => if ToBoolean acc then (acc + x)%num else x) l' a
  end.

(** The assignment of the loop [if (o[k]) o[k] += x; else o[k] = x]. *)
Definition reset_to {A : Arith} {T : Type} (key : T -> string) (amount : T -> num)
    (o : Obj.t num) (t : T) : num :=
  match Obj.get o (key t) with
  | Some x => if ToBoolean x then (x + amount t)%num else amount t
  | None => amount t
  end.

(** A transaction the form lets through: a category, a description and
    an amount that is a number. *)
Definition well_formed {A : Arith} {IO : NumberIO A} (t : Transaction) : Prop :=
  tx_category t <> ""%string /\ tx_description t <> ""%string
  /\ isNaN (tx_amount t) = false.

(** A budget the form lets through: a category and an amount above 0. *)
Definition positive_budget (b : Budget (A := F64.arith)) : Prop :=
  b_category b <> ""%string /\ (0 <? b_amount b)%float = true.

(** A number as it comes back from a document. *)
Definition number_back (x : float) : Persistence.value :=
  if is_finite x then Persistence.VNumber (if is_zero x then PrimFloat.zero else x)
  else Persistence.VNull.

(** A budget and a transaction as they come back from their documents. *)
Definition budget_back (b : Budget (A := F64.arith)) : Persistence.value :=
  Persistence.VObject [("category"%string, Persistence.VString (b_category b));
                       ("amount"%string, number_back (b_amount b))].

Definition transaction_back (t : Transaction (A := F64.arith)) : Persistence.value :=
  Persistence.VObject
    [("id"%string, Persistence.VString (tx_id t));
     ("date"%string, Persistence.VDate (Persistence.Time (getTime (tx_date t))));
     ("category"%string, Persistence.VString (tx_category t));
     ("description"%string, Persistence.VString (tx_description t));
     ("amount"%string, number_back (tx_amount t))].

(** The amounts of [App] are above 0 in the list, and above 0 or
    [null] in the store. *)
Definition positive_amounts (s : Stage2.State (A := F64.arith)) : Prop :=
  Forall (fun t : Stage2.Transaction (A := F64.arith) =>
            (0 <? Stage2.t_amount t)%float = true) (Stage2.transactions s)
  /\ Forall (fun t : Stage2.Stored (A := F64.arith) =>
               match Stage2.s_amount t with
               | Some x => (0 <? x)%float = true
               | None => True
               end)
            (Stage2.stored (Stage2.storage s)).

(** The store holds the stored forms of the transactions of the list of
    [App], each once. *)
Definition in_sync {A : Arith} {IO : NumberIO A} (s : Stage2.State) : Prop :=
  Permutation (map Stage2.written (Stage2.transactions s)) (Stage2.stored (Stage2.storage s))
  /\ NoDup (map Stage2.t_id (Stage2.transactions s)).

(** What [prepareChartData] assigns to the date of a transaction. *)
Definition chart_amount {A : Arith} (tz : Z) (o : Obj.t num) (t : Stage2.Transaction) : num :=
  match Obj.get o (DashboardText.formatDate tz (Stage2.t_date t)) with
  | Some x => if ToBoolean x then (x + Stage2.t_amount t)%num else Stage2.t_amount t
  | None => Stage2.t_amount t
  end.

(** A value read from a document. *)
Definition parsed (v : Persistence.value) : Prop :=
  exists key doc, v = Persistence.revive (fun _ v => v) key doc.

(** The budget being edited, if any, is the one of the category in the
    form. *)
Definition editing_own_category {A : Arith} (s : Dashboard.State) : Prop :=
  forall e, Dashboard.editingBudgetId s = Some e -> nonempty e = true ->
            Dashboard.budgetCategory s = e.

(** A run of events on the budget tab in which the category of the form
    is not changed while a budget is being edited. *)
Fixpoint keeps_edited_category {A : Arith} {IO : NumberIO A}
    (events : list BudgetTab.Event) (s : Dashboard.State) : Prop :=
  match events with
  | [] => True
  | e :: events' =>
      match e with
      | BudgetTab.SelectCategory _ =>
          Dashboard.truthy_id (Dashboard.editingBudgetId s) = false
      | _ => True
      end
      /\ keeps_edited_category events' (BudgetTab.step e s)
  end.

(** [App] with one transaction, listed and stored, and the dialog
    opened on it. *)
Module AppScenario.
Definition listed : Stage2.Transaction (A := F64.arith) :=
  Stage2.mkTransaction (A := F64.arith) "id-1" 50%float 0 "Groceries"%string
    (Stage2.AsDate 0) 0.

Definition editing : Stage2.State (A := F64.arith) :=
  App.openModal (IO := F64.io) (Some listed)
    (Stage2.mkState (Some [Stage2.written (IO := F64.io) listed]) [listed]
       false None false None (Stage2.mkFormData ""%string None ""%string)).

(** The state after the dialog is saved at the time 7. *)
Definition saved : Stage2.State (A := F64.arith) :=
  App.step (IO := F64.io) (App.ClickSubmit "id-2" (7, 7)) editing.

Definition updated : Stage2.Transaction (A := F64.arith) :=
  Stage2.mkTransaction (A := F64.arith) "id-1" 50%float 0 "Groceries"%string
    (Stage2.AsText "1970-01-01T00:00:00.000Z") 7.
End AppScenario.

(** * Properties *)

(** ** Deletion *)

Section Deletion.
Context {A : Arith} {IO : NumberIO A}.

Lemma filter_filter_same {X : Type} (p : X -> bool) (l : list X) :
  filter p (filter p l) = filter p l.
Proof.
  induction l as [|x l IH]; simpl; [reflexivity|].
  destruct (p x) eqn:E; simpl; rewrite ?E, IH; reflexivity.
Qed.

Lemma filter_all_true {X : Type} (p : X -> bool) (l : list X) :
  (forall x, In x l -> p x = true) -> filter p l = l.
Proof.
  induction l as [|x l IH]; simpl; intros H; [reflexivity|].
  rewrite (H x (or_introl eq_refl)), IH; auto.
Qed.

Lemma keeps_other_ids (i j : string) : negb (i =? j)%string = true <-> i <> j.
Proof.
  rewrite negb_true_iff. split.
  - intros E ->. rewrite String.eqb_refl in E. discriminate.
  - intros N. apply String.eqb_neq. exact N.
Qed.

Lemma In_filter_other {X : Type} (key : X -> string) (id : string) (l : list X) (x : X) :
  In x (filter (fun y => negb (key y =? id)%string) l) <-> In x l /\ key x <> id.
Proof.
  rewrite filter_In, keeps_other_ids. reflexivity.
Qed.

(** C9. Deleting a transaction by id keeps exactly the entries with
    another id, in their order; it is a total function with no error
    outcome, leaves the list as it is when no entry has the id, and a
    second deletion of the same id changes nothing. This holds for
    [handleDeleteTransaction] of Dashboard.tsx and for
    [mockApi.deleteTransaction] and its handler of Stage2.tsx. *)
Theorem delete_is_idempotent :
  forall (id : string) (s : Dashboard.State) (s2 : Stage2.State),
    let s' := Dashboard.handleDeleteTransaction id s in
    let s2' := Stage2.deleteTransactionHandler id s2 in
    (forall t, In t (Dashboard.transactions s')
               <-> In t (Dashboard.transactions s) /\ tx_id t <> id)
    /\ ((forall t, In t (Dashboard.transactions s) -> tx_id t <> id)
        -> Dashboard.transactions s' = Dashboard.transactions s)
    /\ Dashboard.handleDeleteTransaction id s' = s'
    /\ (forall t, In t (Stage2.stored (Stage2.storage s2'))
                  <-> In t (Stage2.stored (Stage2.storage s2)) /\ Stage2.s_id t <> id)
    /\ (forall t, In t (Stage2.transactions s2')
                  <-> In t (Stage2.transactions s2) /\ Stage2.t_id t <> id)
    /\ Stage2.error s2' = None
    /\ Stage2.deleteTransactionHandler id s2' = s2'.
Proof.
  intros id s s2 s' s2'. subst s' s2'. destruct s, s2.
  unfold Dashboard.handleDeleteTransaction, Stage2.deleteTransactionHandler,
    Stage2.mockApi_deleteTransaction, Stage2.has_id, Stage2.stored_has_id; cbn.
  split; [intros t; exact (In_filter_other tx_id id _ t)|].
  split.
  { intros H. apply filter_all_true. intros t Ht. apply keeps_other_ids. auto. }
  split.
  { rewrite filter_filter_same. reflexivity. }
  split; [intros t; exact (In_filter_other Stage2.s_id id _ t)|].
  split; [intros t; exact (In_filter_other Stage2.t_id id _ t)|].
  split; [reflexivity|].
  rewrite !filter_filter_same. reflexivity.
Qed.
End Deletion.

(** ** Sorting by date *)

Section SortByKey.
Context {X : Type} (key : X -> Z).

Local Abbreviation desc := (desc key).
Local Abbreviation before := (before key).
Local Abbreviation has_key := (has_key key).

Lemma insert_perm (x : X) (l : list X) : Permutation (x :: l) (insert desc x l).
Proof.
  induction l as [|y l IH]; simpl; [reflexivity|].
  destruct (desc x y <=? 0); [reflexivity|].
  rewrite perm_swap. constructor. exact IH.
Qed.

Lemma sort_perm (l : list X) : Permutation l (sort desc l).
Proof.
  induction l as [|x l IH]; simpl; [constructor|].
  rewrite <- insert_perm. constructor. exact IH.
Qed.

Lemma insert_sorted (x : X) (l : list X) :
  StronglySorted before l -> StronglySorted before (insert desc x l).
Proof.
  induction 1 as [|y l Hs IH Hy]; simpl.
  - repeat constructor.
  - unfold desc at 1. destruct (Z.leb_spec (key y - key x) 0) as [Hle|Hgt].
    + constructor; [constructor; assumption|].
      constructor; [unfold before; lia|].
      eapply Forall_impl; [|exact Hy]. unfold before. intros; lia.
    + constructor; [exact IH|].
      apply (Permutation_Forall (insert_perm x l)).
      constructor; [unfold before; lia | exact Hy].
Qed.

Lemma sort_sorted (l : list X) : StronglySorted before (sort desc l).
Proof.
  induction l as [|x l IH]; simpl; [constructor|].
  apply insert_sorted. exact IH.
Qed.

Lemma insert_stable (d : Z) (x : X) (l : list X) :
  filter (has_key d) (insert desc x l) = filter (has_key d) (x :: l).
Proof.
  induction l as [|y l IH]; [reflexivity|].
  cbn [insert]. unfold desc at 1.
  destruct (Z.leb_spec (key y - key x) 0) as [Hle|Hgt]; [reflexivity|].
  cbn [filter] in *. rewrite IH. unfold has_key.
  destruct (Z.eqb_spec (key y) d), (Z.eqb_spec (key x) d); try reflexivity. lia.
Qed.

(** Entries with equal keys keep their relative order. *)
Lemma sort_stable (d : Z) (l : list X) :
  filter (has_key d) (sort desc l) = filter (has_key d) l.
Proof.
  induction l as [|x l IH]; [reflexivity|].
  cbn [sort]. rewrite insert_stable. cbn [filter]. rewrite IH. reflexivity.
Qed.

Lemma filter_has_key_head (x : X) (l : list X) :
  filter (has_key (key x)) (x :: l) = x :: filter (has_key (key x)) l.
Proof.
  cbn [filter]. unfold has_key at 1. rewrite Z.eqb_refl. reflexivity.
Qed.

Lemma head_key_is_max (x y : X) (l1 l2 : list X) :
  StronglySorted before (y :: l2) ->
  filter (has_key (key x)) (y :: l2) = filter (has_key (key x)) (x :: l1) ->
  key x <= key y.
Proof.
  intros Hs Hf. rewrite filter_has_key_head in Hf.
  assert (Hin : In x (filter (has_key (key x)) (y :: l2))) by (rewrite Hf; left; reflexivity).
  apply filter_In in Hin. destruct Hin as [[->|Hin] _]; [lia|].
  inversion Hs as [|? ? _ Hall]; subst.
  rewrite Forall_forall in Hall. apply Hall. exact Hin.
Qed.

(** There is one stable sorted arrangement: two lists sorted by key that
    agree on the sequence of entries of every key are equal. So [sort]
    is the result of any stable sorting algorithm. *)
Lemma stable_sorted_unique (l1 l2 : list X) :
  StronglySorted before l1 -> StronglySorted before l2 ->
  (forall d, filter (has_key d) l1 = filter (has_key d) l2) ->
  l1 = l2.
Proof.
  revert l2. induction l1 as [|x l1 IH]; intros l2 H1 H2 Hf.
  - destruct l2 as [|y l2]; [reflexivity|].
    specialize (Hf (key y)). rewrite filter_has_key_head in Hf. discriminate.
  - destruct l2 as [|y l2].
    { specialize (Hf (key x)). rewrite filter_has_key_head in Hf. discriminate. }
    assert (Hxy : key x <= key y) by (eapply head_key_is_max; [exact H2 | apply eq_sym, Hf]).
    assert (Hyx : key y <= key x) by (eapply head_key_is_max; [exact H1 | apply Hf]).
    assert (Hk : key y = key x) by lia.
    pose proof (Hf (key x)) as Hh.
    rewrite filter_has_key_head in Hh. rewrite <- Hk in Hh at 2.
    rewrite filter_has_key_head in Hh. injection Hh as Hhead Htail. subst y.
    f_equal. apply IH.
    + inversion H1; assumption.
    + inversion H2; assumption.
    + intros d. specialize (Hf d). cbn [filter] in Hf.
      destruct (has_key d x); [injection Hf; auto | exact Hf].
Qed.
End SortByKey.

Section Recent.
Context {A : Arith}.

Lemma sortedByDate_eq (txs : list Transaction) :
  Dashboard.sortedByDate txs = sort (desc (fun t => getTime (tx_date t))) txs.
Proof. reflexivity. Qed.

(** In Dashboard.tsx, [recent n] is the first [n] entries of the
    transactions arranged by date, latest first, entries of equal date in
    their original order: the arrangement is a permutation of the list,
    sorted, and stable; [recent n] has [min n (length txs)] entries and
    none of the entries left out is later than one taken. The component
    calls it with [n = 5]. *)
Theorem recent_is_latest_first :
  forall (n : nat) (txs : list Transaction),
    let sorted := Dashboard.sortedByDate txs in
    Permutation txs sorted
    /\ StronglySorted (fun a b => getTime (tx_date b) <= getTime (tx_date a)) sorted
    /\ (forall d, filter (fun t => getTime (tx_date t) =? d) sorted
                  = filter (fun t => getTime (tx_date t) =? d) txs)
    /\ Dashboard.recent n txs = firstn n sorted
    /\ List.length (Dashboard.recent n txs) = Nat.min n (List.length txs)
    /\ (forall a b, In a (Dashboard.recent n txs) -> In b (skipn n sorted)
                    -> getTime (tx_date b) <= getTime (tx_date a))
    /\ Dashboard.recentTransactions txs = Dashboard.recent 5 txs.
Proof.
  intros n txs sorted. subst sorted. rewrite sortedByDate_eq.
  set (key := fun t : Transaction => getTime (tx_date t)).
  pose proof (sort_perm key txs) as Hp.
  pose proof (sort_sorted key txs) as Hs.
  split; [exact Hp|]. split; [exact Hs|].
  split; [intros d; exact (sort_stable key d txs)|].
  split; [reflexivity|].
  split.
  { unfold Dashboard.recent, slice0. rewrite sortedByDate_eq, length_firstn.
    fold key. rewrite <- (Permutation_length Hp). reflexivity. }
  split; [|reflexivity].
  intros a b Ha Hb. unfold Dashboard.recent, slice0 in Ha. rewrite sortedByDate_eq in Ha.
  fold key in Ha. revert Ha Hb Hs. generalize (sort (desc key) txs) as l. clear Hp.
  induction n as [|n IH]; intros l Ha Hb Hs; [destruct Ha|].
  destruct l as [|x l]; [destruct Ha|].
  cbn [firstn skipn] in Ha, Hb. inversion Hs as [|? ? Hs' Hall]; subst.
  destruct Ha as [->|Ha].
  - rewrite Forall_forall in Hall. apply Hall.
    rewrite <- (firstn_skipn n l). apply in_or_app. right. exact Hb.
  - exact (IH l Ha Hb Hs').
Qed.

(** In Stage2.tsx, [DashboardPage] lists the first five transactions of a
    list to which additions go at the front, whatever their dates. *)
Lemma DashboardPage_recent_is_prefix {X : Type} (new : X) (prev : list X) :
  DashboardPage.recentTransactions (DashboardPage.handleAddTransaction new prev)
  = new :: firstn 4 prev.
Proof. reflexivity. Qed.
End Recent.

(** ** Budget against actual spending *)

Section Comparison.
Context {A : Arith}.

Local Abbreviation Row := (Dashboard.ComparisonRow (A := A)).
Local Abbreviation r_category := (Dashboard.r_category (A := A)).
Local Abbreviation budgeted := (Dashboard.budgeted (A := A)).
Local Abbreviation actual := (Dashboard.actual (A := A)).
Local Abbreviation mkRow := (Dashboard.mkRow (A := A)).

Lemma mem_true_iff (c : string) (l : list string) : mem c l = true <-> In c l.
Proof.
  unfold mem. rewrite existsb_exists. split.
  - intros [c' [Hin E]]. apply String.eqb_eq in E. subst. exact Hin.
  - intros Hin. exists c. split; [exact Hin | apply String.eqb_refl].
Qed.

Lemma mem_false_iff (c : string) (l : list string) : mem c l = false <-> ~ In c l.
Proof.
  rewrite <- mem_true_iff. destruct (mem c l); split; congruence.
Qed.

Lemma mem_app (c : string) (l1 l2 : list string) :
  mem c (l1 ++ l2) = mem c l1 || mem c l2.
Proof. unfold mem. apply existsb_app. Qed.

Lemma filter_filter_comm {X : Type} (p q : X -> bool) (l : list X) :
  filter p (filter q l) = filter q (filter p l).
Proof.
  induction l as [|x l IH]; [reflexivity|]. cbn [filter].
  destruct (p x) eqn:P, (q x) eqn:Q; cbn [filter]; rewrite ?P, ?Q, IH; reflexivity.
Qed.

Lemma filter_absorb {X : Type} (p q : X -> bool) (l : list X) :
  (forall x, p x = true -> q x = true) -> filter p (filter q l) = filter p l.
Proof.
  intros H. induction l as [|x l IH]; [reflexivity|]. cbn [filter].
  destruct (q x) eqn:Q; cbn [filter].
  - rewrite IH. reflexivity.
  - destruct (p x) eqn:P; [rewrite (H x P) in Q; discriminate | exact IH].
Qed.

Lemma first_occurrences_filter (p : string -> bool) (l : list string) :
  first_occurrences (filter p l) = filter p (first_occurrences l).
Proof.
  induction l as [|c l IH]; [reflexivity|]. cbn [filter first_occurrences].
  destruct (p c) eqn:P; cbn [first_occurrences filter]; rewrite ?P, IH.
  - f_equal. apply filter_filter_comm.
  - symmetry. apply filter_absorb. intros x Px.
    destruct (String.eqb_spec x c) as [->|]; [congruence | reflexivity].
Qed.

Lemma In_first_occurrences (c : string) (l : list string) :
  In c (first_occurrences l) <-> In c l.
Proof.
  induction l as [|x l IH]; [reflexivity|]. cbn [first_occurrences In].
  rewrite filter_In, IH. destruct (String.eqb_spec c x) as [->|N].
  - intuition.
  - intuition congruence.
Qed.

Lemma NoDup_filter {X : Type} (p : X -> bool) (l : list X) : NoDup l -> NoDup (filter p l).
Proof.
  induction 1 as [|x l Hx Hl IH]; cbn [filter]; [constructor|].
  destruct (p x); [|exact IH]. constructor; [|exact IH].
  intros Hin. apply filter_In in Hin. tauto.
Qed.

Lemma NoDup_first_occurrences (l : list string) : NoDup (first_occurrences l).
Proof.
  induction l as [|c l IH]; cbn [first_occurrences]; constructor.
  - intros Hin. apply filter_In in Hin. destruct Hin as [_ E].
    rewrite String.eqb_refl in E. discriminate.
  - apply NoDup_filter. exact IH.
Qed.

Lemma new_categories_seen (seen : list string) (t : Transaction) (txs : list Transaction) :
  In (tx_category t) seen ->
  new_categories seen (t :: txs) = new_categories seen txs.
Proof.
  intros Hin. unfold new_categories. cbn [map filter].
  apply mem_true_iff in Hin. rewrite Hin. reflexivity.
Qed.

Lemma new_categories_unseen (seen : list string) (t : Transaction) (txs : list Transaction) :
  ~ In (tx_category t) seen ->
  new_categories seen (t :: txs)
  = tx_category t :: new_categories (seen ++ [tx_category t]) txs.
Proof.
  intros Hin. unfold new_categories. cbn [map filter].
  apply mem_false_iff in Hin. rewrite Hin. cbn [negb first_occurrences]. f_equal.
  rewrite <- first_occurrences_filter. f_equal.
  induction (map tx_category txs) as [|x l IH]; [reflexivity|]. cbn [filter].
  rewrite mem_app. cbn [mem existsb]. rewrite orb_false_r, (String.eqb_sym (tx_category t) x).
  destruct (mem x seen); cbn [negb orb filter]; [exact IH|].
  destruct (x =? tx_category t)%string; cbn [negb]; rewrite IH; reflexivity.
Qed.

Lemma amounts_of_cons (c : string) (t : Transaction) (txs : list Transaction) :
  amounts_of c (t :: txs)
  = if (tx_category t =? c)%string then tx_amount t :: amounts_of c txs else amounts_of c txs.
Proof.
  unfold amounts_of. cbn [filter]. destruct (tx_category t =? c)%string; reflexivity.
Qed.

Lemma settled_other (t : Transaction) (txs : list Transaction) (r : Row) :
  r_category r <> tx_category t -> settled (t :: txs) r = settled txs r.
Proof.
  intros N. unfold settled. rewrite amounts_of_cons.
  destruct (String.eqb_spec (tx_category t) (r_category r)); [congruence | reflexivity].
Qed.

Lemma opened_other (t : Transaction) (txs : list Transaction) (c : string) :
  c <> tx_category t -> opened (t :: txs) c = opened txs c.
Proof.
  intros N. unfold opened. rewrite amounts_of_cons.
  destruct (String.eqb_spec (tx_category t) c); [congruence | reflexivity].
Qed.

Lemma settled_nil (r : Row) : settled [] r = r.
Proof. destruct r; reflexivity. Qed.

Lemma update_first_categories (p : Row -> bool) (f : Row -> Row) (rows : list Row) :
  (forall r, r_category (f r) = r_category r) ->
  map r_category (update_first p f rows) = map r_category rows.
Proof.
  intros Hf. induction rows as [|r rows IH]; [reflexivity|]. cbn [update_first].
  destruct (p r); cbn [map]; [rewrite Hf | rewrite IH]; reflexivity.
Qed.

Lemma find_category (c : string) (rows : list Row) :
  (exists r, find (fun item => (r_category item =? c)%string) rows = Some r)
  <-> In c (map r_category rows).
Proof.
  induction rows as [|r rows IH]; cbn [find map In].
  - split; [intros [r H]; discriminate | tauto].
  - destruct (String.eqb_spec (r_category r) c) as [E|N].
    + split; [tauto | eauto].
    + rewrite IH. tauto.
Qed.

(** The row updated by a transaction is the one with its category; with
    distinct categories the others keep what they hold. *)
Lemma settled_update_first (t : Transaction) (txs : list Transaction) (rows : list Row) :
  NoDup (map r_category rows) ->
  map (settled txs)
      (update_first (fun item => (r_category item =? tx_category t)%string)
                    (fun m => mkRow (r_category m) (budgeted m) (actual m + tx_amount t)%num)
                    rows)
  = map (settled (t :: txs)) rows.
Proof.
  induction rows as [|r rows IH]; intros Hnd; [reflexivity|].
  cbn [map] in Hnd. inversion Hnd as [|? ? Hr Hnd']; subst. cbn [update_first].
  destruct (String.eqb_spec (r_category r) (tx_category t)) as [E|N]; cbn [map].
  - f_equal.
    + unfold settled. cbn [Dashboard.r_category Dashboard.budgeted Dashboard.actual].
      rewrite amounts_of_cons, <- E, String.eqb_refl. reflexivity.
    + apply map_ext_in. intros r' Hin. symmetry. apply settled_other.
      intros E'. apply Hr. rewrite E, <- E'. apply in_map. exact Hin.
  - rewrite (IH Hnd'), settled_other by exact N. reflexivity.
Qed.

(** What the loop over the transactions leaves in the rows. *)
Lemma fold_rows (txs : list Transaction) :
  forall rows : list Row,
    NoDup (map r_category rows) ->
    fold_left Dashboard.comparison_step txs rows
    = map (settled txs) rows ++ map (opened txs) (new_categories (map r_category rows) txs).
Proof.
  induction txs as [|t txs IH]; intros rows Hnd.
  - cbn. rewrite app_nil_r. rewrite (map_ext _ (fun r => r) settled_nil), map_id. reflexivity.
  - cbn [fold_left]. unfold Dashboard.comparison_step at 2.
    destruct (find _ rows) as [r0|] eqn:F.
    + assert (Hin : In (tx_category t) (map r_category rows))
        by (apply find_category; eauto).
      rewrite IH; rewrite update_first_categories by reflexivity; [|exact Hnd].
      rewrite settled_update_first by exact Hnd.
      rewrite (new_categories_seen _ t txs Hin). f_equal.
      apply map_ext_in. intros c Hc. symmetry. apply opened_other.
      intros ->. unfold new_categories in Hc.
      apply In_first_occurrences, filter_In in Hc. destruct Hc as [_ Hc].
      apply mem_true_iff in Hin. rewrite Hin in Hc. discriminate.
    + assert (Hout : ~ In (tx_category t) (map r_category rows)).
      { intros Hin. apply find_category in Hin. destruct Hin as [r Hr]. congruence. }
      rewrite IH.
      2:{ rewrite map_app. cbn [map Dashboard.r_category].
          apply NoDup_app; [exact Hnd | repeat constructor; intros [] |].
          intros c Hc [<-|[]]. exact (Hout Hc). }
      rewrite !map_app. cbn [map Dashboard.r_category].
      rewrite (new_categories_unseen _ t txs Hout). cbn [map].
      rewrite <- app_assoc. f_equal.
      * apply map_ext_in. intros r Hr. symmetry. apply settled_other.
        intros E. apply Hout. rewrite <- E. apply in_map. exact Hr.
      * cbn [app]. f_equal.
        -- unfold settled, opened. cbn [Dashboard.r_category Dashboard.budgeted Dashboard.actual].
           rewrite amounts_of_cons, String.eqb_refl. reflexivity.
        -- apply map_ext_in. intros c Hc. symmetry. apply opened_other.
           intros ->. unfold new_categories in Hc.
           apply In_first_occurrences, filter_In in Hc. destruct Hc as [_ Hc].
           rewrite mem_app in Hc. cbn in Hc. rewrite String.eqb_refl, orb_true_r in Hc.
           discriminate.
Qed.

(** The categories and budgeted amounts of the rows, whatever the budget
    list holds. *)
Lemma fold_rows_order (txs : list Transaction) :
  forall rows : list Row,
    map (fun r => (r_category r, budgeted r)) (fold_left Dashboard.comparison_step txs rows)
    = map (fun r => (r_category r, budgeted r)) rows
      ++ map (fun c => (c, n0)) (new_categories (map r_category rows) txs).
Proof.
  induction txs as [|t txs IH]; intros rows.
  - cbn. rewrite app_nil_r. reflexivity.
  - cbn [fold_left]. unfold Dashboard.comparison_step at 2.
    destruct (find _ rows) as [r0|] eqn:F.
    + assert (Hin : In (tx_category t) (map r_category rows))
        by (apply find_category; eauto).
      rewrite IH, update_first_categories by reflexivity.
      rewrite (new_categories_seen _ t txs Hin). f_equal.
      clear. induction rows as [|r rows IH]; [reflexivity|]. cbn [update_first].
      destruct (r_category r =? tx_category t)%string; cbn [map]; [reflexivity|].
      rewrite IH. reflexivity.
    + assert (Hout : ~ In (tx_category t) (map r_category rows)).
      { intros Hin. apply find_category in Hin. destruct Hin as [r Hr]. congruence. }
      rewrite IH, !map_app. cbn [map Dashboard.r_category Dashboard.budgeted].
      rewrite (new_categories_unseen _ t txs Hout), <- app_assoc. reflexivity.
Qed.

Lemma budgeted_for_in (budgets : list Budget) (b : Budget) :
  NoDup (map b_category budgets) -> In b budgets ->
  budgeted_for (b_category b) budgets = b_amount b.
Proof.
  unfold budgeted_for. induction budgets as [|b' budgets IH]; intros Hnd Hin; [destruct Hin|].
  cbn [map] in Hnd. inversion Hnd as [|? ? Hb' Hnd']; subst. cbn [find].
  destruct (String.eqb_spec (b_category b') (b_category b)) as [E|N].
  - destruct Hin as [->|Hin]; [reflexivity|].
    exfalso. apply Hb'. rewrite E. apply in_map. exact Hin.
  - destruct Hin as [->|Hin]; [congruence|]. exact (IH Hnd' Hin).
Qed.

Lemma budgeted_for_out (budgets : list Budget) (c : string) :
  ~ In c (map b_category budgets) -> budgeted_for c budgets = n0.
Proof.
  unfold budgeted_for. induction budgets as [|b budgets IH]; intros Hout; [reflexivity|].
  cbn [find]. cbn [map In] in Hout.
  destruct (String.eqb_spec (b_category b) c) as [E|N]; [tauto|]. apply IH. tauto.
Qed.

Lemma round2_sum1 (l : list num) :
  sum_start_law -> round2 (sum1 l) = round2 (sum l).
Proof.
  intros law. destruct l as [|a l]; [reflexivity|]. unfold sum1, sum. cbn [fold_left].
  apply law.
Qed.

(** The rows of [budgetComparison], one per category, in order: for
    budgets of distinct categories, under [sum_start_law]. *)
Lemma budgetComparison_rows (txs : list Transaction) (budgets : list Budget) :
  sum_start_law ->
  NoDup (map b_category budgets) ->
  Dashboard.budgetComparison txs budgets
  = map (fun c => mkRow c (budgeted_for c budgets) (round2 (sum (amounts_of c txs))))
        (map b_category budgets ++ new_categories (map b_category budgets) txs).
Proof.
  intros law Hnd. unfold Dashboard.budgetComparison.
  assert (Hc : map r_category (Dashboard.comparison_init budgets) = map b_category budgets).
  { unfold Dashboard.comparison_init. rewrite map_map. reflexivity. }
  rewrite fold_rows by (rewrite Hc; exact Hnd).
  rewrite Hc, !map_app. f_equal.
  - unfold Dashboard.comparison_init. rewrite !map_map. apply map_ext_in.
    intros b Hb. unfold settled. cbn.
    rewrite (budgeted_for_in budgets b Hnd Hb). reflexivity.
  - rewrite map_map. apply map_ext_in. intros c Hin. unfold opened. cbn.
    unfold new_categories in Hin. apply In_first_occurrences, filter_In in Hin.
    destruct Hin as [_ Hm]. apply negb_true_iff, mem_false_iff in Hm.
    rewrite (budgeted_for_out budgets c Hm), (round2_sum1 _ law). reflexivity.
Qed.

Lemma In_new_categories (seen : list string) (txs : list Transaction) (c : string) :
  In c (new_categories seen txs) <-> In c (map tx_category txs) /\ ~ In c seen.
Proof.
  unfold new_categories. rewrite In_first_occurrences, filter_In, negb_true_iff, mem_false_iff.
  reflexivity.
Qed.

Lemma NoDup_all_categories (seen : list string) (txs : list Transaction) :
  NoDup seen -> NoDup (seen ++ new_categories seen txs).
Proof.
  intros Hnd. apply NoDup_app; [exact Hnd | apply NoDup_first_occurrences |].
  intros c Hc Hn. apply In_new_categories in Hn. tauto.
Qed.
End Comparison.

(** ** Binary64 arithmetic *)

Section Binary64.

Lemma zeroish_add (x y a : float) :
  zeroish x y -> zeroish (x + a)%float (y + a)%float.
Proof.
  intros [->|[s1 [s2 [H1 H2]]]]; [left; reflexivity|].
  pose proof (add_spec x a) as Hx. pose proof (add_spec y a) as Hy.
  rewrite H1 in Hx. rewrite H2 in Hy. unfold SF64add, SFadd in Hx, Hy.
  destruct (Prim2SF a) as [sa|sa| |sa ma ea].
  - right. destruct s1, s2, sa; eauto.
  - left. apply Prim2SF_inj. congruence.
  - left. apply Prim2SF_inj. congruence.
  - left. apply Prim2SF_inj. congruence.
Qed.

Lemma zeroish_fold (l : list float) :
  forall x y, zeroish x y -> zeroish (fold_left PrimFloat.add l x) (fold_left PrimFloat.add l y).
Proof.
  induction l as [|a l IH]; intros x y H; [exact H|].
  cbn [fold_left]. apply IH, zeroish_add, H.
Qed.

Lemma zeroish_start (a : float) : zeroish a (PrimFloat.zero + a)%float.
Proof.
  pose proof (add_spec PrimFloat.zero a) as H.
  change (Prim2SF PrimFloat.zero) with (S754_zero false) in H. unfold SF64add, SFadd in H.
  destruct (Prim2SF a) as [sa|sa| |sa ma ea] eqn:Ea.
  - right. exists sa. destruct sa; eauto.
  - left. apply Prim2SF_inj. congruence.
  - left. apply Prim2SF_inj. congruence.
  - left. apply Prim2SF_inj. congruence.
Qed.

Lemma toFixed2_of_zero (x : float) (s : bool) :
  Prim2SF x = S754_zero s -> F64.toFixed2 x = "0.00"%string.
Proof.
  intros H. unfold F64.toFixed2. rewrite H. reflexivity.
Qed.

Lemma zeroish_toFixed2 (x y : float) : zeroish x y -> F64.toFixed2 x = F64.toFixed2 y.
Proof.
  intros [->|[s1 [s2 [H1 H2]]]]; [reflexivity|].
  rewrite (toFixed2_of_zero x s1 H1), (toFixed2_of_zero y s2 H2). reflexivity.
Qed.

(** Binary64 numbers satisfy [sum_start_law]: a sum accumulated from the
    first amount differs from the one accumulated from [0] at most in the
    sign of a zero, which [toFixed] does not print. *)
Lemma F64_sum_start_law : sum_start_law (A := F64.arith).
Proof.
  intros a l.
  change (F64.parseFloat (F64.toFixed2 (fold_left PrimFloat.add l a))
          = F64.parseFloat (F64.toFixed2 (fold_left PrimFloat.add l (PrimFloat.zero + a)%float))).
  rewrite (zeroish_toFixed2 _ _ (zeroish_fold l _ _ (zeroish_start a))). reflexivity.
Qed.
End Binary64.

(** ** The rows of the budget comparison *)

Section ComparisonRows.

(** C10. The rows of [budgetComparison] come in this order, for every
    transaction list and every budget list: first one row per budget
    entry, in the order of the budget list and with its amount as
    [budgeted]; then one row, with [budgeted] 0, per category that only
    transactions have, in the order in which these categories first occur
    in the transaction list. *)
Theorem budgetComparison_row_order :
  forall {A : Arith} (txs : list Transaction) (budgets : list Budget),
    map (fun r => (Dashboard.r_category r, Dashboard.budgeted r))
        (Dashboard.budgetComparison txs budgets)
    = map (fun b => (b_category b, b_amount b)) budgets
      ++ map (fun c => (c, n0))
             (first_occurrences
                (filter (fun c => negb (mem c (map b_category budgets)))
                        (map tx_category txs))).
Proof.
  intros A txs budgets. unfold Dashboard.budgetComparison.
  rewrite map_map. cbn [Dashboard.r_category Dashboard.budgeted].
  rewrite (fold_rows_order txs (Dashboard.comparison_init budgets)).
  unfold Dashboard.comparison_init, new_categories. rewrite !map_map.
  reflexivity.
Qed.

(** C1, as the code has it. For every transaction list and every budget
    list whose entries have distinct categories, [budgetComparison] has
    exactly one row per category of the union of the budget categories
    and the transaction categories: the row categories are without
    repetition and are those of the union, [budgeted] is the amount of
    the budget of the category or 0 without one, and [actual] is the sum
    of the amounts of the transactions of the category (0 without one)
    rounded to two decimals. *)
Theorem budgetComparison_one_row_per_category :
  forall (txs : list (Transaction (A := F64.arith))) (budgets : list Budget),
    NoDup (map b_category budgets) ->
    let rows := Dashboard.budgetComparison txs budgets in
    NoDup (map Dashboard.r_category rows)
    /\ (forall c, In c (map Dashboard.r_category rows)
                  <-> In c (map b_category budgets) \/ In c (map tx_category txs))
    /\ (forall r, In r rows ->
                  Dashboard.budgeted r = budgeted_for (Dashboard.r_category r) budgets
                  /\ Dashboard.actual r
                     = round2 (sum (amounts_of (Dashboard.r_category r) txs))).
Proof.
  intros txs budgets Hnd rows. subst rows.
  rewrite (budgetComparison_rows txs budgets F64_sum_start_law Hnd).
  rewrite map_map. cbn [Dashboard.r_category]. rewrite map_id.
  split; [apply NoDup_all_categories; exact Hnd|].
  split.
  - intros c. rewrite in_app_iff, In_new_categories.
    destruct (in_dec string_dec c (map b_category budgets)); tauto.
  - intros r Hin. apply in_map_iff in Hin. destruct Hin as [c [<- _]].
    split; reflexivity.
Qed.

Lemma budgetComparison_scenario :
  Dashboard.budgetComparison (Scenario.transactions 0) Scenario.budgets
  = [Dashboard.mkRow (A := F64.arith) "Food" 120%float 150%float;
     Dashboard.mkRow (A := F64.arith) "Transportation" 0%float 25%float].
Proof. reflexivity. Qed.

Lemma budgetComparison_one_row_per_category_witness :
  let rows := Dashboard.budgetComparison (Scenario.transactions 0) Scenario.budgets in
  NoDup (map Dashboard.r_category rows)
  /\ (forall c, In c (map Dashboard.r_category rows)
                <-> In c (map b_category Scenario.budgets)
                    \/ In c (map tx_category (Scenario.transactions 0)))
  /\ (forall r, In r rows ->
                Dashboard.budgeted r = budgeted_for (Dashboard.r_category r) Scenario.budgets
                /\ Dashboard.actual r
                   = round2 (sum (amounts_of (Dashboard.r_category r) (Scenario.transactions 0)))).
Proof.
  apply (budgetComparison_one_row_per_category (Scenario.transactions 0) Scenario.budgets).
  repeat constructor. simpl. tauto.
Defined.

(** C1 as stated fails on a budget list with two entries of one category:
    each entry gets a row. *)
Lemma budgetComparison_duplicate_budgets :
  let budgets := [mkBudget (A := F64.arith) "Food" 100%float;
                  mkBudget (A := F64.arith) "Food" 200%float] in
  Dashboard.budgetComparison [] budgets
  = [Dashboard.mkRow (A := F64.arith) "Food" 100%float 0%float;
     Dashboard.mkRow (A := F64.arith) "Food" 200%float 0%float]
  /\ ~ NoDup (map Dashboard.r_category (Dashboard.budgetComparison [] budgets)).
Proof.
  split; [reflexivity|].
  intros H. vm_compute in H. inversion H as [|? ? Hin _]. apply Hin. left. reflexivity.
Qed.
End ComparisonRows.

(** ** The budget collection *)

Section Budgets.
Context {A : Arith} {IO : NumberIO A}.

Lemma replace_categories (c e : string) (x : num) (l : list Budget) :
  map b_category (map (fun b => if (b_category b =? e)%string then mkBudget c x else b) l)
  = map (fun c' => if (c' =? e)%string then c else c') (map b_category l).
Proof.
  rewrite !map_map. apply map_ext. intros b.
  destruct (b_category b =? e)%string; reflexivity.
Qed.

Lemma rename_NoDup (c e : string) (l : list string) :
  NoDup l -> c = e \/ ~ In c l ->
  NoDup (map (fun c' => if (c' =? e)%string then c else c') l).
Proof.
  intros Hnd [->|Hc].
  - rewrite (map_ext _ (fun c' => c')), map_id; [exact Hnd|].
    intros c'. destruct (String.eqb_spec c' e); congruence.
  - induction Hnd as [|x l Hx Hnd IH]; cbn [map]; constructor.
    + cbn [In] in Hc. rewrite in_map_iff. intros [y [Ey Hy]].
      destruct (String.eqb_spec x e) as [Ex|Nx]; destruct (String.eqb_spec y e) as [Ey'|Ny].
      * apply Hx. rewrite Ex, <- Ey'. exact Hy.
      * apply Hc. right. rewrite <- Ey. exact Hy.
      * apply Hc. left. symmetry. exact Ey.
      * apply Hx. rewrite <- Ey. exact Hy.
    + apply IH. cbn [In] in Hc. tauto.
Qed.

(** Saving the budget form keeps the categories distinct when the form is
    in add mode, and in edit mode when the category is left as it was or
    changed to one without a budget. *)
Lemma handleAddBudget_keeps_distinct (s : Dashboard.State) :
  NoDup (map b_category (Dashboard.budgets s)) ->
  (Dashboard.truthy_id (Dashboard.editingBudgetId s) = false
   \/ Dashboard.editingBudgetId s = Some (Dashboard.budgetCategory s)
   \/ ~ In (Dashboard.budgetCategory s) (map b_category (Dashboard.budgets s))) ->
  NoDup (map b_category (Dashboard.budgets (fst (Dashboard.handleAddBudget s)))).
Proof.
  intros Hnd Hmode. destruct s as [txs bs ia et fd fc fde fa bc ba ib eb].
  unfold Dashboard.handleAddBudget. cbn in *.
  destruct (negb (nonempty bc) || _); [exact Hnd|]. cbn [fst].
  assert (Hup : NoDup (map b_category
    (Dashboard.budgets
       (if findIndex_found (fun b => (b_category b =? bc)%string) bs
        then Dashboard.setBudgets
               (map (fun b => if (b_category b =? bc)%string
                              then mkBudget bc (Number_ ba) else b) bs)
               (Dashboard.mkState txs bs ia et fd fc fde fa bc ba ib eb)
        else Dashboard.setBudgets (bs ++ [mkBudget bc (Number_ ba)])
               (Dashboard.mkState txs bs ia et fd fc fde fa bc ba ib eb))))).
  { destruct (findIndex_found _ bs) eqn:F; cbn.
    - rewrite replace_categories. apply rename_NoDup; [exact Hnd | left; reflexivity].
    - rewrite map_app. cbn. apply NoDup_app; [exact Hnd | repeat constructor; intros [] |].
      intros c Hc [<-|[]]. unfold findIndex_found in F.
      apply in_map_iff in Hc. destruct Hc as [b [Eb Hb]].
      assert (existsb (fun b => (b_category b =? bc)%string) bs = true).
      { apply existsb_exists. exists b. split; [exact Hb | apply String.eqb_eq; exact Eb]. }
      congruence. }
  destruct eb as [e|]; [|exact Hup].
  destruct (nonempty e) eqn:Ne; [|exact Hup]. cbn.
  rewrite replace_categories. apply rename_NoDup; [exact Hnd|].
  destruct Hmode as [H|[H|H]]; [cbn in H; congruence | injection H; auto | right; exact H].
Qed.

Lemma handleDeleteBudget_keeps_distinct (c : string) (s : Dashboard.State) :
  NoDup (map b_category (Dashboard.budgets s)) ->
  NoDup (map b_category (Dashboard.budgets (Dashboard.handleDeleteBudget c s))).
Proof.
  intros Hnd. destruct s. cbn in *. revert Hnd.
  induction budgets as [|b bs IH]; intros Hnd; [constructor|].
  cbn [map] in Hnd. inversion Hnd as [|? ? Hb Hnd']; subst. cbn [filter].
  destruct (negb (b_category b =? c)%string); [|exact (IH Hnd')].
  cbn [map]. constructor; [|exact (IH Hnd')].
  rewrite in_map_iff. intros [b' [E Hin]]. apply filter_In in Hin.
  apply Hb. rewrite <- E. apply in_map. tauto.
Qed.
End Budgets.

(** C4 does not hold of the code. From the empty collection, budgets for
    Food and Housing are added; the Food budget is opened for editing, its
    category is set to Housing in the form, and it is saved: the edit
    branch of [handleAddBudget] replaces the Food entry without looking
    for an entry of the new category, and the collection holds two
    entries of category Housing. *)
Theorem budget_edit_duplicates_category :
  map b_category (Dashboard.budgets BudgetSession.two_budgets) = ["Food"; "Housing"]%string
  /\ Dashboard.budgets BudgetSession.edited
     = [mkBudget (A := F64.arith) "Housing" 100%float;
        mkBudget (A := F64.arith) "Housing" 200%float]
  /\ ~ NoDup (map b_category (Dashboard.budgets BudgetSession.edited)).
Proof.
  split; [reflexivity|].
  split; [reflexivity|].
  intros H. vm_compute in H. inversion H as [|? ? Hin _]. apply Hin. left. reflexivity.
Qed.

(** ** Creating a transaction *)

Section Create.
Context {A : Arith} {IO : NumberIO A}.

Lemma nonempty_false_iff (x : string) : nonempty x = false <-> x = ""%string.
Proof.
  unfold nonempty. rewrite negb_false_iff. apply String.eqb_eq.
Qed.

Lemma hasErrors_iff (d : option Date) (c desc a : string) :
  negb (defined d) || negb (nonempty c) || negb (nonempty desc)
  || (negb (nonempty a) || isNaN (Number_ a)) = true
  <-> d = None \/ c = ""%string \/ desc = ""%string \/ a = ""%string
      \/ isNaN (Number_ a) = true.
Proof.
  rewrite !orb_true_iff, !negb_true_iff, !nonempty_false_iff.
  destruct d; cbn [defined]; intuition discriminate.
Qed.

(** The validation of [App]: what it lets through and what it refuses. *)
Lemma validate_cases (f : Stage2.FormData) :
  match Stage2.validate f with
  | Some msg => nonempty msg = true
  | None => isNaN (Number_ (Stage2.f_amount f)) = false
            /\ lez (Number_ (Stage2.f_amount f)) = false
            /\ exists d, Stage2.f_date f = Some d
  end.
Proof.
  unfold Stage2.validate.
  destruct (negb (nonempty (Stage2.f_amount f)) || negb (defined (Stage2.f_date f))
            || negb (nonempty (Stage2.f_description f))) eqn:E; [reflexivity|].
  destruct (isNaN (Number_ (Stage2.f_amount f))) eqn:N; [reflexivity|].
  destruct (lez (Number_ (Stage2.f_amount f))) eqn:L; [reflexivity|]. cbn [orb].
  repeat split. destruct (Stage2.f_date f) as [d|]; [eauto|].
  cbn [defined negb] in E. rewrite orb_true_r in E. discriminate.
Qed.

Lemma validate_iff (f : Stage2.FormData) :
  (exists msg, Stage2.validate f = Some msg /\ nonempty msg = true)
  <-> Stage2.f_amount f = ""%string \/ Stage2.f_date f = None
      \/ Stage2.f_description f = ""%string
      \/ isNaN (Number_ (Stage2.f_amount f)) = true
      \/ lez (Number_ (Stage2.f_amount f)) = true.
Proof.
  unfold Stage2.validate.
  assert (Hiff : negb (nonempty (Stage2.f_amount f)) || negb (defined (Stage2.f_date f))
                 || negb (nonempty (Stage2.f_description f)) = true
                 <-> Stage2.f_amount f = ""%string \/ Stage2.f_date f = None
                     \/ Stage2.f_description f = ""%string).
  { rewrite !orb_true_iff, !negb_true_iff, !nonempty_false_iff.
    destruct (Stage2.f_date f); cbn [defined]; intuition discriminate. }
  destruct (negb (nonempty (Stage2.f_amount f)) || negb (defined (Stage2.f_date f))
            || negb (nonempty (Stage2.f_description f))) eqn:E.
  - split; [intros _; destruct (proj1 Hiff eq_refl) as [H|[H|H]]; tauto|].
    intros _. eexists. split; reflexivity.
  - destruct (isNaN (Number_ (Stage2.f_amount f))) eqn:N; cbn [orb].
    + split; [tauto|]. intros _. eexists. split; reflexivity.
    + destruct (lez (Number_ (Stage2.f_amount f))) eqn:L.
      * split; [tauto|]. intros _. eexists. split; reflexivity.
      * split; [intros [msg [H _]]; discriminate|].
        intros [H|[H|[H|[H|H]]]]; try discriminate;
          assert (T : false = true) by (apply Hiff; tauto); discriminate.
Qed.

(** C2, as the code has it. In add mode, [handleAddTransaction] of
    Dashboard.tsx alerts and leaves the whole state as it is when the
    date is missing, or the category, the description or the amount is
    empty, or the amount converts to NaN; otherwise it appends one
    transaction made of the form fields, with the id
    [crypto.randomUUID()] returned, and the ids stay distinct when that
    id is not yet in the list. An amount that converts to an infinite
    number is accepted. [addTransaction] of Stage2.tsx sets an error
    message and leaves the list and the store as they are when the
    amount, the date or the description is missing, or the amount
    converts to NaN or to a number that is not above 0; otherwise it
    appends the stored form of the new transaction, with the id
    [crypto.randomUUID()] returned, to the stored collection, puts the
    transaction at the front of its list and closes the dialog without an
    error, and the ids stay distinct when that id is not yet in the
    list. *)
Theorem create_validates_form :
  forall (uuid : string) (now : Date * Date) (s : Dashboard.State) (s2 : Stage2.State),
    Dashboard.truthy_id (Dashboard.editingTransactionId s) = false ->
    let rejected :=
      Dashboard.formDate s = None \/ Dashboard.formCategory s = ""%string
      \/ Dashboard.formDescription s = ""%string \/ Dashboard.formAmount s = ""%string
      \/ isNaN (Number_ (Dashboard.formAmount s)) = true in
    let f := Stage2.formData s2 in
    let rejected2 :=
      Stage2.f_amount f = ""%string \/ Stage2.f_date f = None
      \/ Stage2.f_description f = ""%string
      \/ isNaN (Number_ (Stage2.f_amount f)) = true
      \/ lez (Number_ (Stage2.f_amount f)) = true in
    (rejected ->
     Dashboard.handleAddTransaction uuid s
     = (s, Some "Please fill in all fields with valid values."%string))
    /\ (~ rejected ->
        exists d, Dashboard.formDate s = Some d
          /\ snd (Dashboard.handleAddTransaction uuid s) = None
          /\ Dashboard.transactions (fst (Dashboard.handleAddTransaction uuid s))
             = Dashboard.transactions s
               ++ [mkTransaction uuid d (Dashboard.formCategory s)
                     (Dashboard.formDescription s) (Number_ (Dashboard.formAmount s))]
          /\ (NoDup (map tx_id (Dashboard.transactions s)) ->
              ~ In uuid (map tx_id (Dashboard.transactions s)) ->
              NoDup (map tx_id (Dashboard.transactions
                                  (fst (Dashboard.handleAddTransaction uuid s))))))
    /\ (rejected2 ->
        exists msg, nonempty msg = true
          /\ Stage2.addTransaction uuid now s2 = Stage2.setError (Some msg) s2)
    /\ (~ rejected2 ->
        exists d, Stage2.f_date f = Some d
          /\ let t := Stage2.mkTransaction uuid (Number_ (Stage2.f_amount f)) d
                        (Stage2.f_description f) (Stage2.AsDate (fst now)) (snd now) in
             let s2' := Stage2.addTransaction uuid now s2 in
             Stage2.storage s2' = Some (Stage2.stored (Stage2.storage s2) ++ [Stage2.written t])
             /\ Stage2.transactions s2' = t :: Stage2.transactions s2
             /\ Stage2.error s2' = None
             /\ Stage2.isDialogOpen s2' = false
             /\ (NoDup (map Stage2.t_id (Stage2.transactions s2)) ->
                 ~ In uuid (map Stage2.t_id (Stage2.transactions s2)) ->
                 NoDup (map Stage2.t_id (Stage2.transactions s2')))).
Proof.
  intros uuid now s s2 Hadd rejected f rejected2. subst rejected f rejected2.
  split; [|split; [|split]].
  - destruct s as [txs bs ia et fd fc fde fa bc ba ib eb]. cbn in *.
    unfold Dashboard.handleAddTransaction. cbn.
    pose proof (hasErrors_iff fd fc fde fa) as Hiff.
    destruct (negb (defined fd) || negb (nonempty fc) || negb (nonempty fde)
              || (negb (nonempty fa) || isNaN (Number_ fa))) eqn:E.
    + intros _; destruct fd; reflexivity.
    + intros Hr; apply Hiff in Hr; discriminate.
  - destruct s as [txs bs ia et fd fc fde fa bc ba ib eb]. cbn in *.
    unfold Dashboard.handleAddTransaction. cbn.
    pose proof (hasErrors_iff fd fc fde fa) as Hiff.
    destruct (negb (defined fd) || negb (nonempty fc) || negb (nonempty fde)
              || (negb (nonempty fa) || isNaN (Number_ fa))) eqn:E.
    + intros Hn. exfalso. apply Hn, Hiff. reflexivity.
    + intros _. destruct fd as [d|]; [|cbn in E; discriminate].
      exists d. split; [reflexivity|].
      assert (Hnew : (match et with
                      | Some i => if nonempty i then i else uuid
                      | None => uuid
                      end) = uuid).
      { destruct et as [i|]; [|reflexivity]. cbn in Hadd. rewrite Hadd. reflexivity. }
      rewrite Hnew.
      destruct et as [i|]; [cbn in Hadd; rewrite Hadd|]; cbn.
      all: split; [reflexivity|]; split; [reflexivity|].
      all: intros Hnd Hfresh; rewrite map_app; cbn.
      all: apply NoDup_app; [exact Hnd | repeat constructor; intros [] |].
      all: intros x Hx [<-|[]]; exact (Hfresh Hx).
  - intros Hr. apply validate_iff in Hr. destruct Hr as [msg [Hv Hm]].
    exists msg. split; [exact Hm|]. unfold Stage2.addTransaction. rewrite Hv. reflexivity.
  - intros Hn.
    destruct (Stage2.validate (Stage2.formData s2)) as [msg|] eqn:Hv.
    { exfalso. apply Hn. apply validate_iff. exists msg. split; [exact Hv|].
      pose proof (validate_cases (Stage2.formData s2)) as Hc. rewrite Hv in Hc. exact Hc. }
    destruct s2 as [st txs ld er op ed [fa fd fde]].
    cbn [Stage2.formData Stage2.f_date Stage2.f_amount Stage2.f_description] in *.
    unfold Stage2.addTransaction. cbn [Stage2.formData Stage2.f_date]. rewrite Hv.
    destruct fd as [d|].
    + exists d. split; [reflexivity|]. cbn.
      split; [reflexivity|]. split; [reflexivity|]. split; [reflexivity|].
      split; [reflexivity|].
      intros Hnd Hfresh. constructor; assumption.
    + exfalso. apply Hn. right. left. reflexivity.
Qed.
End Create.

Lemma create_validates_form_witness :
  Dashboard.handleAddTransaction (IO := F64.io) "id-1" (CreateSession.filled "")
  = (CreateSession.filled "", Some "Please fill in all fields with valid values."%string)
  /\ Dashboard.transactions
       (fst (Dashboard.handleAddTransaction (IO := F64.io) "id-1" (CreateSession.filled "50")))
     = [mkTransaction (A := F64.arith) "id-1" (Scenario.localMidnight 0 2024 1 10)
          "Food" "Groceries" 50%float]
  /\ Stage2.transactions
       (Stage2.addTransaction (IO := F64.io) "id-1" (7, 8) (CreateSession.dialog "50"))
     = [Stage2.mkTransaction (A := F64.arith) "id-1" 50%float
          (Scenario.localMidnight 0 2024 1 10) "Groceries" (Stage2.AsDate 7) 8].
Proof.
  pose proof (create_validates_form (IO := F64.io) "id-1" (7, 8) (CreateSession.filled "")
                (CreateSession.dialog "50") eq_refl) as [H1 _].
  pose proof (create_validates_form (IO := F64.io) "id-1" (7, 8) (CreateSession.filled "50")
                (CreateSession.dialog "50") eq_refl) as [_ [H2 [_ H3]]].
  split; [|split].
  - apply H1. right; right; right; left. reflexivity.
  - destruct H2 as [d [Hd [_ [Ht _]]]].
    + intros [H|[H|[H|[H|H]]]]; vm_compute in H; discriminate.
    + rewrite Ht. vm_compute in Hd. injection Hd as <-. reflexivity.
  - destruct H3 as [d [Hd [_ [Ht _]]]].
    + intros [H|[H|[H|[H|H]]]]; vm_compute in H; discriminate.
    + rewrite Ht. vm_compute in Hd. injection Hd as <-. reflexivity.
Defined.

(** C2 as stated fails in three ways. In Dashboard.tsx the amount
    "Infinity" does not parse as a finite number, and the transaction is
    created with an infinite amount; and the id is the one
    [crypto.randomUUID()] returns, which is not compared with the ids of
    the list and is assigned again when the list already holds it. In
    Stage2.tsx the amount "-5", a finite number in a form with every
    field filled in, is refused. *)
Lemma create_differs_from_the_claim :
  (let s := CreateSession.filled "Infinity" in
   isFinite (NumberIO := F64.io) (Number_ (NumberIO := F64.io) (Dashboard.formAmount s)) = false
   /\ snd (Dashboard.handleAddTransaction (IO := F64.io) "id-1" s) = None
   /\ Dashboard.transactions (fst (Dashboard.handleAddTransaction (IO := F64.io) "id-1" s))
      = [mkTransaction (A := F64.arith) "id-1" (Scenario.localMidnight 0 2024 1 10)
           "Food" "Groceries" infinity])
  /\ (let s := CreateSession.filled_again "50" in
      let uuid := CreateSession.listed_id in
      map tx_id (Dashboard.transactions s) = [uuid]
      /\ snd (Dashboard.handleAddTransaction (IO := F64.io) uuid s) = None
      /\ map tx_id
           (Dashboard.transactions (fst (Dashboard.handleAddTransaction (IO := F64.io) uuid s)))
         = [uuid; uuid])
  /\ (let s2 := CreateSession.dialog "-5" in
      isFinite (NumberIO := F64.io) (Number_ (NumberIO := F64.io) "-5") = true
      /\ Stage2.addTransaction (IO := F64.io) "id-1" (7, 8) s2
         = Stage2.setError (Some "Amount must be a positive number."%string) s2).
Proof.
  repeat split; reflexivity.
Qed.

(** ** Updating a transaction *)

Section Update.
Context {A : Arith} {IO : NumberIO A}.







Lemma step_keeps_editing_exists (e : Dashboard.Event) (s : Dashboard.State) :
  editing_exists s -> editing_exists (Dashboard.step e s).
Proof.
  intros H. destruct s as [txs bs ia et fd fc fde fa bc ba ib eb].
  unfold editing_exists in *. cbn in H.
  destruct e as [| |dt|c|de|a|uuid|id|id]; cbn; try (intros i Hi; discriminate);
    try exact H.
  - unfold Dashboard.handleAddTransaction. cbn.
    destruct (negb (defined fd) || negb (nonempty fc) || negb (nonempty fde)
              || (negb (nonempty fa) || isNaN (Number_ fa))); cbn; [exact H|].
    destruct fd; cbn; [|exact H]. intros i Hi. discriminate.
  - unfold Dashboard.handleEditTransaction. cbn.
    destruct (find (fun t => (tx_id t =? id)%string) txs) as [t|] eqn:F; cbn; [|exact H].
    intros i Hi _. injection Hi as <-.
    apply find_some in F. destruct F as [Hin E]. apply String.eqb_eq in E.
    rewrite <- E. apply in_map. exact Hin.
Qed.

(** In Dashboard.tsx the form is never in edit mode for an id that is not
    in the list: the case of an update of a missing id does not arise. *)
Lemma editing_id_always_exists (events : list Dashboard.Event) (s : Dashboard.State) :
  Dashboard.editingTransactionId s = None ->
  editing_exists (Dashboard.run events s).
Proof.
  intros H0. assert (H : editing_exists s) by (intros i Hi; congruence). clear H0.
  revert s H. induction events as [|e events IH]; intros s H; [exact H|].
  cbn [Dashboard.run fold_left]. apply IH, step_keeps_editing_exists, H.
Qed.
End Update.

(** ** The scenario *)

Section ScenarioFacts.

Lemma midnight_local_time (tz y m d : Z) :
  getTime (Scenario.localMidnight tz y m d) + tz
  = Calendar.days_from_civil y m d * Calendar.msPerDay.
Proof. unfold getTime, Scenario.localMidnight. lia. Qed.

Lemma midnight_month (tz y m d : Z) :
  Dashboard.format_yyyy_MM tz (Scenario.localMidnight tz y m d)
  = Dashboard.format_yyyy_MM 0 (Scenario.localMidnight 0 y m d).
Proof.
  unfold Dashboard.format_yyyy_MM. rewrite (midnight_local_time tz), (midnight_local_time 0).
  reflexivity.
Qed.

Lemma midnight_order (tz y m d y' m' d' : Z) :
  getTime (Scenario.localMidnight tz y m d) - getTime (Scenario.localMidnight tz y' m' d')
  = getTime (Scenario.localMidnight 0 y m d) - getTime (Scenario.localMidnight 0 y' m' d').
Proof. unfold getTime, Scenario.localMidnight. lia. Qed.

Lemma scenario_months (tz : Z) :
  Dashboard.monthlyExpenses tz (Scenario.transactions tz)
  = [Dashboard.mkMonthTotal (A := F64.arith) "2024-01" 75%float;
     Dashboard.mkMonthTotal (A := F64.arith) "2024-02" 100%float].
Proof.
  unfold Dashboard.monthlyExpenses, Dashboard.monthlyTotals, Scenario.transactions.
  cbn [fold_left Scenario.groceries Scenario.gas Scenario.dinner tx_date tx_amount].
  rewrite !(midnight_month tz). reflexivity.
Qed.

Lemma scenario_recent (tz : Z) :
  Dashboard.sortedByDate (Scenario.transactions tz)
  = [Scenario.dinner tz; Scenario.gas tz; Scenario.groceries tz].
Proof.
  unfold Dashboard.sortedByDate, Scenario.transactions.
  cbn [sort].
  repeat (cbn [insert Scenario.groceries Scenario.gas Scenario.dinner tx_date];
          rewrite (midnight_order tz);
          match goal with
          | |- context [(?a <=? 0)%Z] =>
              let b := eval vm_compute in (a <=? 0)%Z in
              change (a <=? 0)%Z with b; cbv iota
          end).
  reflexivity.
Qed.

(** The month key is the month of the local time: the time that is
    midnight of 2024-02-01 in UTC falls in January five hours to the
    west. *)
Lemma month_key_follows_local_time :
  Dashboard.format_yyyy_MM 0 (Scenario.localMidnight 0 2024 2 1) = "2024-02"%string
  /\ Dashboard.format_yyyy_MM (-18000000) (Scenario.localMidnight 0 2024 2 1)
     = "2024-01"%string.
Proof. split; reflexivity. Qed.

(** C8. For the three transactions of the scenario, dated by local
    calendar days in any time zone: [totalExpenses] is "175.00"; the
    monthly totals map 2024-01 to 75 and 2024-02 to 100, the keys being
    the "yyyy-MM" of the dates and the sums rounded to two decimals; the
    category totals map Food to 150 and Transportation to 25; the two
    most recent transactions are Dinner then Gas, the first two of the
    three that [recentTransactions] lists. *)
Theorem scenario_aggregates :
  forall tz : Z,
  Dashboard.totalExpenses (Scenario.transactions tz) = "175.00"%string
  /\ Dashboard.monthlyExpenses tz (Scenario.transactions tz)
     = [Dashboard.mkMonthTotal (A := F64.arith) "2024-01" 75%float;
        Dashboard.mkMonthTotal (A := F64.arith) "2024-02" 100%float]
  /\ map (Dashboard.format_yyyy_MM tz) (map tx_date (Scenario.transactions tz))
     = ["2024-01"; "2024-01"; "2024-02"]%string
  /\ Dashboard.categoryExpenses (Scenario.transactions tz)
     = [Dashboard.mkCategoryTotal (A := F64.arith) "Food" 150%float;
        Dashboard.mkCategoryTotal (A := F64.arith) "Transportation" 25%float]
  /\ Dashboard.recent 2 (Scenario.transactions tz) = [Scenario.dinner tz; Scenario.gas tz]
  /\ map tx_description (Dashboard.recent 2 (Scenario.transactions tz))
     = ["Dinner"; "Gas"]%string
  /\ Dashboard.recentTransactions (Scenario.transactions tz)
     = [Scenario.dinner tz; Scenario.gas tz; Scenario.groceries tz].
Proof.
  intros tz.
  split; [reflexivity|].
  split; [exact (scenario_months tz)|].
  split; [cbn [map Scenario.transactions Scenario.groceries Scenario.gas Scenario.dinner tx_date];
          rewrite !(midnight_month tz); reflexivity|].
  split; [reflexivity|].
  unfold Dashboard.recentTransactions, Dashboard.recent. rewrite scenario_recent.
  repeat split; reflexivity.
Qed.
End ScenarioFacts.

(** ** The calendar *)

Section CalendarFacts.

Lemma year_of_era_bounds (doe : Z) :
  0 <= doe < 146097 ->
  let yoe := (doe - doe / 1460 + doe / 36524 - doe / 146096) / 365 in
  let doy := doe - (365 * yoe + yoe / 4 - yoe / 100) in
  0 <= yoe <= 399 /\ 0 <= doy <= 365.
Proof.
  intros H yoe doy. subst yoe doy.
  Z.to_euclidean_division_equations; lia.
Qed.

Lemma month_day_bounds (doy : Z) :
  0 <= doy <= 365 ->
  let mp := (5 * doy + 2) / 153 in
  let d := doy - (153 * mp + 2) / 5 + 1 in
  0 <= mp <= 11 /\ 1 <= d <= 31.
Proof.
  intros H mp d. subst mp d.
  Z.to_euclidean_division_equations; lia.
Qed.

(** [days_from_civil] is inverse to [civil_from_days], which yields a
    month from 1 to 12 and a day from 1 to 31. *)
Lemma civil_from_days_inverse (z y m d : Z) :
  Calendar.civil_from_days z = (y, m, d) ->
  Calendar.days_from_civil y m d = z /\ 1 <= m <= 12 /\ 1 <= d <= 31.
Proof.
  unfold Calendar.civil_from_days, Calendar.days_from_civil.
  set (z' := z + 719468). set (era := z' / 146097). set (doe := z' mod 146097).
  assert (Hdoe : 0 <= doe < 146097) by (apply Z.mod_pos_bound; lia).
  assert (Hz : z = era * 146097 + doe - 719468).
  { pose proof (Z.div_mod z' 146097). unfold era, doe. lia. }
  destruct (year_of_era_bounds doe Hdoe) as [Hyoe Hdoy].
  set (yoe := (doe - doe / 1460 + doe / 36524 - doe / 146096) / 365) in *.
  set (doy := doe - (365 * yoe + yoe / 4 - yoe / 100)) in *.
  destruct (month_day_bounds doy Hdoy) as [Hmp Hd].
  set (mp := (5 * doy + 2) / 153) in *.
  set (dd := doy - (153 * mp + 2) / 5 + 1) in *.
  intros E. injection E as <- <- <-.
  destruct (Z.ltb_spec mp 10) as [Hlt|Hge].
  - replace (mp + 3 <=? 2) with false by (symmetry; apply Z.leb_gt; lia).
    replace (2 <? mp + 3) with true by (symmetry; apply Z.ltb_lt; lia).
    replace ((yoe + era * 400 + 0 - 0) / 400) with era
      by (Z.to_euclidean_division_equations; lia).
    split; [|lia].
    replace (yoe + era * 400 + 0 - 0 - era * 400) with yoe by lia.
    replace (mp + 3 - 3) with mp by lia. unfold dd, doy. lia.
  - replace (mp - 9 <=? 2) with true by (symmetry; apply Z.leb_le; lia).
    replace (2 <? mp - 9) with false by (symmetry; apply Z.ltb_ge; lia).
    replace ((yoe + era * 400 + 1 - 1) / 400) with era
      by (Z.to_euclidean_division_equations; lia).
    split; [|lia].
    replace (yoe + era * 400 + 1 - 1 - era * 400) with yoe by lia.
    replace (mp - 9 + 9) with mp by lia. unfold dd, doy. lia.
Qed.

(** The years of the times a [Date] can hold have at most six digits. *)
Lemma valid_time_year (t y m d : Z) :
  Calendar.valid_time t ->
  Calendar.civil_from_days (Calendar.Day t) = (y, m, d) ->
  -272400 <= y <= 276000.
Proof.
  unfold Calendar.valid_time, Calendar.Day, Calendar.msPerDay, Calendar.civil_from_days.
  intros Ht.
  set (z' := t / 86400000 + 719468). set (era := z' / 146097). set (doe := z' mod 146097).
  assert (Hdoe : 0 <= doe < 146097) by (apply Z.mod_pos_bound; lia).
  destruct (year_of_era_bounds doe Hdoe) as [Hyoe _].
  set (yoe := (doe - doe / 1460 + doe / 36524 - doe / 146096) / 365) in *.
  assert (Hera : -681 <= era <= 689).
  { unfold era, z'. Z.to_euclidean_division_equations; lia. }
  intros E. injection E as <- _ _.
  destruct (_ <=? 2); lia.
Qed.
(** The year [civil_from_days] computes is the year of the specification. *)
Lemma year_is_YearFromTime (z y m d : Z) :
  Calendar.civil_from_days z = (y, m, d) ->
  Calendar.DayFromYear y <= z < Calendar.DayFromYear (y + 1).
Proof.
  unfold Calendar.civil_from_days, Calendar.DayFromYear.
  set (z' := z + 719468). set (era := z' / 146097). set (doe := z' mod 146097).
  assert (Hdoe : 0 <= doe < 146097) by (apply Z.mod_pos_bound; lia).
  assert (Hz : z = era * 146097 + doe - 719468).
  { pose proof (Z.div_mod z' 146097). unfold era, doe. lia. }
  destruct (year_of_era_bounds doe Hdoe) as [Hyoe Hdoy].
  set (yoe := (doe - doe / 1460 + doe / 36524 - doe / 146096) / 365) in *.
  set (doy := doe - (365 * yoe + yoe / 4 - yoe / 100)) in *.
  destruct (month_day_bounds doy Hdoy) as [Hmp Hd].
  set (mp := (5 * doy + 2) / 153) in *.
  intros E. injection E as <- _ _.
  assert (Hdoy' : doe = doy + 365 * yoe + yoe / 4 - yoe / 100) by (unfold doy; lia).
  assert (Hmpd : mp < 10 <-> doy < 306).
  { unfold mp. Z.to_euclidean_division_equations; lia. }
  clearbody doy mp yoe era doe z'. 
  destruct (Z.ltb_spec mp 10) as [Hlt|Hge].
  - replace (mp + 3 <=? 2) with false by (symmetry; apply Z.leb_gt; lia).
    rewrite Hz. Z.to_euclidean_division_equations; lia.
  - replace (mp - 9 <=? 2) with true by (symmetry; apply Z.leb_le; lia).
    rewrite Hz. Z.to_euclidean_division_equations; lia.
Qed.

Lemma leap_cases (y : Z) :
  (Calendar.InLeapYear y = 1 /\ Calendar.DayFromYear (y + 1) - Calendar.DayFromYear y = 366)
  \/ (Calendar.InLeapYear y = 0 /\ Calendar.DayFromYear (y + 1) - Calendar.DayFromYear y = 365).
Proof.
  unfold Calendar.InLeapYear, Calendar.DayFromYear.
  destruct (Z.eqb_spec (y mod 4) 0), (Z.eqb_spec (y mod 100) 0), (Z.eqb_spec (y mod 400) 0);
    cbn [andb orb negb]; Z.to_euclidean_division_equations; lia.
Qed.


(** The day within the year that starts in January, from the day [doy]
    within the year that starts in March. *)
Lemma day_within_year (z y m d : Z) :
  Calendar.civil_from_days z = (y, m, d) ->
  exists doy,
    0 <= doy <= 365
    /\ (doy = 365 -> Calendar.InLeapYear y = 1)
    /\ z - Calendar.DayFromYear y
       = (if doy <? 306 then doy + 59 + Calendar.InLeapYear y else doy - 306)
    /\ (m, d) = (let mp := (5 * doy + 2) / 153 in
                 (if mp <? 10 then mp + 3 else mp - 9, doy - (153 * mp + 2) / 5 + 1)).
Proof.
  intros E. pose proof (year_is_YearFromTime z y m d E) as Hy. revert E Hy.
  unfold Calendar.civil_from_days.
  set (z' := z + 719468). set (era := z' / 146097). set (doe := z' mod 146097).
  assert (Hdoe : 0 <= doe < 146097) by (apply Z.mod_pos_bound; lia).
  assert (Hz : z = era * 146097 + doe - 719468).
  { pose proof (Z.div_mod z' 146097). unfold era, doe. lia. }
  destruct (year_of_era_bounds doe Hdoe) as [Hyoe Hdoy].
  set (yoe := (doe - doe / 1460 + doe / 36524 - doe / 146096) / 365) in *.
  set (doy := doe - (365 * yoe + yoe / 4 - yoe / 100)) in *.
  destruct (month_day_bounds doy Hdoy) as [Hmp Hd].
  intros E Hy. exists doy. split; [exact Hdoy|].
  assert (Hmpd : (5 * doy + 2) / 153 < 10 <-> doy < 306).
  { Z.to_euclidean_division_equations; lia. }
  set (mp := (5 * doy + 2) / 153) in *.
  injection E as Ey Em Ed.
  cut ((doy = 365 -> Calendar.InLeapYear y = 1)
       /\ z - Calendar.DayFromYear y
          = (if doy <? 306 then doy + 59 + Calendar.InLeapYear y else doy - 306)).
  { intros [H1 H2]. repeat split; [exact H1 | exact H2 | rewrite <- Em, <- Ed; reflexivity]. }
  assert (Hdoy' : doe = doy + 365 * yoe + yoe / 4 - yoe / 100) by (unfold doy; lia).
  assert (Hyoe' : yoe = (doe - doe / 1460 + doe / 36524 - doe / 146096) / 365) by reflexivity.
  clearbody doy mp yoe era doe z'. subst m d.
  destruct (leap_cases y) as [[Hl Hlen]|[Hl Hlen]]; rewrite Hl; clear Hl;
    unfold Calendar.DayFromYear in *;
    destruct (Z.ltb_spec doy 306) as [Hlt|Hge];
    destruct (Z.ltb_spec mp 10) as [Hlt'|Hge']; try lia.
  all: try rewrite (proj2 (Z.leb_gt (mp + 3) 2)) in Ey by lia.
  all: try rewrite (proj2 (Z.leb_le (mp - 9) 2)) in Ey by lia.
  all: subst y z.
  all: split; [intros ?|]; Z.to_euclidean_division_equations; lia.
Qed.

Lemma table_agrees_all (doy leap : Z) :
  0 <= doy <= 365 -> 0 <= leap <= 1 -> (doy = 365 -> leap = 1) ->
  Calendar.table_agrees doy leap = true.
Proof.
  intros Hd Hl H365.
  assert (Hall : forallb (fun n => Calendar.table_agrees (Z.of_nat n) 0 && Calendar.table_agrees (Z.of_nat n) 1)
                         (seq 0 365) = true) by (vm_compute; reflexivity).
  rewrite forallb_forall in Hall.
  destruct (Z.eq_dec doy 365) as [->|N].
  - rewrite (H365 eq_refl). vm_compute. reflexivity.
  - specialize (Hall (Z.to_nat doy)). rewrite Z2Nat.id in Hall by lia.
    apply andb_true_iff in Hall; [|apply in_seq; lia].
    assert (leap = 0 \/ leap = 1) as [->| ->] by lia; tauto.
Qed.

(** The month and the day [civil_from_days] computes are those of the
    tables of the specification. *)
Lemma month_day_are_spec (z y m d : Z) :
  Calendar.civil_from_days z = (y, m, d) ->
  m - 1 = Calendar.month_of_day (z - Calendar.DayFromYear y) (Calendar.InLeapYear y)
  /\ d = Calendar.date_of_day (z - Calendar.DayFromYear y) (Calendar.InLeapYear y).
Proof.
  intros E. destruct (day_within_year z y m d E) as [doy [Hdoy [H365 [Hdwy Hmd]]]].
  assert (Hleap : 0 <= Calendar.InLeapYear y <= 1) by (unfold Calendar.InLeapYear; destruct (_ && _); lia).
  pose proof (table_agrees_all doy (Calendar.InLeapYear y) Hdoy Hleap H365) as H.
  unfold Calendar.table_agrees in H. rewrite <- Hdwy in H. cbv zeta in H, Hmd.
  injection Hmd as -> ->.
  apply andb_true_iff in H. destruct H as [H1 H2].
  apply Z.eqb_eq in H1, H2. split; symmetry; assumption.
Qed.

End CalendarFacts.

(** ** Dates as text *)

Section DatesAsText.


Lemma digit_cases (d : Z) :
  0 <= d <= 9 ->
  d = 0 \/ d = 1 \/ d = 2 \/ d = 3 \/ d = 4 \/ d = 5 \/ d = 6 \/ d = 7 \/ d = 8 \/ d = 9.
Proof. lia. Qed.

Lemma digit_of_digit_char (d : Z) :
  0 <= d <= 9 -> Text.digit_of (Text.digit_char d) = Some d.
Proof.
  intros H. destruct (digit_cases d H) as [E|[E|[E|[E|[E|[E|[E|[E|[E|E]]]]]]]]];
    subst; reflexivity.
Qed.

Lemma digit_char_no_sign (d : Z) :
  0 <= d <= 9 ->
  Ascii.eqb (Text.digit_char d) "+" = false /\ Ascii.eqb (Text.digit_char d) "-" = false
  /\ Ascii.eqb (Text.digit_char d) "d" = false.
Proof.
  intros H. destruct (digit_cases d H) as [E|[E|[E|[E|[E|[E|[E|[E|[E|E]]]]]]]]];
    subst; repeat split; reflexivity.
Qed.

Lemma digit_range (n w : Z) : 0 <= (n / w) mod 10 <= 9.
Proof. pose proof (Z.mod_pos_bound (n / w) 10). lia. Qed.

Lemma read_fixed_digits (w : nat) :
  forall (n acc : Z) (rest : string),
    Persistence.read_digits w acc (Text.fixed_digits w n ++ rest)
    = Some (acc * 10 ^ Z.of_nat w + n mod 10 ^ Z.of_nat w, rest).
Proof.
  induction w as [|w IH]; intros n acc rest.
  - cbn [Persistence.read_digits Text.fixed_digits append].
    change (10 ^ Z.of_nat 0) with 1. rewrite Z.mod_1_r, Z.mul_1_r, Z.add_0_r. reflexivity.
  - cbn [Persistence.read_digits Text.fixed_digits append].
    rewrite (digit_of_digit_char _ (digit_range n _)), IH.
    rewrite Nat2Z.inj_succ, Z.pow_succ_r by lia.
    rewrite (Z.mul_comm 10 (10 ^ Z.of_nat w)), Z.rem_mul_r by lia.
    f_equal. f_equal. ring.
Qed.

Lemma read_fixed (w : nat) (n : Z) (rest : string) :
  0 <= n < 10 ^ Z.of_nat w ->
  Persistence.read_digits w 0 (Text.fixed_digits w n ++ rest) = Some (n, rest).
Proof.
  intros H. rewrite read_fixed_digits, Z.mod_small by exact H. reflexivity.
Qed.

Lemma expect_head (c : ascii) (rest : string) :
  Persistence.expect c (String c rest) = Some rest.
Proof. cbn. rewrite Ascii.eqb_refl. reflexivity. Qed.

Lemma read_year_printed (y : Z) (rest : string) :
  -999999 <= y <= 999999 ->
  Persistence.read_year (Persistence.year_text y ++ rest) = Some (y, rest).
Proof.
  intros Hy. unfold Persistence.year_text. destruct ((0 <=? y) && (y <=? 9999)) eqn:E.
  - apply andb_true_iff in E. destruct E as [E1 E2]. apply Z.leb_le in E1, E2.
    unfold Persistence.read_year.
    change (Text.fixed_digits 4 y ++ rest)%string
      with (String (Text.digit_char ((y / 10 ^ 3) mod 10)) (Text.fixed_digits 3 y ++ rest)).
    destruct (digit_char_no_sign _ (digit_range y (10 ^ 3))) as [Hp [Hm _]].
    rewrite Hp, Hm.
    change (String (Text.digit_char ((y / 10 ^ 3) mod 10)) (Text.fixed_digits 3 y ++ rest))
      with (Text.fixed_digits 4 y ++ rest)%string.
    apply read_fixed. change (10 ^ Z.of_nat 4) with 10000. lia.
  - assert (Hout : y < 0 \/ 9999 < y).
    { apply andb_false_iff in E. destruct E as [E|E]; [apply Z.leb_gt in E | apply Z.leb_gt in E]; lia. }
    destruct (Z.ltb_spec y 0) as [Hneg|Hpos]; cbn [Persistence.sign_text].
    + change ((("-" ++ Text.fixed_digits 6 (Z.abs y)) ++ rest)%string)
        with (String "-" (Text.fixed_digits 6 (Z.abs y) ++ rest)).
      cbn [Persistence.read_year Ascii.eqb Bool.eqb].
      rewrite read_fixed by (change (10 ^ Z.of_nat 6) with 1000000; lia).
      destruct (Z.eqb_spec (Z.abs y) 0); [lia|]. f_equal. f_equal. lia.
    + change ((("+" ++ Text.fixed_digits 6 (Z.abs y)) ++ rest)%string)
        with (String "+" (Text.fixed_digits 6 (Z.abs y) ++ rest)).
      cbn [Persistence.read_year Ascii.eqb Bool.eqb].
      rewrite read_fixed by (change (10 ^ Z.of_nat 6) with 1000000; lia).
      f_equal. f_equal. lia.
Qed.

Lemma time_fields (t : Z) :
  let ms := Calendar.TimeWithinDay t in
  0 <= ms / 3600000 <= 23 /\ 0 <= ms / 60000 mod 60 <= 59
  /\ 0 <= ms / 1000 mod 60 <= 59 /\ 0 <= ms mod 1000 <= 999
  /\ Calendar.Day t * Calendar.msPerDay
     + ms / 3600000 * 3600000 + ms / 60000 mod 60 * 60000
     + ms / 1000 mod 60 * 1000 + ms mod 1000 = t.
Proof.
  unfold Calendar.TimeWithinDay, Calendar.Day, Calendar.msPerDay.
  cbv zeta. Z.to_euclidean_division_equations. lia.
Qed.

(** A date printed by [toISOString] is read back by [Date.parse]. *)
Lemma Date_parse_toISOString (t : Z) :
  Calendar.valid_time t ->
  Persistence.Date_parse (Persistence.toISOString t) = Persistence.Time t.
Proof.
  intros Hv. unfold Persistence.toISOString.
  destruct (Calendar.civil_from_days (Calendar.Day t)) as [[y m] d] eqn:E.
  destruct (civil_from_days_inverse _ _ _ _ E) as [Hinv [Hm Hd]].
  pose proof (valid_time_year t y m d Hv E) as Hy.
  destruct (time_fields t) as [Hh [Hmi [Hs [Hms Ht]]]].
  set (ms := Calendar.TimeWithinDay t) in *.
  unfold Persistence.Date_parse, Persistence.read_fields.
  cbn [append].
  rewrite read_year_printed by lia. cbv beta iota.
  rewrite expect_head. cbv beta iota.
  rewrite read_fixed by (change (10 ^ Z.of_nat 2) with 100; lia). cbv beta iota.
  rewrite expect_head. cbv beta iota.
  rewrite read_fixed by (change (10 ^ Z.of_nat 2) with 100; lia). cbv beta iota.
  rewrite expect_head. cbv beta iota.
  rewrite read_fixed by (change (10 ^ Z.of_nat 2) with 100; lia). cbv beta iota.
  rewrite expect_head. cbv beta iota.
  rewrite read_fixed by (change (10 ^ Z.of_nat 2) with 100; lia). cbv beta iota.
  rewrite expect_head. cbv beta iota.
  rewrite read_fixed by (change (10 ^ Z.of_nat 2) with 100; lia). cbv beta iota.
  rewrite expect_head. cbv beta iota.
  rewrite read_fixed by (change (10 ^ Z.of_nat 3) with 1000; lia). cbv beta iota.
  rewrite expect_head. cbv beta iota.
  rewrite Hinv, Ht.
  assert (Hc : (1 <=? m) && (m <=? 12) && (1 <=? d) && (d <=? 31)
               && (ms / 60000 mod 60 <=? 59) && (ms / 1000 mod 60 <=? 59)
               && ((ms / 3600000 <=? 23)
                   || (ms / 3600000 =? 24) && (ms / 60000 mod 60 =? 0)
                      && (ms / 1000 mod 60 =? 0) && (ms mod 1000 =? 0)) = true).
  { rewrite !andb_true_iff, orb_true_iff, !Z.leb_le. lia. }
  rewrite Hc. unfold Persistence.TimeClip.
  destruct (Z.leb_spec (Z.abs t) 8640000000000000) as [_|H]; [reflexivity|].
  unfold Calendar.valid_time in Hv. lia.
Qed.
End DatesAsText.


(** ** Saving and loading the transactions *)

Section SaveAndLoad.

Lemma decimal_not_date (n : Z) : (Text.decimal n =? "date")%string = false.
Proof.
  unfold Text.decimal, Text.ndigits.
  assert (H : exists k, Text.ndigits_fuel (Z.to_nat (Z.log2 n)) n = S k).
  { destruct (Z.to_nat (Z.log2 n)); cbn [Text.ndigits_fuel]; [eauto|].
    destruct (n <? 10); eauto. }
  destruct H as [k ->]. cbn [Text.fixed_digits String.eqb].
  destruct (digit_char_no_sign _ (digit_range n (10 ^ Z.of_nat k))) as [_ [_ ->]].
  reflexivity.
Qed.

Lemma finite_same (x : float) :
  is_finite x = true ->
  PrimFloat.eqb x (if is_zero x then PrimFloat.zero else x) = true.
Proof.
  intros H. destruct (is_zero x) eqn:Z0; [exact Z0|].
  unfold is_finite, is_nan in H.
  destruct (PrimFloat.eqb x x); [reflexivity | discriminate].
Qed.

Lemma reloaded_same (t : Transaction (A := F64.arith)) :
  valid_transaction t -> same_transaction t (reloaded t).
Proof.
  intros [_ Hf]. unfold same_transaction, reloaded. cbn.
  repeat split. apply finite_same. exact Hf.
Qed.

Lemma stringify_transaction (t : Transaction (A := F64.arith)) :
  valid_transaction t ->
  Persistence.stringify (Persistence.transaction_value t) = transaction_json t.
Proof.
  intros [_ Hf]. unfold Persistence.transaction_value, transaction_json.
  cbn [Persistence.stringify map fst snd]. unfold Persistence.number_json.
  rewrite Hf. reflexivity.
Qed.

(** A transaction read back from its document: the reviver turns the
    text under the key [date] into a date and leaves the other fields. *)
Lemma revive_transaction (key : string) (t : Transaction (A := F64.arith)) :
  (key =? "date")%string = false ->
  valid_transaction t ->
  Persistence.revive Persistence.date_reviver key (transaction_json t)
  = Persistence.transaction_value (reloaded t).
Proof.
  intros Hk [Hv Hf]. unfold transaction_json, Persistence.transaction_value.
  cbn [Persistence.revive map fst snd].
  unfold Persistence.date_reviver at 1. rewrite Hk.
  unfold Persistence.date_reviver.
  cbn [String.eqb Ascii.eqb Bool.eqb]. unfold Persistence.new_Date.
  rewrite (Date_parse_toISOString _ Hv). reflexivity.
Qed.

Lemma revive_transactions (txs : list (Transaction (A := F64.arith))) :
  Forall valid_transaction txs ->
  forall i : nat,
    Persistence.mapi
      (fun i x => Persistence.revive Persistence.date_reviver (Text.decimal (Z.of_nat i)) x)
      i (map transaction_json txs)
    = map Persistence.transaction_value (map reloaded txs).
Proof.
  induction 1 as [|t txs Ht _ IH]; intros i; [reflexivity|].
  cbn [map Persistence.mapi].
  rewrite (revive_transaction _ t (decimal_not_date _) Ht). f_equal. apply IH.
Qed.

(** C7. Saving a collection of valid transactions (dates that are times,
    finite amounts) and loading it again yields the collection: the
    document holds each date as its ISO-8601 text and the other fields as
    they are, and [JSON.parse] with the reviver of the component turns
    the value under the key [date], and no other, back into the date. The
    loaded collection is the saved one field by field, the amounts equal
    as [===] has it (an amount [-0] is loaded as [0]). *)
Theorem saved_transactions_load_back :
  forall txs : list (Transaction (A := F64.arith)),
    Forall valid_transaction txs ->
    Persistence.save txs = Some (Persistence.JArray (map transaction_json txs))
    /\ Persistence.load (Persistence.save txs)
       = Persistence.transactions_value (map reloaded txs)
    /\ Forall2 same_transaction txs (map reloaded txs).
Proof.
  intros txs Hv.
  assert (Hs : Persistence.save txs = Some (Persistence.JArray (map transaction_json txs))).
  { unfold Persistence.save, Persistence.transactions_value. cbn [Persistence.stringify].
    rewrite map_map. do 2 f_equal. apply map_ext_in. intros t Ht.
    apply stringify_transaction. rewrite Forall_forall in Hv. exact (Hv t Ht). }
  split; [exact Hs|]. split.
  - rewrite Hs. unfold Persistence.load, Persistence.transactions_value.
    cbn [Persistence.revive]. rewrite (revive_transactions txs Hv O). reflexivity.
  - clear Hs. induction Hv as [|t txs Ht _ IH]; cbn [map]; constructor.
    + apply reloaded_same. exact Ht.
    + exact IH.
Qed.

Lemma saved_transactions_load_back_witness :
  Persistence.load (Persistence.save DateLike.transactions)
  = Persistence.transactions_value DateLike.transactions.
Proof.
  destruct (saved_transactions_load_back DateLike.transactions) as [_ [H _]].
  - repeat constructor; cbn; lia.
  - exact H.
Defined.
End SaveAndLoad.

(** * Further properties *)

(** ** Dictionaries *)

Section Dictionaries.
Context {V : Type}.

Local Abbreviation keys o := (map (@fst string V) o).

Lemma get_None_iff (o : Obj.t V) (k : string) :
  Obj.get o k = None <-> ~ In k (keys o).
Proof.
  induction o as [|[k' v'] o IH]; cbn [Obj.get map fst In]; [tauto|].
  destruct (String.eqb_spec k' k) as [E|N].
  - split; [discriminate | intros H; exfalso; apply H; left; exact E].
  - rewrite IH. tauto.
Qed.

Lemma get_Some_In (o : Obj.t V) (k : string) (v : V) :
  Obj.get o k = Some v -> In k (keys o).
Proof.
  intros H. destruct (in_dec string_dec k (keys o)) as [Hin|Hout]; [exact Hin|].
  apply get_None_iff in Hout. congruence.
Qed.

Lemma mem_get (o : Obj.t V) (k : string) :
  mem k (keys o) = defined (Obj.get o k).
Proof.
  destruct (Obj.get o k) as [v|] eqn:G; cbn [defined].
  - apply mem_true_iff. exact (get_Some_In o k v G).
  - apply mem_false_iff, get_None_iff. exact G.
Qed.

Lemma keys_replace (o : Obj.t V) (k : string) (v : V) :
  keys (Obj.replace o k v) = keys o.
Proof.
  induction o as [|[k' v'] o IH]; [reflexivity|]. cbn [Obj.replace].
  destruct (String.eqb_spec k' k) as [E|N]; cbn [map fst]; [rewrite E; reflexivity|].
  rewrite IH. reflexivity.
Qed.

Lemma get_replace_same (o : Obj.t V) (k : string) (v : V) :
  In k (keys o) -> Obj.get (Obj.replace o k v) k = Some v.
Proof.
  induction o as [|[k' v'] o IH]; cbn [map fst In Obj.replace]; [tauto|]. intros H.
  destruct (String.eqb_spec k' k) as [E|N]; cbn [Obj.get].
  - rewrite String.eqb_refl. reflexivity.
  - destruct (String.eqb_spec k' k); [contradiction|]. apply IH. tauto.
Qed.

Lemma get_replace_other (o : Obj.t V) (k k' : string) (v : V) :
  k' <> k -> Obj.get (Obj.replace o k v) k' = Obj.get o k'.
Proof.
  intros N. induction o as [|[k0 v0] o IH]; [reflexivity|]. cbn [Obj.replace].
  destruct (String.eqb_spec k0 k) as [E|N0]; cbn [Obj.get].
  - subst k0. destruct (String.eqb_spec k k'); [congruence | reflexivity].
  - rewrite IH. reflexivity.
Qed.

Lemma replace_replace (o : Obj.t V) (k : string) (v v' : V) :
  Obj.replace (Obj.replace o k v) k v' = Obj.replace o k v'.
Proof.
  induction o as [|[k0 v0] o IH]; [reflexivity|]. cbn [Obj.replace].
  destruct (String.eqb_spec k0 k) as [E|N0]; cbn [Obj.replace].
  - rewrite String.eqb_refl. reflexivity.
  - destruct (String.eqb_spec k0 k); [contradiction|]. rewrite IH. reflexivity.
Qed.

Lemma replace_absent (o : Obj.t V) (k : string) (v : V) :
  ~ In k (keys o) -> Obj.replace o k v = o.
Proof.
  induction o as [|[k0 v0] o IH]; [reflexivity|]. cbn [map fst In Obj.replace]. intros H.
  destruct (String.eqb_spec k0 k) as [E|N0]; [tauto|]. rewrite IH; [reflexivity | tauto].
Qed.

(** Where [add_index] puts a new key: after the keys that are smaller
    indices, before the first key that is not. *)
Lemma add_index_split (o : Obj.t V) (i : Z) (k : string) (v : V) :
  exists o1 o2,
    o = o1 ++ o2 /\ Obj.add_index o i k v = o1 ++ (k, v) :: o2
    /\ Forall (fun kv => exists j, Obj.array_index (fst kv) = Some j /\ j < i) o1
    /\ match o2 with
       | [] => True
       | kv :: _ => match Obj.array_index (fst kv) with
                    | Some j => i <= j
                    | None => True
                    end
       end.
Proof.
  induction o as [|[k' v'] o IH].
  - exists [], []. repeat split; constructor.
  - cbn [Obj.add_index]. destruct (Obj.array_index k') as [j|] eqn:Ek.
    + destruct (Z.ltb_spec j i) as [Hlt|Hge].
      * destruct IH as [o1 [o2 [E1 [E2 [H1 H2]]]]].
        exists ((k', v') :: o1), o2. cbn [app]. rewrite <- E1, E2.
        repeat split; [|exact H2]. constructor; [|exact H1].
        exists j. split; [exact Ek | exact Hlt].
      * exists [], ((k', v') :: o). cbn [app fst]. rewrite Ek.
        repeat split; [constructor | exact Hge].
    + exists [], ((k', v') :: o). cbn [app fst]. rewrite Ek.
      repeat split; constructor.
Qed.

Lemma get_app (o1 o2 : Obj.t V) (k : string) :
  Obj.get (o1 ++ o2) k = match Obj.get o1 k with
                         | Some v => Some v
                         | None => Obj.get o2 k
                         end.
Proof.
  induction o1 as [|[k' v'] o1 IH]; [reflexivity|]. cbn [app Obj.get].
  destruct (k' =? k)%string; [reflexivity | exact IH].
Qed.

Lemma replace_app_absent (o1 o2 : Obj.t V) (k : string) (v : V) :
  ~ In k (keys o1) -> Obj.replace (o1 ++ o2) k v = o1 ++ Obj.replace o2 k v.
Proof.
  induction o1 as [|[k' v'] o1 IH]; [reflexivity|]. cbn [map fst In app Obj.replace].
  intros H. destruct (String.eqb_spec k' k); [tauto|]. rewrite IH; [reflexivity | tauto].
Qed.

(** The keys of an object after an assignment: those it had, and the
    assigned key, once. *)
Lemma set_cases (o : Obj.t V) (k : string) (v : V) :
  (In k (keys o) /\ Obj.set o k v = Obj.replace o k v)
  \/ (~ In k (keys o)
      /\ exists o1 o2, o = o1 ++ o2 /\ Obj.set o k v = o1 ++ (k, v) :: o2
         /\ (is_index k = false -> o2 = [])
         /\ (is_index k = true ->
             Forall (fun a => enumerated_before a k) (keys o1)
             /\ match o2 with
                | [] => True
                | kv :: _ => enumerated_before k (fst kv)
                end)).
Proof.
  unfold Obj.set. destruct (Obj.get o k) as [x|] eqn:G.
  - left. split; [exact (get_Some_In o k x G) | reflexivity].
  - right. split; [apply get_None_iff; exact G|].
    unfold is_index. destruct (Obj.array_index k) as [i|] eqn:Ek; cbn [defined].
    + destruct (add_index_split o i k v) as [o1 [o2 [E1 [E2 [H1 H2]]]]].
      exists o1, o2. repeat split; try assumption; try discriminate.
      * rewrite Forall_map. eapply Forall_impl; [|exact H1].
        intros kv [j [Ej Hj]]. unfold enumerated_before. rewrite Ej, Ek. lia.
      * destruct o2 as [|kv o2]; [exact I|]. unfold enumerated_before. rewrite Ek.
        destruct (Obj.array_index (fst kv)); [exact H2 | exact I].
    + exists o, []. rewrite app_nil_r. repeat split; try reflexivity; discriminate.
Qed.

Lemma In_keys_set (o : Obj.t V) (k c : string) (v : V) :
  In c (keys (Obj.set o k v)) <-> c = k \/ In c (keys o).
Proof.
  destruct (set_cases o k v) as [[Hin ->]|[Hout [o1 [o2 [E1 [E2 _]]]]]].
  - rewrite keys_replace. split; [tauto|]. intros [->|H]; assumption.
  - rewrite E2, E1, !map_app. cbn [map fst]. rewrite !in_app_iff. cbn [In].
    intuition congruence.
Qed.

Lemma NoDup_keys_set (o : Obj.t V) (k : string) (v : V) :
  NoDup (keys o) -> NoDup (keys (Obj.set o k v)).
Proof.
  intros Hnd. destruct (set_cases o k v) as [[Hin ->]|[Hout [o1 [o2 [E1 [E2 _]]]]]].
  - rewrite keys_replace. exact Hnd.
  - rewrite E2, map_app. cbn [map fst]. apply NoDup_Add with (a := k) (l := keys o).
    + rewrite E1, map_app. apply Add_app.
    + constructor; assumption.
Qed.

Lemma get_set_same (o : Obj.t V) (k : string) (v : V) :
  Obj.get (Obj.set o k v) k = Some v.
Proof.
  destruct (set_cases o k v) as [[Hin ->]|[Hout [o1 [o2 [E1 [E2 _]]]]]].
  - apply get_replace_same. exact Hin.
  - rewrite E2, get_app.
    assert (G : Obj.get o1 k = None).
    { apply get_None_iff. intros H. apply Hout. rewrite E1, map_app. apply in_or_app. tauto. }
    rewrite G. cbn [Obj.get]. rewrite String.eqb_refl. reflexivity.
Qed.

Lemma get_set_other (o : Obj.t V) (k k' : string) (v : V) :
  k' <> k -> Obj.get (Obj.set o k v) k' = Obj.get o k'.
Proof.
  intros N. destruct (set_cases o k v) as [[Hin ->]|[Hout [o1 [o2 [E1 [E2 _]]]]]].
  - apply get_replace_other. exact N.
  - rewrite E2, E1, !get_app. cbn [Obj.get].
    destruct (String.eqb_spec k k'); [congruence | reflexivity].
Qed.

Lemma replace_add_index (o : Obj.t V) (i : Z) (k : string) (v v' : V) :
  ~ In k (keys o) -> Obj.replace (Obj.add_index o i k v) k v' = Obj.add_index o i k v'.
Proof.
  induction o as [|[k0 v0] o IH]; cbn [map fst In Obj.add_index]; intros H.
  - cbn [Obj.replace]. rewrite String.eqb_refl. reflexivity.
  - destruct (Obj.array_index k0) as [j|]; [destruct (j <? i)|]; cbn [Obj.replace].
    + destruct (String.eqb_spec k0 k); [tauto|]. rewrite IH; [reflexivity | tauto].
    + rewrite String.eqb_refl. reflexivity.
    + rewrite String.eqb_refl. reflexivity.
Qed.

(** A second assignment to a key overwrites the first. *)
Lemma set_set (o : Obj.t V) (k : string) (v v' : V) :
  Obj.set (Obj.set o k v) k v' = Obj.set o k v'.
Proof.
  unfold Obj.set at 1. rewrite get_set_same. unfold Obj.set.
  destruct (Obj.get o k) eqn:G; [apply replace_replace|].
  apply get_None_iff in G. destruct (Obj.array_index k) as [i|].
  - apply replace_add_index. exact G.
  - rewrite (replace_app_absent o _ k v' G). cbn [Obj.replace].
    rewrite String.eqb_refl. reflexivity.
Qed.
End Dictionaries.

(** ** The order of the entries of a dictionary *)

Section Enumeration.
Context {V : Type}.

Local Abbreviation keys o := (map (@fst string V) o).
Local Abbreviation other := (fun k : string => negb (is_index k)).

Lemma sorted_app {X : Type} (R : X -> X -> Prop) (l1 l2 : list X) :
  StronglySorted R (l1 ++ l2)
  <-> StronglySorted R l1 /\ StronglySorted R l2
      /\ (forall a b, In a l1 -> In b l2 -> R a b).
Proof.
  induction l1 as [|x l1 IH]; cbn [app].
  - split; [intros H; repeat split; [constructor | exact H | intros a b []] | tauto].
  - split.
    + intros H. inversion H as [|? ? Hs Hall]; subst. apply IH in Hs.
      destruct Hs as [H1 [H2 H12]]. rewrite Forall_app in Hall. destruct Hall as [Ha1 Ha2].
      repeat split; [constructor; assumption | exact H2 |].
      intros a b [<-|Ha] Hb; [|exact (H12 a b Ha Hb)].
      rewrite Forall_forall in Ha2. exact (Ha2 b Hb).
    + intros [H1 [H2 H12]]. inversion H1 as [|? ? Hs Hall]; subst.
      constructor.
      * apply IH. repeat split; [exact Hs | exact H2 |].
        intros a b Ha Hb. apply H12; [right; exact Ha | exact Hb].
      * rewrite Forall_app. split; [exact Hall|]. apply Forall_forall.
        intros b Hb. apply H12; [left; reflexivity | exact Hb].
Qed.

Lemma enumerated_before_trans (a b c : string) :
  enumerated_before a b -> enumerated_before b c -> enumerated_before a c.
Proof.
  unfold enumerated_before.
  destruct (Obj.array_index a), (Obj.array_index b), (Obj.array_index c); try tauto. lia.
Qed.

Lemma before_other (a k : string) : is_index k = false -> enumerated_before a k.
Proof.
  unfold is_index, enumerated_before. destruct (Obj.array_index k); [discriminate|].
  destruct (Obj.array_index a); exact (fun _ => I).
Qed.

Lemma sorted_keys_set (o : Obj.t V) (k : string) (v : V) :
  StronglySorted enumerated_before (keys o) ->
  StronglySorted enumerated_before (keys (Obj.set o k v)).
Proof.
  intros Hs. destruct (set_cases o k v) as [[Hin ->]|[Hout [o1 [o2 [E1 [E2 [Hf Ht]]]]]]].
  - rewrite keys_replace. exact Hs.
  - rewrite E2, map_app. cbn [map fst]. rewrite E1, map_app in Hs.
    apply sorted_app in Hs. destruct Hs as [H1 [H2 H12]].
    destruct (is_index k) eqn:Ek.
    + destruct (Ht eq_refl) as [Hb Ha]. apply sorted_app.
      assert (Hk : Forall (enumerated_before k) (keys o2)).
      { destruct o2 as [|kv o2]; [constructor|]. cbn [map] in *.
        constructor; [exact Ha|]. inversion H2 as [|? ? _ Hall]; subst.
        eapply Forall_impl; [|exact Hall]. intros b. apply enumerated_before_trans. exact Ha. }
      repeat split; [exact H1 | constructor; assumption |].
      intros a b Ha' [<-|Hb'].
      * rewrite Forall_forall in Hb. exact (Hb a Ha').
      * exact (H12 a b Ha' Hb').
    + rewrite (Hf eq_refl). cbn [map]. apply sorted_app.
      repeat split; [exact H1 | repeat constructor |].
      intros a b _ [<-|[]]. apply before_other. exact Ek.
Qed.

Lemma other_keys_set (o : Obj.t V) (k : string) (v : V) :
  filter other (keys (Obj.set o k v))
  = if is_index k || mem k (keys o) then filter other (keys o)
    else filter other (keys o) ++ [k].
Proof.
  destruct (set_cases o k v) as [[Hin ->]|[Hout [o1 [o2 [E1 [E2 [Hf Ht]]]]]]].
  - rewrite keys_replace. apply mem_true_iff in Hin. rewrite Hin, orb_true_r. reflexivity.
  - apply mem_false_iff in Hout. rewrite Hout, orb_false_r.
    rewrite E2, E1, !map_app, !filter_app. cbn [map fst filter].
    destruct (is_index k) eqn:Ek; cbn [negb]; [reflexivity|].
    rewrite (Hf eq_refl). cbn [map filter]. rewrite app_nil_r. reflexivity.
Qed.

Lemma mem_same (c : string) (l1 l2 : list string) :
  (In c l1 <-> In c l2) -> mem c l1 = mem c l2.
Proof.
  intros H. destruct (mem c l2) eqn:E.
  - apply mem_true_iff. apply mem_true_iff in E. tauto.
  - apply mem_false_iff. apply mem_false_iff in E. tauto.
Qed.

Lemma unseen_same (s1 s2 l : list string) :
  (forall c, In c l -> (In c s1 <-> In c s2)) -> unseen s1 l = unseen s2 l.
Proof.
  intros H. unfold unseen. f_equal. apply filter_ext_in. intros c Hc.
  rewrite (mem_same c s1 s2 (H c Hc)). reflexivity.
Qed.

Lemma unseen_cons (seen : list string) (c : string) (l : list string) :
  unseen seen (c :: l)
  = if mem c seen then unseen seen l else c :: unseen (seen ++ [c]) l.
Proof.
  unfold unseen. cbn [filter]. destruct (mem c seen) eqn:M; cbn [negb]; [reflexivity|].
  cbn [first_occurrences]. f_equal. rewrite <- first_occurrences_filter. f_equal.
  induction l as [|x l IH]; [reflexivity|]. cbn [filter].
  rewrite mem_app. cbn [mem existsb]. rewrite orb_false_r, (String.eqb_sym c x).
  destruct (mem x seen); cbn [negb orb filter]; [exact IH|].
  destruct (x =? c)%string; cbn [negb]; rewrite IH; reflexivity.
Qed.

Lemma unseen_nil (l : list string) : unseen [] l = first_occurrences l.
Proof.
  unfold unseen. f_equal. induction l as [|x l IH]; [reflexivity|].
  cbn. f_equal. exact IH.
Qed.

Context {T : Type} (key : T -> string) (val : Obj.t V -> T -> V).

Lemma In_keys_assigned (o : Obj.t V) (l : list T) (c : string) :
  In c (keys (assigned key val o l)) <-> In c (keys o) \/ In c (map key l).
Proof.
  revert o. induction l as [|t l IH]; intros o; cbn [assigned fold_left map In]; [tauto|].
  fold (assigned key val (Obj.set o (key t) (val o t)) l). rewrite IH, In_keys_set.
  intuition congruence.
Qed.

Lemma NoDup_keys_assigned (o : Obj.t V) (l : list T) :
  NoDup (keys o) -> NoDup (keys (assigned key val o l)).
Proof.
  revert o. induction l as [|t l IH]; intros o H; [exact H|].
  cbn [assigned fold_left]. apply IH, NoDup_keys_set, H.
Qed.

Lemma sorted_keys_assigned (o : Obj.t V) (l : list T) :
  StronglySorted enumerated_before (keys o) ->
  StronglySorted enumerated_before (keys (assigned key val o l)).
Proof.
  revert o. induction l as [|t l IH]; intros o H; [exact H|].
  cbn [assigned fold_left]. apply IH, sorted_keys_set, H.
Qed.

Lemma other_keys_assigned (o : Obj.t V) (l : list T) :
  filter other (keys (assigned key val o l))
  = filter other (keys o) ++ unseen (keys o) (filter other (map key l)).
Proof.
  revert o. induction l as [|t l IH]; intros o.
  - cbn. rewrite app_nil_r. reflexivity.
  - cbn [assigned fold_left]. fold (assigned key val (Obj.set o (key t) (val o t)) l).
    rewrite IH, other_keys_set. cbn [map filter].
    destruct (is_index (key t)) eqn:Ek; cbn [negb orb].
    + f_equal. apply unseen_same. intros c Hc. rewrite In_keys_set.
      apply filter_In in Hc. destruct Hc as [_ Hc].
      split; [intros [->|H]; [rewrite Ek in Hc; discriminate | exact H] | tauto].
    + rewrite unseen_cons. destruct (mem (key t) (keys o)) eqn:M.
      * f_equal. apply unseen_same. intros c _. rewrite In_keys_set.
        apply mem_true_iff in M. split; [intros [->|H]; assumption | tauto].
      * rewrite <- app_assoc. cbn [app]. do 2 f_equal. apply unseen_same.
        intros c _. rewrite In_keys_set, in_app_iff. cbn [In]. intuition congruence.
Qed.

(** The keys of a dictionary built by a loop of assignments, as
    [Object.entries] lists them: every assigned key once; the keys that
    are array indices first, in ascending order; then the others, in the
    order of their first assignment. *)
Lemma keys_assigned (l : list T) :
  let ks := keys (assigned key val [] l) in
  NoDup ks
  /\ (forall c, In c ks <-> In c (map key l))
  /\ StronglySorted enumerated_before ks
  /\ filter other ks = first_occurrences (filter other (map key l)).
Proof.
  cbv zeta. split; [apply NoDup_keys_assigned; constructor|].
  split; [intros c; rewrite In_keys_assigned; cbn; tauto|].
  split; [apply sorted_keys_assigned; constructor|].
  rewrite other_keys_assigned. cbn [map filter app]. apply unseen_nil.
Qed.

Lemma filter_all {X : Type} (p : X -> bool) (l : list X) :
  (forall x, In x l -> p x = true) -> filter p l = l.
Proof.
  induction l as [|x l IH]; intros H; [reflexivity|]. cbn [filter].
  rewrite (H x (or_introl eq_refl)), IH; [reflexivity|].
  intros y Hy. apply H. right. exact Hy.
Qed.

(** Without array indices among the keys, the order is that of the
    first assignments. *)
Lemma keys_assigned_in_order (l : list T) :
  (forall t, In t l -> is_index (key t) = false) ->
  keys (assigned key val [] l) = first_occurrences (map key l).
Proof.
  intros H. destruct (keys_assigned l) as [_ [Hin [_ Ho]]].
  rewrite filter_all in Ho.
  - rewrite Ho, filter_all; [reflexivity|].
    intros c Hc. apply in_map_iff in Hc. destruct Hc as [t [<- Ht]].
    rewrite (H t Ht). reflexivity.
  - intros c Hc. apply Hin, in_map_iff in Hc. destruct Hc as [t [<- Ht]].
    rewrite (H t Ht). reflexivity.
Qed.

(** An entry of a dictionary is what a read of its key gives. *)
Lemma get_entry (o : Obj.t V) (k : string) (v : V) :
  NoDup (keys o) -> In (k, v) o -> Obj.get o k = Some v.
Proof.
  induction o as [|[k' v'] o IH]; cbn [map fst In Obj.get]; [tauto|].
  intros Hnd [E|Hin]; inversion Hnd as [|? ? Hk Hnd']; subst.
  - injection E as -> ->. rewrite String.eqb_refl. reflexivity.
  - destruct (String.eqb_spec k' k) as [->|N]; [|exact (IH Hnd' Hin)].
    exfalso. apply Hk. change k with (fst (k, v)). apply in_map. exact Hin.
Qed.
End Enumeration.

(** ** Sums by key *)

Section AccumulatedByKey.
Context {A : Arith} {T : Type} (key : T -> string) (amount : T -> num).

(** What the dictionary of the sums holds under a key: the amounts of the
    elements of the key, accumulated by [(o[k] || 0) + x]. *)
Lemma get_accumulated (o : Obj.t num) (l : list T) (c : string) :
  Obj.get (assigned key (add_to key amount) o l) c
  = fold_left (fun v x => Some (or0 v + x)%num) (map amount (with_key key c l))
              (Obj.get o c).
Proof.
  revert o. induction l as [|t l IH]; intros o; [reflexivity|].
  cbn [assigned fold_left].
  fold (assigned key (add_to key amount) (Obj.set o (key t) (add_to key amount o t)) l).
  rewrite IH. unfold with_key. cbn [filter].
  destruct (String.eqb_spec (key t) c) as [E|N].
  - subst c. rewrite get_set_same. reflexivity.
  - rewrite get_set_other by congruence. reflexivity.
Qed.

Lemma accumulated_from (l : list num) (a : num) :
  fold_left (fun v x => Some (or0 v + x)%num) l (Some a)
  = Some (fold_left (fun acc x => (or0 (Some acc) + x)%num) l a).
Proof.
  revert a. induction l as [|x l IH]; intros a; [reflexivity|].
  cbn [fold_left]. apply IH.
Qed.

Lemma entry_sum_or0 (l : list T) (c : string) (x : num) :
  In (c, x) (Obj.entries (assigned key (add_to key amount) [] l)) ->
  x = sum_or0 (map amount (with_key key c l)).
Proof.
  intros Hin. unfold Obj.entries in Hin.
  pose proof (get_entry _ c x (NoDup_keys_assigned key _ [] l (NoDup_nil _)) Hin) as G.
  rewrite get_accumulated in G. cbn [Obj.get] in G. unfold sum_or0.
  destruct (map amount (with_key key c l)) as [|a r]; [discriminate|].
  cbn [fold_left] in G |- *. rewrite accumulated_from in G. injection G as <-.
  cbn [or0]. destruct (ToBoolean n0); reflexivity.
Qed.

(** The same for the loop [if (o[k]) o[k] += x; else o[k] = x]. *)
Lemma get_reset (o : Obj.t num) (l : list T) (c : string) :
  Obj.get (assigned key (reset_to key amount) o l) c
  = fold_left (fun v x => Some match v with
                               | Some acc => if ToBoolean acc then (acc + x)%num else x
                               | None => x
                               end)
              (map amount (with_key key c l)) (Obj.get o c).
Proof.
  revert o. induction l as [|t l IH]; intros o; [reflexivity|].
  cbn [assigned fold_left].
  fold (assigned key (reset_to key amount)
          (Obj.set o (key t) (reset_to key amount o t)) l).
  rewrite IH. unfold with_key. cbn [filter].
  destruct (String.eqb_spec (key t) c) as [E|N].
  - subst c. rewrite get_set_same. unfold reset_to. reflexivity.
  - rewrite get_set_other by congruence. reflexivity.
Qed.

Lemma reset_from (l : list num) (a : num) :
  fold_left (fun v x => Some match v with
                             | Some acc => if ToBoolean acc then (acc + x)%num else x
                             | None => x
                             end) l (Some a)
  = Some (fold_left (fun acc x => if ToBoolean acc then (acc + x)%num else x) l a).
Proof.
  revert a. induction l as [|x l IH]; intros a; [reflexivity|].
  cbn [fold_left]. apply IH.
Qed.

Lemma entry_sum_reset (l : list T) (c : string) (x : num) :
  In (c, x) (Obj.entries (assigned key (reset_to key amount) [] l)) ->
  x = sum_reset (map amount (with_key key c l)).
Proof.
  intros Hin. unfold Obj.entries in Hin.
  pose proof (get_entry _ c x (NoDup_keys_assigned key _ [] l (NoDup_nil _)) Hin) as G.
  rewrite get_reset in G. cbn [Obj.get] in G. unfold sum_reset.
  destruct (map amount (with_key key c l)) as [|a r]; [discriminate|].
  cbn [fold_left] in G. rewrite reset_from in G. injection G as <-. reflexivity.
Qed.
End AccumulatedByKey.

(** ** Sums of binary64 numbers *)

Section Binary64Sums.

Lemma is_nan_SF (x : float) : is_nan x = true <-> Prim2SF x = S754_nan.
Proof.
  unfold is_nan. rewrite eqb_spec.
  destruct (Prim2SF x) as [s|s| |s m e]; cbn.
  - destruct s; split; discriminate.
  - destruct s; split; discriminate.
  - split; reflexivity.
  - unfold SFeqb, SFcompare. rewrite Z.compare_refl, Pos.compare_cont_refl.
    destruct s; split; discriminate.
Qed.

Lemma is_zero_SF (x : float) : is_zero x = true <-> exists s, Prim2SF x = S754_zero s.
Proof.
  unfold is_zero. rewrite eqb_spec.
  change (Prim2SF 0%float) with (S754_zero false).
  destruct (Prim2SF x) as [s|s| |s m e]; cbn.
  - split; [eauto | reflexivity].
  - destruct s; split; try discriminate; intros [s H]; discriminate.
  - split; [discriminate | intros [s H]; discriminate].
  - destruct s; split; try discriminate; intros [s H]; discriminate.
Qed.

Lemma nan_add (x a : float) : is_nan x = true -> is_nan (x + a)%float = true.
Proof.
  rewrite !is_nan_SF, add_spec. intros ->. reflexivity.
Qed.

Lemma nan_fold (l : list float) (x : float) :
  is_nan x = true -> is_nan (fold_left PrimFloat.add l x) = true.
Proof.
  revert x. induction l as [|a l IH]; intros x H; [exact H|].
  cbn [fold_left]. apply IH, nan_add, H.
Qed.

Lemma zeroish_nan (x y : float) : zeroish x y -> is_nan y = false -> is_nan x = false.
Proof.
  intros [->|[s1 [s2 [H1 H2]]]] H; [exact H|].
  destruct (is_nan x) eqn:N; [|reflexivity]. apply is_nan_SF in N. congruence.
Qed.

(** [x || 0] is [x] up to the sign of a zero, unless [x] is NaN. *)
Lemma or0_zeroish (x y : float) :
  zeroish x y -> is_nan y = false -> zeroish (@or0 F64.arith (Some x)) y.
Proof.
  intros Hz Hy. pose proof (zeroish_nan x y Hz Hy) as Hx.
  cbn [or0 ToBoolean F64.arith n0]. unfold F64.ToBoolean. rewrite Hx, orb_false_r.
  destruct (is_zero x) eqn:Z; cbn [negb]; [|exact Hz].
  apply is_zero_SF in Z. destruct Z as [s Hs]. right.
  destruct Hz as [->|[s1 [s2 [H1 H2]]]]; [exists false, s | exists false, s2];
    split; try reflexivity; assumption.
Qed.

(** Adding to a zero gives the number added, up to the sign of a zero. *)
Lemma zero_add_zeroish (z x : float) (s : bool) :
  Prim2SF z = S754_zero s -> zeroish x (z + x)%float.
Proof.
  intros Hz. pose proof (add_spec z x) as H. rewrite Hz in H. unfold SF64add, SFadd in H.
  destruct (Prim2SF x) as [sa|sa| |sa ma ea] eqn:Ea.
  - right. exists sa. destruct s, sa; eauto.
  - left. apply Prim2SF_inj. congruence.
  - left. apply Prim2SF_inj. congruence.
  - left. apply Prim2SF_inj. congruence.
Qed.

Lemma zeroish_round2 (x y : float) : zeroish x y -> @round2 F64.arith x = @round2 F64.arith y.
Proof.
  intros H. cbn [round2 F64.arith]. rewrite (zeroish_toFixed2 x y H). reflexivity.
Qed.

Lemma sum_or0_fold (l : list float) :
  forall x y, zeroish x y -> is_nan (fold_left PrimFloat.add l y) = false ->
              zeroish (fold_left (fun acc a => (@or0 F64.arith (Some acc) + a)%float) l x)
                      (fold_left PrimFloat.add l y).
Proof.
  induction l as [|a l IH]; intros x y Hz Hn; [exact Hz|].
  cbn [fold_left] in *. apply IH; [|exact Hn].
  apply zeroish_add. apply or0_zeroish; [exact Hz|].
  destruct (is_nan y) eqn:N; [|reflexivity].
  rewrite (nan_fold l _ (nan_add y a N)) in Hn. discriminate.
Qed.

(** The sum accumulated by [(acc || 0) + x] is the sum, up to the sign
    of a zero, when the sum is not NaN. *)
Lemma sum_or0_is_sum (l : list float) :
  is_nan (@sum F64.arith l) = false -> zeroish (@sum_or0 F64.arith l) (@sum F64.arith l).
Proof.
  intros H. apply (sum_or0_fold l); [left; reflexivity | exact H].
Qed.

Lemma sum_reset_fold (l : list float) :
  forall x y, zeroish x y -> is_nan (fold_left PrimFloat.add l y) = false ->
              zeroish (fold_left (fun acc a => if F64.ToBoolean acc then (acc + a)%float else a)
                                 l x)
                      (fold_left PrimFloat.add l y).
Proof.
  induction l as [|a l IH]; intros x y Hz Hn; [exact Hz|].
  cbn [fold_left] in *. apply IH; [|exact Hn].
  assert (Hy : is_nan y = false).
  { destruct (is_nan y) eqn:N; [|reflexivity].
    rewrite (nan_fold l _ (nan_add y a N)) in Hn. discriminate. }
  pose proof (zeroish_nan x y Hz Hy) as Hx.
  unfold F64.ToBoolean. rewrite Hx, orb_false_r.
  destruct (is_zero x) eqn:Z; cbn [negb]; [|apply zeroish_add; exact Hz].
  apply is_zero_SF in Z. destruct Z as [s Hs].
  destruct Hz as [->|[s1 [s2 [H1 H2]]]].
  - exact (zero_add_zeroish y a s Hs).
  - exact (zero_add_zeroish y a s2 H2).
Qed.

(** The sum accumulated by [if (acc) acc += x; else acc = x] is the sum,
    up to the sign of a zero, when the sum is not NaN. *)
Lemma sum_reset_is_sum (l : list float) :
  is_nan (@sum F64.arith l) = false -> zeroish (@sum_reset F64.arith l) (@sum F64.arith l).
Proof.
  intros H. destruct l as [|a l]; [left; reflexivity|].
  cbn [sum_reset]. unfold sum in *. cbn [fold_left nadd F64.arith n0] in *.
  apply (sum_reset_fold l); [apply zeroish_start | exact H].
Qed.
End Binary64Sums.

(** ** The totals by category and by month of Dashboard.tsx *)

Section CategoryAndMonth.
Context {A : Arith}.

Lemma categoryTotals_assigned (txs : list Transaction) :
  Dashboard.categoryTotals txs = assigned tx_category (add_to tx_category tx_amount) [] txs.
Proof. reflexivity. Qed.

Lemma monthlyTotals_assigned (tz : Z) (txs : list Transaction) :
  Dashboard.monthlyTotals tz txs
  = assigned (fun t => Dashboard.format_yyyy_MM tz (tx_date t))
             (add_to (fun t => Dashboard.format_yyyy_MM tz (tx_date t)) tx_amount) [] txs.
Proof. reflexivity. Qed.

Lemma categories_of_entries (o : Obj.t num) :
  map Dashboard.category
      (map (fun '(category, total) => Dashboard.mkCategoryTotal category (round2 total))
           (Obj.entries o))
  = map fst o.
Proof.
  rewrite map_map. apply map_ext. intros [c x]. reflexivity.
Qed.

Lemma months_of_entries (o : Obj.t num) :
  map Dashboard.month
      (map (fun '(month, total) => Dashboard.mkMonthTotal month (round2 total))
           (Obj.entries o))
  = map fst o.
Proof.
  rewrite map_map. apply map_ext. intros [c x]. reflexivity.
Qed.

(** X1. When no category names a member of [Object.prototype],
    [categoryExpenses] has exactly one entry per category that a
    transaction has, and no other entry; [categoryBreakdown] is the same
    list. *)
Theorem categoryExpenses_one_entry_per_category :
  forall txs : list Transaction,
    ordinary tx_category txs ->
    let categories := map Dashboard.category (Dashboard.categoryExpenses txs) in
    NoDup categories
    /\ (forall c, In c categories <-> In c (map tx_category txs))
    /\ Dashboard.categoryBreakdown txs = Dashboard.categoryExpenses txs.
Proof.
  intros txs _ categories. subst categories. unfold Dashboard.categoryExpenses.
  rewrite categories_of_entries, categoryTotals_assigned.
  destruct (keys_assigned tx_category (add_to tx_category tx_amount) txs) as [Hnd [Hin _]].
  split; [exact Hnd|]. split; [exact Hin | reflexivity].
Qed.

(** X2. When no category names a member of [Object.prototype], the
    entries of [categoryExpenses] come in the order in which
    [Object.entries] lists the keys of the dictionary of the totals:
    the categories that are array indices first, in ascending order, then
    the other categories in the order in which they first occur in the
    transaction list; when, besides, no category is an array index, the
    order is that of the first occurrences. This is the case of the
    categories [CATEGORIES] that the form offers: none is an array index
    or names a member of [Object.prototype]. *)
Theorem categoryExpenses_entry_order :
  forall txs : list Transaction,
    let categories := map Dashboard.category (Dashboard.categoryExpenses txs) in
    (ordinary tx_category txs ->
     StronglySorted enumerated_before categories
     /\ filter (fun c => negb (is_index c)) categories
        = first_occurrences (filter (fun c => negb (is_index c)) (map tx_category txs))
     /\ ((forall t, In t txs -> is_index (tx_category t) = false) ->
         categories = first_occurrences (map tx_category txs)))
    /\ ((forall t, In t txs -> In (tx_category t) DashboardText.CATEGORIES) ->
        ordinary tx_category txs
        /\ categories = first_occurrences (map tx_category txs)).
Proof.
  intros txs categories. subst categories. unfold Dashboard.categoryExpenses.
  rewrite categories_of_entries, categoryTotals_assigned.
  destruct (keys_assigned tx_category (add_to tx_category tx_amount) txs) as [_ [_ [Hs Ho]]].
  split.
  { intros _. split; [exact Hs|]. split; [exact Ho | apply keys_assigned_in_order]. }
  intros H. split.
  - intros t Ht. pose proof (H t Ht) as Hc. cbn in Hc.
    repeat (destruct Hc as [<-|Hc]; [reflexivity|]). destruct Hc.
  - apply keys_assigned_in_order. intros t Ht.
    pose proof (H t Ht) as Hc. cbn in Hc.
    repeat (destruct Hc as [<-|Hc]; [reflexivity|]). destruct Hc.
Qed.

Lemma digits_then_dash (w : nat) (n acc : Z) (r : string) :
  Text.digits_value acc (Text.fixed_digits w n ++ String "-" r) = None.
Proof.
  revert acc. induction w as [|w IH]; intros acc; [reflexivity|].
  cbn [Text.fixed_digits append Text.digits_value].
  rewrite digit_of_digit_char by apply digit_range. apply IH.
Qed.

Lemma dashed_not_index (w : nat) (n : Z) (r : string) :
  is_index (Text.fixed_digits w n ++ String "-" r) = false.
Proof.
  unfold is_index, Obj.array_index.
  pose proof (digits_then_dash w n 0 r) as H.
  destruct (Text.fixed_digits w n ++ String "-" r)%string as [|c rest]; [reflexivity|].
  destruct (Ascii.eqb c "0" && nonempty rest); [reflexivity|]. rewrite H. reflexivity.
Qed.

Lemma month_not_index (tz : Z) (d : Date) :
  is_index (Dashboard.format_yyyy_MM tz d) = false.
Proof.
  unfold Dashboard.format_yyyy_MM, Text.padStart0. cbv zeta. apply dashed_not_index.
Qed.

(** A key that starts with a digit names no member of
    [Object.prototype]: the dictionaries keyed by a formatted date are
    dictionaries for every date. *)
Lemma padded_not_inherited (w : nat) (n : Z) (rest : string) :
  Obj.inherited (Text.padStart0 (S w) n ++ rest) = false.
Proof.
  unfold Text.padStart0.
  assert (E : exists m, Nat.max (S w) (Text.ndigits n) = S m)
    by (destruct (Text.ndigits n); cbn; eauto).
  destruct E as [m ->]. cbn [Text.fixed_digits append].
  destruct (digit_cases _ (digit_range n (10 ^ Z.of_nat m)))
    as [E|[E|[E|[E|[E|[E|[E|[E|[E|E]]]]]]]]]; rewrite E; reflexivity.
Qed.

Lemma month_not_inherited (tz : Z) (d : Date) :
  Obj.inherited (Dashboard.format_yyyy_MM tz d) = false.
Proof. apply padded_not_inherited. Qed.

Lemma formatDate_not_inherited (tz : Z) (d : Date) :
  Obj.inherited (DashboardText.formatDate tz d) = false.
Proof. apply padded_not_inherited. Qed.

(** X3. The entries of [monthlyExpenses] are one per month that a
    transaction falls in, in the order in which the months first occur
    in the transaction list, not in the order of the calendar. *)
Theorem monthlyExpenses_months_in_order_of_first_occurrence :
  forall (tz : Z) (txs : list Transaction),
    let months := map Dashboard.month (Dashboard.monthlyExpenses tz txs) in
    months = first_occurrences (map (fun t => Dashboard.format_yyyy_MM tz (tx_date t)) txs)
    /\ NoDup months.
Proof.
  intros tz txs months. subst months. unfold Dashboard.monthlyExpenses.
  rewrite months_of_entries, monthlyTotals_assigned.
  rewrite keys_assigned_in_order by (intros t _; apply month_not_index).
  split; [reflexivity | apply NoDup_first_occurrences].
Qed.

Lemma In_category_entry (o : Obj.t num) (e : Dashboard.CategoryTotal) :
  In e (map (fun '(category, total) => Dashboard.mkCategoryTotal category (round2 total))
            (Obj.entries o)) ->
  exists x, In (Dashboard.category e, x) o /\ Dashboard.total e = round2 x.
Proof.
  intros H. apply in_map_iff in H. destruct H as [[c x] [<- Hin]].
  exists x. split; [exact Hin | reflexivity].
Qed.

Lemma In_month_entry (o : Obj.t num) (e : Dashboard.MonthTotal) :
  In e (map (fun '(month, total) => Dashboard.mkMonthTotal month (round2 total))
            (Obj.entries o)) ->
  exists x, In (Dashboard.month e, x) o /\ Dashboard.m_total e = round2 x.
Proof.
  intros H. apply in_map_iff in H. destruct H as [[c x] [<- Hin]].
  exists x. split; [exact Hin | reflexivity].
Qed.

End CategoryAndMonth.

(** X4. On binary64 numbers and when no category names a member of
    [Object.prototype], the total of every entry of [categoryExpenses] is
    the result of accumulating the amounts of the transactions of its
    category by [(total || 0) + amount], rounded to two decimals; it is
    the sum of these amounts, rounded to two decimals, whenever that sum
    is not NaN. *)
Theorem categoryExpenses_totals :
  forall txs : list (Transaction (A := F64.arith)),
    ordinary tx_category txs ->
    Forall (fun e =>
              Dashboard.total e = round2 (sum_or0 (amounts_of (Dashboard.category e) txs))
              /\ (is_nan (sum (amounts_of (Dashboard.category e) txs)) = false ->
                  Dashboard.total e = round2 (sum (amounts_of (Dashboard.category e) txs))))
           (Dashboard.categoryExpenses txs).
Proof.
  intros txs _. apply Forall_forall. intros e He.
  unfold Dashboard.categoryExpenses in He. rewrite categoryTotals_assigned in He.
  apply In_category_entry in He. destruct He as [x [Hin ->]].
  rewrite (entry_sum_or0 tx_category tx_amount txs _ x Hin).
  split; [reflexivity|]. intros Hn. apply zeroish_round2, sum_or0_is_sum, Hn.
Qed.

(** X5. On binary64 numbers, the total of every entry of
    [monthlyExpenses] is the result of accumulating, by
    [(total || 0) + amount], the amounts of the transactions whose date
    falls, in local time, in its month, rounded to two decimals; it is
    the sum of these amounts, rounded to two decimals, whenever that sum
    is not NaN. *)
Theorem monthlyExpenses_totals :
  forall (tz : Z) (txs : list (Transaction (A := F64.arith))),
    Forall (fun e =>
              let amounts :=
                map tx_amount
                    (filter (fun t => (Dashboard.format_yyyy_MM tz (tx_date t)
                                       =? Dashboard.month e)%string) txs) in
              Dashboard.m_total e = round2 (sum_or0 amounts)
              /\ (is_nan (sum amounts) = false -> Dashboard.m_total e = round2 (sum amounts)))
           (Dashboard.monthlyExpenses tz txs).
Proof.
  intros tz txs. apply Forall_forall. intros e He. cbv zeta.
  unfold Dashboard.monthlyExpenses in He. rewrite monthlyTotals_assigned in He.
  apply In_month_entry in He. destruct He as [x [Hin ->]].
  rewrite (entry_sum_or0 _ tx_amount txs _ x Hin).
  split; [reflexivity|]. intros Hn. apply zeroish_round2, sum_or0_is_sum, Hn.
Qed.

Lemma categoryExpenses_entry_order_example :
  map Dashboard.category
      (Dashboard.categoryExpenses (A := F64.arith)
         [mkTransaction (A := F64.arith) "1" 0 "Food" "a" 1%float;
          mkTransaction (A := F64.arith) "2" 0 "10" "b" 2%float;
          mkTransaction (A := F64.arith) "3" 0 "9" "c" 3%float])
  = ["9"; "10"; "Food"]%string.
Proof. reflexivity. Qed.

(** A total that is NaN is not kept: the amounts Infinity, -Infinity and
    5 of one category give the total 5, while their sum is NaN. *)
Lemma total_restarts_after_NaN :
  map Dashboard.total (Dashboard.categoryExpenses Undefined.transactions) = [5%float]
  /\ is_nan (sum (amounts_of "Food" Undefined.transactions)) = true.
Proof. split; reflexivity. Qed.

Lemma scenario_is_ordinary (tz : Z) : ordinary tx_category (Scenario.transactions tz).
Proof.
  intros t [<-|[<-|[<-|[]]]]; reflexivity.
Qed.

Lemma categoryExpenses_one_entry_per_category_witness :
  NoDup (map Dashboard.category (Dashboard.categoryExpenses (Scenario.transactions 0)))
  /\ (forall c, In c (map Dashboard.category (Dashboard.categoryExpenses (Scenario.transactions 0)))
                <-> In c (map tx_category (Scenario.transactions 0)))
  /\ Dashboard.categoryBreakdown (Scenario.transactions 0)
     = Dashboard.categoryExpenses (Scenario.transactions 0).
Proof.
  exact (categoryExpenses_one_entry_per_category (Scenario.transactions 0)
           (scenario_is_ordinary 0)).
Defined.

Lemma categoryExpenses_totals_witness :
  Forall (fun e =>
            Dashboard.total e
            = round2 (sum_or0 (amounts_of (Dashboard.category e) (Scenario.transactions 0)))
            /\ (is_nan (sum (amounts_of (Dashboard.category e) (Scenario.transactions 0)))
                = false ->
                Dashboard.total e
                = round2 (sum (amounts_of (Dashboard.category e) (Scenario.transactions 0)))))
         (Dashboard.categoryExpenses (Scenario.transactions 0)).
Proof.
  exact (categoryExpenses_totals (Scenario.transactions 0) (scenario_is_ordinary 0)).
Defined.

(** ** Natural numbers on binary64 *)

Section WholeNumbers.













End WholeNumbers.

Section WholeDoubles.









End WholeDoubles.

Section WholeDoublesAsText.

Example whole_50 : whole 50 = 50%float.
Proof. reflexivity. Qed.









End WholeDoublesAsText.

(** ** The total and the totals by category, on whole amounts *)

Section WholeAmounts.

(** Sums of natural numbers by key. *)
Section ByKey.
Context {T : Type} (key : T -> string) (units : T -> Z).



End ByKey.



End WholeAmounts.




(** ** The figures of [DashboardPage] *)

Section PageFigures.

Lemma fold_left_pointwise {X Y : Type} (f g : X -> Y -> X) (l : list Y) (a : X) :
  (forall a x, f a x = g a x) -> fold_left f l a = fold_left g l a.
Proof.
  intros H. revert a. induction l as [|x l IH]; intros a; [reflexivity|].
  cbn [fold_left]. rewrite H. apply IH.
Qed.

Lemma categoryBreakdown_step (acc : Obj.t float) (t : Transaction (A := F64.arith)) :
  (let category := tx_category t in
   let acc1 := if Stage2Page.falsy (Obj.get acc category)
               then Obj.set acc category 0%float else acc in
   Obj.set acc1 category (Stage2Page.ToNumber (Obj.get acc1 category) + tx_amount t)%float)
  = Obj.set acc (tx_category t) (add_to (A := F64.arith) tx_category tx_amount acc t).
Proof.
  cbv zeta. unfold add_to. change (@num F64.arith) with float.
  destruct (Obj.get acc (tx_category t)) as [x|] eqn:G; cbn [Stage2Page.falsy or0].
  - change (@ToBoolean F64.arith x) with (F64.ToBoolean x).
    destruct (F64.ToBoolean x); cbn [negb].
    + rewrite G. reflexivity.
    + rewrite get_set_same, set_set. reflexivity.
  - rewrite get_set_same, set_set. reflexivity.
Qed.

(** X6. When no category names a member of [Object.prototype], the
    reducer of [categoryBreakdown] in Stage2.tsx, which sets a missing or
    falsy total to 0 and then adds the amount, builds the same dictionary
    as the loop of [categoryExpenses] in Dashboard.tsx: the slices of the
    pie chart are the unrounded totals by category, in the same order.
    The total the summary card shows, [totalExpenses] with two decimals,
    is the text [totalExpenses] of Dashboard.tsx. *)
Theorem categoryBreakdown_agrees_with_Dashboard :
  forall txs : list (Transaction (A := F64.arith)),
    ordinary tx_category txs ->
    Stage2Page.categoryBreakdown txs = Dashboard.categoryTotals txs
    /\ map Stage2Page.name (Stage2Page.categoryPieData txs)
       = map Dashboard.category (Dashboard.categoryExpenses txs)
    /\ map (fun s => @round2 F64.arith (Stage2Page.value s)) (Stage2Page.categoryPieData txs)
       = map Dashboard.total (Dashboard.categoryExpenses txs)
    /\ F64.toFixed2 (Stage2Page.totalExpenses txs) = Dashboard.totalExpenses txs.
Proof.
  intros txs _.
  assert (E : Stage2Page.categoryBreakdown txs = Dashboard.categoryTotals txs).
  { unfold Stage2Page.categoryBreakdown, Dashboard.categoryTotals.
    apply fold_left_pointwise. intros o t. exact (categoryBreakdown_step o t). }
  split; [exact E|].
  unfold Stage2Page.categoryPieData, Dashboard.categoryExpenses. rewrite E, !map_map.
  split; [apply map_ext; intros [c x]; reflexivity|].
  split; [apply map_ext; intros [c x]; reflexivity | reflexivity].
Qed.
End PageFigures.

Lemma categoryBreakdown_agrees_with_Dashboard_witness :
  Stage2Page.categoryBreakdown (Scenario.transactions 0)
  = Dashboard.categoryTotals (Scenario.transactions 0)
  /\ map Stage2Page.name (Stage2Page.categoryPieData (Scenario.transactions 0))
     = map Dashboard.category (Dashboard.categoryExpenses (Scenario.transactions 0))
  /\ map (fun s => @round2 F64.arith (Stage2Page.value s))
         (Stage2Page.categoryPieData (Scenario.transactions 0))
     = map Dashboard.total (Dashboard.categoryExpenses (Scenario.transactions 0))
  /\ F64.toFixed2 (Stage2Page.totalExpenses (Scenario.transactions 0))
     = Dashboard.totalExpenses (Scenario.transactions 0).
Proof.
  exact (categoryBreakdown_agrees_with_Dashboard (Scenario.transactions 0)
           (scenario_is_ordinary 0)).
Defined.

(** ** Where an added transaction is listed *)

Section Placement.
Context {X : Type} (key : X -> Z).

Lemma sorted_filter (R : X -> X -> Prop) (p : X -> bool) (l : list X) :
  StronglySorted R l -> StronglySorted R (filter p l).
Proof.
  induction 1 as [|x l Hs IH Hall]; cbn [filter]; [constructor|].
  destruct (p x); [|exact IH]. constructor; [exact IH|].
  rewrite Forall_forall in *. intros y Hy. apply filter_In in Hy. apply Hall. tauto.
Qed.

Lemma filter_none (p q : X -> bool) (l : list X) :
  (forall x, p x = true -> q x = false) -> filter p (filter q l) = [].
Proof.
  intros H. induction l as [|x l IH]; [reflexivity|]. cbn [filter].
  destruct (q x) eqn:Q; [|exact IH]. cbn [filter].
  destruct (p x) eqn:P; [|exact IH]. rewrite (H x P) in Q. discriminate.
Qed.

Lemma filter_split (p q1 q2 : X -> bool) (l : list X) :
  (forall x, p x = true -> q1 x = true /\ q2 x = false) ->
  filter p (filter q1 l) = filter p l /\ filter p (filter q2 l) = [].
Proof.
  intros H. split.
  - apply filter_absorb. intros x Px. apply H. exact Px.
  - apply filter_none. intros x Px. apply H. exact Px.
Qed.

(** Sorting a list with one more element at its end: the element goes
    after those of the same or a larger key. *)
Lemma sort_append (l : list X) (x : X) :
  sort (desc key) (l ++ [x])
  = filter (fun y => key x <=? key y) (sort (desc key) l)
    ++ x :: filter (fun y => key y <? key x) (sort (desc key) l).
Proof.
  pose proof (sort_sorted key l) as Hs.
  apply (stable_sorted_unique key).
  - apply sort_sorted.
  - apply sorted_app. split; [apply sorted_filter; exact Hs|]. split.
    + constructor; [apply sorted_filter; exact Hs|]. apply Forall_forall.
      intros y Hy. apply filter_In in Hy. unfold before. lia.
    + intros a b Ha [<-|Hb]; apply filter_In in Ha; unfold before; [lia|].
      apply filter_In in Hb. lia.
  - intros d. rewrite sort_stable, !filter_app. cbn [filter].
    rewrite <- (sort_stable key d l).
    destruct (has_key key d x) eqn:Hx; unfold has_key in Hx.
    + destruct (filter_split (has_key key d) (fun y => key x <=? key y)
                  (fun y => key y <? key x) (sort (desc key) l)) as [-> ->];
        [|reflexivity].
      unfold has_key. intros y Hy. lia.
    + rewrite app_nil_r. destruct (Z.ltb_spec d (key x)) as [Hlt|Hge].
      * destruct (filter_split (has_key key d) (fun y => key y <? key x)
                    (fun y => key x <=? key y) (sort (desc key) l)) as [-> ->];
          [|reflexivity].
        unfold has_key. intros y Hy. lia.
      * destruct (filter_split (has_key key d) (fun y => key x <=? key y)
                    (fun y => key y <? key x) (sort (desc key) l)) as [-> ->];
          [|rewrite app_nil_r; reflexivity].
        unfold has_key. intros y Hy. lia.
Qed.
End Placement.

(** X7. [handleAddTransaction] appends the new transaction, and
    [recentTransactions] lists by date: in the list by date the new
    transaction comes after every transaction of the same or a later
    date, and before the earlier ones. A transaction dated after all the
    others heads the recent transactions. *)
Theorem added_transaction_is_listed_by_date :
  forall {A : Arith} (txs : list Transaction) (t : Transaction),
    let d := getTime (tx_date t) in
    let sorted := Dashboard.sortedByDate txs in
    Dashboard.sortedByDate (txs ++ [t])
    = filter (fun x => d <=? getTime (tx_date x)) sorted
      ++ t :: filter (fun x => getTime (tx_date x) <? d) sorted
    /\ ((forall x, In x txs -> getTime (tx_date x) < d) ->
        Dashboard.recentTransactions (txs ++ [t]) = t :: firstn 4 sorted).
Proof.
  intros A txs t d sorted. subst d sorted.
  pose proof (sort_append (fun x : Transaction => getTime (tx_date x)) txs t) as E.
  split; [exact E|]. intros Hlt.
  unfold Dashboard.recentTransactions, Dashboard.recent, slice0.
  rewrite !sortedByDate_eq, E.
  assert (Hin : forall x, In x (sort (desc (fun x : Transaction => getTime (tx_date x))) txs)
                          -> getTime (tx_date x) < getTime (tx_date t)).
  { intros x Hx. apply Hlt.
    exact (Permutation_in x (Permutation_sym (sort_perm _ txs)) Hx). }
  rewrite (filter_all (fun x => getTime (tx_date x) <? getTime (tx_date t))).
  - replace (filter _ (sort _ txs)) with (@nil (Transaction (A := A))); [reflexivity|].
    symmetry. clear E. induction (sort _ txs) as [|y s IH]; [reflexivity|]. cbn [filter].
    pose proof (Hin y (or_introl eq_refl)).
    destruct (Z.leb_spec (getTime (tx_date t)) (getTime (tx_date y))); [lia|].
    apply IH. intros z Hz. apply Hin. right. exact Hz.
  - intros x Hx. apply Z.ltb_lt. exact (Hin x Hx).
Qed.

(** ** What the handlers of Dashboard.tsx keep true *)

Section TransactionInvariant.
Context {A : Arith} {IO : NumberIO A}.

Lemma step_keeps_well_formed (e : Dashboard.Event) (s : Dashboard.State) :
  Forall well_formed (Dashboard.transactions s) ->
  Forall well_formed (Dashboard.transactions (Dashboard.step e s)).
Proof.
  intros H. destruct s as [txs bs ia et fd fc fde fa bc ba ib eb]. cbn in H.
  destruct e as [| |dt|c|de|a|uuid|id|id]; cbn; try exact H.
  - unfold Dashboard.handleAddTransaction. cbn.
    pose proof (hasErrors_iff fd fc fde fa) as Hiff.
    destruct (negb (defined fd) || negb (nonempty fc) || negb (nonempty fde)
              || (negb (nonempty fa) || isNaN (Number_ fa))) eqn:E; cbn; [exact H|].
    destruct fd as [d|]; cbn; [|exact H].
    assert (Hnew : forall i, well_formed (mkTransaction i d fc fde (Number_ fa))).
    { assert (Hno : ~ (Some d = None \/ fc = ""%string \/ fde = ""%string
                       \/ fa = ""%string \/ isNaN (Number_ fa) = true)).
      { intros C. apply Hiff in C. discriminate. }
      intros i. unfold well_formed. cbn.
      split; [intros ->; apply Hno; tauto|].
      split; [intros ->; apply Hno; tauto|].
      destruct (isNaN (Number_ fa)); [exfalso; apply Hno; tauto | reflexivity]. }
    assert (Happ : forall i, Forall well_formed (txs ++ [mkTransaction i d fc fde (Number_ fa)])).
    { intros i. apply Forall_app. split; [exact H | repeat constructor; apply Hnew]. }
    destruct et as [i|]; cbn; [|apply Happ].
    destruct (nonempty i); cbn; [|apply Happ].
    apply Forall_map. eapply Forall_impl; [|exact H].
    intros t Ht. destruct (tx_id t =? i)%string; [apply Hnew | exact Ht].
  - unfold Dashboard.handleEditTransaction. cbn.
    destruct (find (fun t => (tx_id t =? id)%string) txs); exact H.
  - apply Forall_forall. intros t Ht. apply filter_In in Ht.
    rewrite Forall_forall in H. apply H. tauto.
Qed.

(** X8. Whatever the user does on the transactions tab, the list holds
    only transactions the form lets through, if it did at the start:
    each has a category, a description and an amount that is not NaN. *)
Theorem transactions_stay_well_formed :
  forall (events : list Dashboard.Event) (s : Dashboard.State),
    Forall well_formed (Dashboard.transactions s) ->
    Forall well_formed (Dashboard.transactions (Dashboard.run events s)).
Proof.
  intros events. induction events as [|e events IH]; intros s H; [exact H|].
  cbn [Dashboard.run fold_left]. apply IH, step_keeps_well_formed, H.
Qed.

Lemma map_replace_same (i : string) (t : Transaction) (l : list Transaction) :
  NoDup (map tx_id l) -> In t l -> tx_id t = i ->
  map (fun x => if (tx_id x =? i)%string then t else x) l = l.
Proof.
  intros Hnd Hin Hi. rewrite <- (map_id l) at 2. apply map_ext_in. intros x Hx.
  destruct (String.eqb_spec (tx_id x) i) as [E|N]; [|reflexivity].
  (* two entries of the same id are the same entry *)
  clear - Hnd Hin Hi Hx E. subst i. induction l as [|y l IH]; [destruct Hin|].
  cbn [map] in Hnd. inversion Hnd as [|? ? Hy Hnd']; subst.
  destruct Hin as [->|Hin], Hx as [->|Hx]; try reflexivity.
  - exfalso. apply Hy. rewrite <- E. apply in_map. exact Hx.
  - exfalso. apply Hy. rewrite E. apply in_map. exact Hin.
  - exact (IH Hnd' Hin Hx).
Qed.

Lemma find_by_id (t : Transaction) (l : list Transaction) :
  NoDup (map tx_id l) -> In t l ->
  find (fun x => (tx_id x =? tx_id t)%string) l = Some t.
Proof.
  intros Hnd Hin. induction l as [|y l IH]; [destruct Hin|].
  cbn [map] in Hnd. inversion Hnd as [|? ? Hy Hnd']; subst. cbn [find].
  destruct (String.eqb_spec (tx_id y) (tx_id t)) as [E|N].
  - destruct Hin as [->|Hin]; [reflexivity|].
    exfalso. apply Hy. rewrite E. apply in_map. exact Hin.
  - destruct Hin as [->|Hin]; [congruence|]. exact (IH Hnd' Hin).
Qed.

(** X9. Opening a transaction for editing and saving the form as it
    was filled leaves the list as it is and closes the form, when the
    ids of the list are distinct and the text of the amount reads back
    as the amount. *)
Theorem edit_then_save_changes_nothing :
  forall (uuid : string) (s : Dashboard.State) (t : Transaction),
    NoDup (map tx_id (Dashboard.transactions s)) ->
    In t (Dashboard.transactions s) ->
    tx_id t <> ""%string ->
    well_formed t ->
    toString (tx_amount t) <> ""%string ->
    Number_ (toString (tx_amount t)) = tx_amount t ->
    let s' := fst (Dashboard.handleAddTransaction uuid
                     (Dashboard.handleEditTransaction (tx_id t) s)) in
    Dashboard.transactions s' = Dashboard.transactions s
    /\ Dashboard.isAddingTransaction s' = false
    /\ Dashboard.editingTransactionId s' = None
    /\ snd (Dashboard.handleAddTransaction uuid
              (Dashboard.handleEditTransaction (tx_id t) s)) = None.
Proof.
  intros uuid s t Hnd Hin Hid [Hc [Hd Hn]] Hs Hr. cbv zeta.
  destruct s as [txs bs ia et fd fc fde fa bc ba ib eb]. cbn in Hnd, Hin.
  unfold Dashboard.handleEditTransaction. cbn. rewrite (find_by_id t txs Hnd Hin). cbn.
  unfold Dashboard.handleAddTransaction. cbn.
  assert (N : forall x, x <> ""%string -> nonempty x = true).
  { intros x Hx. unfold nonempty. apply negb_true_iff. apply String.eqb_neq. exact Hx. }
  rewrite (N _ Hc), (N _ Hd), (N _ Hs), (N _ Hid), Hr, Hn. cbn.
  repeat split.
  replace (mkTransaction (tx_id t) (tx_date t) (tx_category t) (tx_description t) (tx_amount t))
    with t by (destruct t; reflexivity).
  apply map_replace_same; [exact Hnd | exact Hin | reflexivity].
Qed.
End TransactionInvariant.

Lemma transactions_stay_well_formed_witness :
  Forall (well_formed (IO := F64.io))
         (Dashboard.transactions
            (Dashboard.run (IO := F64.io)
               [Dashboard.ClickAddTransaction; Dashboard.PickDate (Some 0);
                Dashboard.SelectCategory "Food"; Dashboard.TypeDescription "Groceries";
                Dashboard.TypeAmount "50"; Dashboard.ClickSave "id-1";
                Dashboard.ClickEdit "id-1"; Dashboard.TypeAmount "abc";
                Dashboard.ClickSave "id-2"]
               (Dashboard.initial (A := F64.arith)))).
Proof.
  apply (transactions_stay_well_formed (IO := F64.io)). constructor.
Defined.

Lemma edit_then_save_changes_nothing_witness :
  Dashboard.transactions
    (fst (Dashboard.handleAddTransaction (IO := F64.io) "id-9"
            (Dashboard.handleEditTransaction (IO := F64.io) "2"
               (Dashboard.setTransactions (Scenario.transactions 0) Dashboard.initial))))
  = Scenario.transactions 0.
Proof.
  apply (edit_then_save_changes_nothing (IO := F64.io) "id-9"
           (Dashboard.setTransactions (Scenario.transactions 0) Dashboard.initial)
           (Scenario.gas 0)).
  - cbn. repeat constructor; cbn; intuition discriminate.
  - cbn. tauto.
  - discriminate.
  - repeat split; discriminate || reflexivity.
  - intros H. vm_compute in H. discriminate.
  - reflexivity.
Defined.

(** ** The budgets of Dashboard.tsx *)

Section BudgetLookup.
Context {A : Arith} {IO : NumberIO A}.

Lemma budgeted_for_replaced (c k : string) (x : num) (l : list Budget) :
  budgeted_for c (map (fun b => if (b_category b =? k)%string then mkBudget k x else b) l)
  = if (c =? k)%string
    then (if mem k (map b_category l) then x else n0)
    else budgeted_for c l.
Proof.
  unfold budgeted_for. induction l as [|b l IH]; cbn [map find mem existsb].
  - destruct (c =? k)%string; reflexivity.
  - destruct (String.eqb_spec (b_category b) k) as [Ek|Nk]; cbn [b_category].
    + destruct (String.eqb_spec c k) as [Ec|Nc].
      * subst c. rewrite String.eqb_refl. cbn [orb b_amount]. reflexivity.
      * destruct (String.eqb_spec k c); [congruence|].
        destruct (String.eqb_spec (b_category b) c); [congruence|].
        rewrite IH. destruct (String.eqb_spec c k); [congruence | reflexivity].
    + destruct (String.eqb_spec (b_category b) c) as [Ebc|Nbc].
      * destruct (String.eqb_spec c k); [congruence | reflexivity].
      * cbn [orb]. exact IH.
Qed.

Lemma budgeted_for_appended (c k : string) (x : num) (l : list Budget) :
  mem k (map b_category l) = false ->
  budgeted_for c (l ++ [mkBudget k x])
  = if (c =? k)%string then x else budgeted_for c l.
Proof.
  unfold budgeted_for. induction l as [|b l IH]; cbn [map app find mem existsb b_category].
  - intros _. rewrite (String.eqb_sym k c). destruct (c =? k)%string; reflexivity.
  - intros H. apply orb_false_iff in H. destruct H as [Hb Hl].
    destruct (String.eqb_spec (b_category b) c) as [Ebc|Nbc].
    + subst c. rewrite Hb. reflexivity.
    + exact (IH Hl).
Qed.

Lemma findIndex_found_mem (k : string) (l : list Budget) :
  findIndex_found (fun b => (b_category b =? k)%string) l = mem k (map b_category l).
Proof.
  unfold findIndex_found, mem. induction l as [|b l IH]; [reflexivity|].
  cbn [existsb map]. rewrite IH. reflexivity.
Qed.

(** X10. Saving the budget form in add mode is an insert-or-update by
    category: afterwards the budget of the form's category is the form's
    amount and the budget of every other category is what it was; an
    existing category keeps its place in the list, a new one goes to the
    end. *)
Theorem saved_budget_is_found :
  forall s : Dashboard.State,
    Dashboard.truthy_id (Dashboard.editingBudgetId s) = false ->
    snd (Dashboard.handleAddBudget s) = None ->
    let s' := fst (Dashboard.handleAddBudget s) in
    let category := Dashboard.budgetCategory s in
    let categories := map b_category (Dashboard.budgets s) in
    (forall c, budgeted_for c (Dashboard.budgets s')
               = if (c =? category)%string then Number_ (Dashboard.budgetAmount s)
                 else budgeted_for c (Dashboard.budgets s))
    /\ map b_category (Dashboard.budgets s')
       = (if mem category categories then categories else categories ++ [category])
    /\ Dashboard.isAddingBudget s' = false.
Proof.
  intros s Hadd Hok. cbv zeta.
  destruct s as [txs bs ia et fd fc fde fa bc ba ib eb]. cbn in Hadd |- *.
  unfold Dashboard.handleAddBudget in *. cbn in *.
  destruct (negb (nonempty bc) || (negb (nonempty ba) || isNaN (Number_ ba) || lez (Number_ ba)));
    [discriminate|]. cbn.
  assert (Hmode : (match eb with
                   | Some e => nonempty e
                   | None => false
                   end) = false) by exact Hadd.
  assert (F : findIndex_found (fun b => (b_category b =? bc)%string) bs
              = mem bc (map b_category bs)).
  { apply findIndex_found_mem. }
  assert (Hup : forall st : Dashboard.State,
    let st' := if findIndex_found (fun b => (b_category b =? bc)%string) bs
               then Dashboard.setBudgets
                      (map (fun b => if (b_category b =? bc)%string
                                     then mkBudget bc (Number_ ba) else b) bs) st
               else Dashboard.setBudgets (bs ++ [mkBudget bc (Number_ ba)]) st in
    (forall c, budgeted_for c (Dashboard.budgets st')
               = if (c =? bc)%string then Number_ ba else budgeted_for c bs)
    /\ map b_category (Dashboard.budgets st')
       = (if mem bc (map b_category bs) then map b_category bs
          else map b_category bs ++ [bc])).
  { intros st. cbv zeta. rewrite F. destruct (mem bc (map b_category bs)) eqn:M; cbn.
    - split; [intros c; rewrite budgeted_for_replaced, M; reflexivity|].
      rewrite replace_categories. rewrite <- (map_id (map b_category bs)) at 2.
      apply map_ext. intros c. destruct (String.eqb_spec c bc); congruence.
    - split; [intros c; apply budgeted_for_appended; exact M|].
      rewrite map_app. reflexivity. }
  destruct eb as [e|]; [cbn in Hmode; rewrite Hmode|].
  - destruct (Hup (Dashboard.mkState txs bs ia et fd fc fde fa bc ba ib (Some e))) as [H1 H2].
    split; [exact H1 | split; [exact H2|]].
    destruct (existsb _ bs); reflexivity.
  - destruct (Hup (Dashboard.mkState txs bs ia et fd fc fde fa bc ba ib None)) as [H1 H2].
    split; [exact H1 | split; [exact H2|]].
    destruct (existsb _ bs); reflexivity.
Qed.

(** X11. After a budget is deleted, [budgetComparison] has a row for its
    category exactly when a transaction has the category, and the row
    then shows 0 as budgeted. *)
Theorem deleted_budget_leaves_the_comparison :
  forall (category : string) (s : Dashboard.State) (txs : list Transaction),
    let rows := Dashboard.budgetComparison txs
                  (Dashboard.budgets (Dashboard.handleDeleteBudget category s)) in
    (In category (map Dashboard.r_category rows) <-> In category (map tx_category txs))
    /\ (forall r, In r rows -> Dashboard.r_category r = category ->
                  Dashboard.budgeted r = n0).
Proof.
  intros category s txs rows. subst rows. destruct s as [t0 bs ia et fd fc fde fa bc ba ib eb].
  unfold Dashboard.handleDeleteBudget. cbn.
  set (kept := filter (fun b => negb (b_category b =? category)%string) bs).
  assert (Hout : ~ In category (map b_category kept)).
  { intros H. apply in_map_iff in H. destruct H as [b [E Hb]]. apply filter_In in Hb.
    destruct Hb as [_ Hb]. rewrite E, String.eqb_refl in Hb. discriminate. }
  pose proof (fold_rows_order txs (Dashboard.comparison_init kept)) as Ho.
  assert (Hc : map Dashboard.r_category (Dashboard.comparison_init kept) = map b_category kept).
  { unfold Dashboard.comparison_init. rewrite map_map. reflexivity. }
  rewrite Hc in Ho.
  assert (Hrows : forall c x,
            In (c, x) (map (fun r => (Dashboard.r_category r, Dashboard.budgeted r))
                           (Dashboard.budgetComparison txs kept))
            <-> In (c, x) (map (fun r => (Dashboard.r_category r, Dashboard.budgeted r))
                               (Dashboard.comparison_init kept))
                \/ (x = n0 /\ In c (new_categories (map b_category kept) txs))).
  { intros c x. unfold Dashboard.budgetComparison. rewrite map_map. cbn [Dashboard.r_category Dashboard.budgeted].
    rewrite Ho, in_app_iff, (in_map_iff (fun c0 => (c0, n0))).
    split; (intros [H|H]; [left; exact H | right]).
    - destruct H as [c' [E Hin]]. injection E as <- <-. tauto.
    - destruct H as [-> Hin]. exists c. tauto. }
  assert (Hinit : forall x, ~ In (category, x)
                     (map (fun r => (Dashboard.r_category r, Dashboard.budgeted r))
                          (Dashboard.comparison_init kept))).
  { intros x H. apply Hout. rewrite <- Hc. apply in_map_iff in H.
    destruct H as [r [E Hr]]. injection E as E _. rewrite <- E. apply in_map. exact Hr. }
  split.
  - split.
    + intros H. apply in_map_iff in H. destruct H as [r [E Hr]].
      assert (Hp : In (category, Dashboard.budgeted r)
                      (map (fun r => (Dashboard.r_category r, Dashboard.budgeted r))
                           (Dashboard.budgetComparison txs kept))).
      { rewrite <- E. apply (in_map (fun r => (Dashboard.r_category r, Dashboard.budgeted r))).
        exact Hr. }
      apply Hrows in Hp. destruct Hp as [Hp|[_ Hp]]; [destruct (Hinit _ Hp)|].
      apply In_new_categories in Hp. tauto.
    + intros H.
      assert (Hp : In (category, n0)
                      (map (fun r => (Dashboard.r_category r, Dashboard.budgeted r))
                           (Dashboard.budgetComparison txs kept))).
      { apply Hrows. right. split; [reflexivity|]. apply In_new_categories. tauto. }
      apply in_map_iff in Hp. destruct Hp as [r [E Hr]]. injection E as E _.
      rewrite <- E. apply in_map. exact Hr.
  - intros r Hr E.
    assert (Hp : In (category, Dashboard.budgeted r)
                    (map (fun r => (Dashboard.r_category r, Dashboard.budgeted r))
                         (Dashboard.budgetComparison txs kept))).
    { rewrite <- E. apply (in_map (fun r => (Dashboard.r_category r, Dashboard.budgeted r))).
      exact Hr. }
    apply Hrows in Hp. destruct Hp as [Hp|[Hx _]]; [destruct (Hinit _ Hp) | exact Hx].
Qed.
End BudgetLookup.

Lemma saved_budget_is_found_witness :
  map b_category (Dashboard.budgets BudgetSession.two_budgets) = ["Food"; "Housing"]%string
  /\ budgeted_for "Housing" (Dashboard.budgets BudgetSession.two_budgets) = 200%float.
Proof.
  pose proof (saved_budget_is_found (IO := F64.io)
                (Dashboard.setBudgetAmount "200"
                   (Dashboard.setBudgetCategory "Housing"
                      (Dashboard.openBudgetForm
                         (BudgetSession.add "Food" "100" Dashboard.initial))))
                eq_refl eq_refl) as [H1 [H2 _]].
  split; [exact H2 | exact (H1 "Housing"%string)].
Defined.

(** ** The amounts of the budgets *)

Section PositiveBudgets.

Lemma positive_of_checks (x : float) :
  is_nan x = false -> (x <=? 0)%float = false -> (0 <? x)%float = true.
Proof.
  unfold is_nan. rewrite eqb_spec, leb_spec, ltb_spec.
  change (Prim2SF 0%float) with (S754_zero false).
  destruct (Prim2SF x) as [s|s| |s m e]; cbn; try discriminate.
  - destruct s; cbn; discriminate || reflexivity.
  - destruct s; cbn; try discriminate; reflexivity.
Qed.

Lemma positive_checks (x : float) :
  (0 <? x)%float = true ->
  is_nan x = false /\ (x <=? 0)%float = false /\ is_zero x = false.
Proof.
  unfold is_nan, is_zero. rewrite !eqb_spec, leb_spec, ltb_spec.
  change (Prim2SF 0%float) with (S754_zero false).
  destruct (Prim2SF x) as [s|s| |s m e]; cbn; try discriminate.
  - destruct s; cbn; try discriminate. repeat split.
  - destruct s; cbn; try discriminate. rewrite Z.compare_refl, Pos.compare_refl.
    repeat split.
Qed.

Lemma step_keeps_positive (e : BudgetTab.Event) (s : Dashboard.State) :
  Forall positive_budget (Dashboard.budgets s) ->
  Forall positive_budget (Dashboard.budgets (BudgetTab.step (IO := F64.io) e s)).
Proof.
  intros H. destruct s as [txs bs ia et fd fc fde fa bc ba ib eb]. cbn in H.
  destruct e as [| |c|a| |c|c]; cbn; try exact H.
  - unfold Dashboard.handleAddBudget. cbn.
    destruct (negb (nonempty bc)) eqn:Nc; cbn; [exact H|].
    destruct (negb (nonempty ba)) eqn:Na; cbn; [exact H|].
    destruct (is_nan (F64.Number_ ba)) eqn:Nn; cbn; [exact H|].
    destruct (F64.Number_ ba <=? PrimFloat.zero)%float eqn:Nl; cbn; [exact H|].
    assert (Hnew : positive_budget (mkBudget (A := F64.arith) bc (F64.Number_ ba))).
    { split; cbn.
      - intros ->. discriminate.
      - apply positive_of_checks; [exact Nn | exact Nl]. }
    assert (Hrep : forall k, Forall positive_budget
              (map (fun b : Budget (A := F64.arith) =>
                      if (b_category b =? k)%string
                      then mkBudget (A := F64.arith) bc (F64.Number_ ba) else b) bs)).
    { intros k. apply Forall_map. eapply Forall_impl; [|exact H].
      intros b Hb. destruct (b_category b =? k)%string; [exact Hnew | exact Hb]. }
    assert (Hup : Forall positive_budget
              (Dashboard.budgets
                 (if findIndex_found (fun b : Budget (A := F64.arith) =>
                                        (b_category b =? bc)%string) bs
                  then Dashboard.setBudgets
                         (map (fun b : Budget (A := F64.arith) =>
                                 if (b_category b =? bc)%string
                                 then mkBudget (A := F64.arith) bc (F64.Number_ ba) else b) bs)
                         (Dashboard.mkState txs bs ia et fd fc fde fa bc ba ib eb)
                  else Dashboard.setBudgets (bs ++ [mkBudget (A := F64.arith) bc (F64.Number_ ba)])
                         (Dashboard.mkState txs bs ia et fd fc fde fa bc ba ib eb)))).
    { destruct (findIndex_found _ bs); cbn; [apply Hrep|].
      apply Forall_app. split; [exact H | constructor; [exact Hnew | constructor]]. }
    destruct eb as [k|]; [|exact Hup].
    destruct (nonempty k); [|exact Hup]. cbn. apply Hrep.
  - unfold Dashboard.handleEditBudget. cbn.
    destruct (find (fun b => (b_category b =? c)%string) bs); exact H.
  - apply Forall_forall. intros b Hb. apply filter_In in Hb.
    rewrite Forall_forall in H. apply H. tauto.
Qed.

(** X12. Whatever the user does on the budget tab, every budget has a
    category and an amount above 0, if it had at the start: an amount
    that is empty, not a number, zero or negative is refused. *)
Theorem budgets_stay_positive :
  forall (events : list BudgetTab.Event) (s : Dashboard.State),
    Forall positive_budget (Dashboard.budgets s) ->
    Forall positive_budget (Dashboard.budgets (BudgetTab.run (IO := F64.io) events s)).
Proof.
  intros events. induction events as [|e events IH]; intros s H; [exact H|].
  cbn [BudgetTab.run fold_left]. apply IH, step_keeps_positive, H.
Qed.
End PositiveBudgets.

Lemma budgets_stay_positive_witness :
  Forall positive_budget
    (Dashboard.budgets
       (BudgetTab.run (IO := F64.io)
          [BudgetTab.ClickAddBudget; BudgetTab.SelectCategory "Food";
           BudgetTab.TypeAmount "120"; BudgetTab.ClickSave;
           BudgetTab.ClickEdit "Food"; BudgetTab.TypeAmount "-5"; BudgetTab.ClickSave]
          (Dashboard.initial (A := F64.arith)))).
Proof.
  apply budgets_stay_positive. constructor.
Defined.

(** ** What comes back from the stored documents *)

Section Documents.
Import Persistence.

Lemma mapi_map {X Y : Type} (f : X -> Y) (l : list X) (i : nat) :
  mapi (fun _ x => f x) i l = map f l.
Proof.
  revert i. induction l as [|x l IH]; intros i; [reflexivity|].
  cbn [mapi map]. f_equal. apply IH.
Qed.

Lemma revive_number (reviver : string -> value -> value) (key : string) (x : float) :
  (forall v, reviver key v = v) ->
  revive reviver key (number_json x) = number_back x.
Proof.
  intros H. unfold number_json, number_back.
  destruct (is_finite x); cbn [revive]; apply H.
Qed.

Lemma parse_budget (key : string) (b : Budget (A := F64.arith)) :
  revive (fun _ v => v) key (stringify (BudgetStorage.budget_value b)) = budget_back b.
Proof.
  unfold BudgetStorage.budget_value, budget_back. cbn [stringify revive map fst snd].
  rewrite revive_number by reflexivity. reflexivity.
Qed.

(** X13. Saving the budgets and loading them again gives, for every
    budget, its category and its amount, except that an amount that is not
    finite comes back as [null] and an amount [-0] as [0]. The budgets the
    form lets through whose amounts are finite come back as they were;
    the amount "Infinity", which the form lets through, does not. *)
Theorem saved_budgets_load_back :
  forall bs : list (Budget (A := F64.arith)),
    BudgetStorage.load (BudgetStorage.save bs) = VArray (map budget_back bs)
    /\ (Forall positive_budget bs ->
        Forall (fun b : Budget (A := F64.arith) => is_finite (b_amount b) = true) bs ->
        BudgetStorage.load (BudgetStorage.save bs) = BudgetStorage.budgets_value bs)
    /\ (forall b : Budget (A := F64.arith), In b bs -> is_finite (b_amount b) = false ->
                  In (VObject [("category"%string, VString (b_category b));
                               ("amount"%string, VNull)])
                     (map budget_back bs)).
Proof.
  intros bs.
  assert (E : BudgetStorage.load (BudgetStorage.save bs) = VArray (map budget_back bs)).
  { unfold BudgetStorage.load, BudgetStorage.save, BudgetStorage.parse,
      BudgetStorage.budgets_value.
    cbn [stringify revive]. f_equal. rewrite map_map.
    generalize O. induction bs as [|b bs IH]; intros i; [reflexivity|].
    cbn [map mapi]. rewrite parse_budget. f_equal. apply IH. }
  split; [exact E|]. split.
  - intros Hp Hf. rewrite E. unfold BudgetStorage.budgets_value. f_equal.
    apply map_ext_in. intros b Hb. rewrite Forall_forall in Hp, Hf.
    destruct (Hp b Hb) as [_ Hpos]. apply positive_checks in Hpos.
    destruct Hpos as [_ [_ Hz]].
    unfold budget_back, BudgetStorage.budget_value, number_back.
    rewrite (Hf b Hb), Hz. reflexivity.
  - intros b Hb Hinf. apply in_map_iff. exists b. split; [|exact Hb].
    unfold budget_back, number_back. rewrite Hinf. reflexivity.
Qed.

Lemma revive_any_transaction (key : string) (t : Transaction (A := F64.arith)) :
  (key =? "date")%string = false ->
  Calendar.valid_time (getTime (tx_date t)) ->
  revive date_reviver key (stringify (transaction_value t)) = transaction_back t.
Proof.
  intros Hk Hv. unfold transaction_value, transaction_back.
  cbn [stringify revive map fst snd].
  rewrite revive_number by reflexivity.
  unfold date_reviver at 1. rewrite Hk.
  unfold date_reviver. cbn [String.eqb Ascii.eqb Bool.eqb]. unfold new_Date.
  rewrite (Date_parse_toISOString _ Hv). reflexivity.
Qed.

(** X14. Saving the transactions and loading them again gives, for every
    transaction whose date is a time, its fields with the date as a date,
    whatever the amount: a finite amount comes back as the number (and
    [-0] as [0]), an amount that is not finite, such as the "Infinity"
    the form lets through, comes back as [null]. *)
Theorem saved_transactions_load_back_with_any_amount :
  forall txs : list (Transaction (A := F64.arith)),
    Forall (fun t : Transaction (A := F64.arith) => Calendar.valid_time (getTime (tx_date t))) txs ->
    load (save txs) = VArray (map transaction_back txs)
    /\ (forall t : Transaction (A := F64.arith), In t txs -> is_finite (tx_amount t) = false ->
                  exists fields,
                    In (VObject (fields ++ [("amount"%string, VNull)]))
                       (map transaction_back txs)).
Proof.
  intros txs Hv. split.
  - assert (M : forall i,
              mapi (fun i x => revive date_reviver (Text.decimal (Z.of_nat i)) x) i
                   (map (fun t => stringify (transaction_value t)) txs)
              = map transaction_back txs).
    { induction Hv as [|t txs Ht _ IH]; intros i; [reflexivity|].
      cbn [map mapi]. rewrite (revive_any_transaction _ t (decimal_not_date _) Ht).
      f_equal. apply IH. }
    unfold load, save, transactions_value. cbn [stringify revive].
    rewrite map_map, M. reflexivity.
  - intros t Ht Hinf.
    exists [("id"%string, VString (tx_id t));
            ("date"%string, VDate (Time (getTime (tx_date t))));
            ("category"%string, VString (tx_category t));
            ("description"%string, VString (tx_description t))].
    apply in_map_iff. exists t. split; [|exact Ht].
    unfold transaction_back, number_back. rewrite Hinf. reflexivity.
Qed.
End Documents.

Lemma saved_transactions_load_back_with_any_amount_witness :
  Persistence.load
    (Persistence.save
       [mkTransaction (A := F64.arith) "id-1" (Scenario.localMidnight 0 2024 1 10)
          "Food" "Groceries" infinity])
  = Persistence.VArray
      [Persistence.VObject
         [("id"%string, Persistence.VString "id-1");
          ("date"%string,
           Persistence.VDate (Persistence.Time (Scenario.localMidnight 0 2024 1 10)));
          ("category"%string, Persistence.VString "Food");
          ("description"%string, Persistence.VString "Groceries");
          ("amount"%string, Persistence.VNull)]].
Proof.
  apply (saved_transactions_load_back_with_any_amount
           [mkTransaction (A := F64.arith) "id-1" (Scenario.localMidnight 0 2024 1 10)
              "Food" "Groceries" infinity]).
  repeat constructor; cbn; lia.
Defined.

(** ** The form of [DashboardPage] *)

Section PageForm.
Import Stage2Page.

(** X15. [handleSubmit] of the form of Stage2.tsx refuses a submission
    when the amount, the date, the description or the category is
    missing, or when the amount converts to a number that is 0 or less:
    it then sets the error of the form and changes nothing else.
    Otherwise it puts the new transaction at the front of the list of
    the page, so that it heads the recent transactions whatever its
    date, closes the modal and resets the form. *)
Theorem handleSubmit_validates :
  forall (uuid : string) (now : Date) (f : Form) (p : Page),
    let rejected :=
      amount f = ""%string \/ date f = None \/ description f = ""%string
      \/ category f = ""%string \/ (F64.Number_ (amount f) <=? 0)%float = true in
    (rejected ->
     snd (handleSubmit uuid now f p) = p
     /\ formError (fst (handleSubmit uuid now f p)) <> ""%string
     /\ setFormError (formError f) (fst (handleSubmit uuid now f p)) = f)
    /\ (~ rejected ->
        exists d, date f = Some d
          /\ let new := mkTransaction (A := F64.arith) uuid d (category f) (description f)
                          (F64.Number_ (amount f)) in
             transactions (snd (handleSubmit uuid now f p)) = new :: transactions p
             /\ DashboardPage.recentTransactions (transactions (snd (handleSubmit uuid now f p)))
                = new :: firstn 4 (transactions p)
             /\ showAddTransactionModal (snd (handleSubmit uuid now f p)) = false
             /\ fst (handleSubmit uuid now f p)
                = mkForm ""%string (Some now) ""%string ""%string false ""%string).
Proof.
  intros uuid now f p rejected. subst rejected. destruct f as [a d de c sub err].
  unfold handleSubmit. cbn [amount date description category].
  assert (Hiff : negb (nonempty a) || negb (defined d) || negb (nonempty de)
                 || negb (nonempty c) = true
                 <-> a = ""%string \/ d = None \/ de = ""%string \/ c = ""%string).
  { rewrite !orb_true_iff, !negb_true_iff, !nonempty_false_iff.
    destruct d; cbn [defined]; intuition discriminate. }
  destruct (negb (nonempty a) || negb (defined d) || negb (nonempty de)
            || negb (nonempty c)) eqn:E.
  - split; [intros _; cbn; repeat split; discriminate|].
    intros Hn. exfalso. apply Hn. destruct (proj1 Hiff eq_refl) as [H|[H|[H|H]]]; tauto.
  - destruct (F64.Number_ a <=? 0)%float eqn:L.
    + split; [intros _; cbn; repeat split; discriminate|].
      intros Hn. exfalso. apply Hn. tauto.
    + split.
      * intros [H|[H|[H|[H|H]]]]; try discriminate;
          assert (T : false = true) by (apply Hiff; tauto); discriminate.
      * intros _. destruct d as [d|].
        -- exists d. split; [reflexivity|]. cbn. repeat split.
        -- exfalso. assert (T : false = true) by (apply Hiff; tauto). discriminate.
Qed.
End PageForm.

(** ** What the handlers of [App] keep true *)

Section AppHandlers.
Context {A : Arith} {IO : NumberIO A}.

Lemma Forall_update_first {X : Type} (P : X -> Prop) (p : X -> bool) (f : X -> X)
    (l : list X) :
  Forall P l -> (forall x, P x -> P (f x)) -> Forall P (update_first p f l).
Proof.
  intros H Hf. induction H as [|x l Hx Hl IH]; cbn [update_first]; [constructor|].
  destruct (p x); constructor; auto.
Qed.

Lemma update_first_is_map (id : string) (u : Stage2.Stored) (l : list Stage2.Stored) :
  NoDup (map Stage2.s_id l) -> Stage2.s_id u = id ->
  update_first (Stage2.stored_has_id id) (fun _ => u) l
  = map (fun t => if Stage2.stored_has_id id t then u else t) l.
Proof.
  intros Hnd Hu. induction l as [|x l IH]; [reflexivity|].
  cbn [map] in Hnd. inversion Hnd as [|? ? Hx Hnd']; subst.
  cbn [update_first map]. destruct (Stage2.stored_has_id (Stage2.s_id u) x) eqn:E.
  - f_equal. rewrite <- (map_id l) at 1. apply map_ext_in. intros y Hy.
    destruct (Stage2.stored_has_id (Stage2.s_id u) y) eqn:Ey; [|reflexivity].
    exfalso. apply Hx. unfold Stage2.stored_has_id in E, Ey.
    apply String.eqb_eq in E, Ey. rewrite E, <- Ey. apply in_map. exact Hy.
  - f_equal. exact (IH Hnd').
Qed.

Lemma stored_ids (l : list Stage2.Transaction) :
  map Stage2.s_id (map Stage2.written l) = map Stage2.t_id l.
Proof. rewrite map_map. reflexivity. Qed.

Lemma written_filter (id : string) (l : list Stage2.Transaction) :
  map Stage2.written (filter (fun t => negb (Stage2.has_id id t)) l)
  = filter (fun t => negb (Stage2.stored_has_id id t)) (map Stage2.written l).
Proof.
  induction l as [|t l IH]; [reflexivity|]. cbn [filter map].
  change (Stage2.stored_has_id id (Stage2.written t)) with (Stage2.has_id id t).
  destruct (Stage2.has_id id t); cbn [negb map]; rewrite IH; reflexivity.
Qed.

Lemma written_replaced (id : string) (u : Stage2.Transaction) (l : list Stage2.Transaction) :
  map Stage2.written (map (fun t => if Stage2.has_id id t then u else t) l)
  = map (fun x => if Stage2.stored_has_id id x then Stage2.written u else x)
        (map Stage2.written l).
Proof.
  rewrite !map_map. apply map_ext. intros t.
  change (Stage2.stored_has_id id (Stage2.written t)) with (Stage2.has_id id t).
  destruct (Stage2.has_id id t); reflexivity.
Qed.

Lemma ids_of_replaced (id : string) (u : Stage2.Transaction) (l : list Stage2.Transaction) :
  Stage2.t_id u = id ->
  map Stage2.t_id (map (fun t => if Stage2.has_id id t then u else t) l)
  = map Stage2.t_id l.
Proof.
  intros Hu. rewrite map_map. apply map_ext. intros t. unfold Stage2.has_id.
  destruct (String.eqb_spec (Stage2.t_id t) id); congruence.
Qed.

Lemma filter_perm {X : Type} (p : X -> bool) (l1 l2 : list X) :
  Permutation l1 l2 -> Permutation (filter p l1) (filter p l2).
Proof.
  induction 1 as [|x l1 l2 _ IH|x y l|l1 l2 l3 _ IH1 _ IH2]; cbn [filter].
  - constructor.
  - destruct (p x); [constructor|]; exact IH.
  - destruct (p x), (p y); try reflexivity. apply perm_swap.
  - exact (Permutation_trans IH1 IH2).
Qed.

Lemma NoDup_ids_filter (p : Stage2.Transaction -> bool) (l : list Stage2.Transaction) :
  NoDup (map Stage2.t_id l) -> NoDup (map Stage2.t_id (filter p l)).
Proof.
  induction l as [|x l IH]; cbn [map filter]; intros H; [constructor|].
  inversion H as [|? ? Hx Hl]; subst. destruct (p x); [|exact (IH Hl)].
  cbn [map]. constructor; [|exact (IH Hl)].
  intros Hin. apply Hx. apply in_map_iff in Hin. destruct Hin as [y [E Hy]].
  apply filter_In in Hy. rewrite <- E. apply in_map. tauto.
Qed.

(** X16. The stored collection holds the stored forms of the
    transactions of the list of [App] (what [JSON.stringify] writes for
    them: the dates as text, an amount that is not finite as [null]),
    with distinct ids, after every event, if it did before and the id
    [crypto.randomUUID()] gives to a new transaction is not yet in use:
    an addition goes to the front of the list and to the end of the
    store, an update and a deletion act on both. *)
Theorem list_and_store_stay_in_sync :
  forall (e : App.Event) (s : Stage2.State),
    in_sync s ->
    (forall uuid now, e = App.ClickSubmit uuid now ->
                      Stage2.editingTransaction s = None ->
                      ~ In uuid (map Stage2.t_id (Stage2.transactions s))) ->
    in_sync (App.step e s).
Proof.
  intros e s [Hp Hnd] Hfresh. unfold App.step.
  destruct (App.view s); try (split; assumption).
  destruct s as [st txs ld er op ed fm]. cbn in Hp, Hnd, Hfresh.
  destruct e as [|t|id|name value|date| |uuid now]; cbn [App.handle].
  - split; assumption.
  - split; assumption.
  - unfold Stage2.deleteTransactionHandler, Stage2.mockApi_deleteTransaction.
    split;
      cbn [Stage2.transactions Stage2.storage Stage2.stored Stage2.setLoading
           Stage2.setTransactions Stage2.setStorage Stage2.setError];
      [rewrite written_filter; apply filter_perm; exact Hp
      | apply NoDup_ids_filter; exact Hnd].
  - destruct name; split; assumption.
  - split; assumption.
  - split; assumption.
  - cbn [Stage2.editingTransaction].
    pose proof (validate_cases fm) as Hv.
    destruct ed as [t|].
    + unfold Stage2.updateTransaction. cbn [Stage2.formData].
      destruct (Stage2.validate fm) as [msg|]; [split; assumption|].
      destruct Hv as [_ [_ [d ->]]].
      unfold Stage2.mockApi_updateTransaction. cbn.
      destruct (find (Stage2.stored_has_id (Stage2.t_id t)) (Stage2.stored st))
        as [found|] eqn:F; cbn; [|split; assumption].
      apply find_some in F. destruct F as [Hin Hid]. unfold Stage2.stored_has_id in Hid.
      apply String.eqb_eq in Hid.
      assert (Hst : NoDup (map Stage2.s_id (Stage2.stored st))).
      { apply (Permutation_NoDup (Permutation_map Stage2.s_id Hp)).
        rewrite stored_ids. exact Hnd. }
      rewrite update_first_is_map by (cbn; assumption).
      split;
        cbn [Stage2.transactions Stage2.storage Stage2.stored Stage2.setLoading
             Stage2.closeModal Stage2.setTransactions Stage2.setStorage Stage2.setError];
        [rewrite written_replaced; apply Permutation_map; exact Hp|].
      rewrite ids_of_replaced by (cbn; assumption). exact Hnd.
    + unfold Stage2.addTransaction. cbn [Stage2.formData].
      destruct (Stage2.validate fm) as [msg|]; [split; assumption|].
      destruct Hv as [_ [_ [d ->]]]. cbn. split.
      * apply Permutation_cons_app. rewrite app_nil_r. exact Hp.
      * constructor; [exact (Hfresh uuid now eq_refl eq_refl) | exact Hnd].
Qed.

(** A state that does not render the main view stays as it is. *)
Lemma run_without_main_view (events : list App.Event) (s : Stage2.State) :
  App.view s <> App.Main -> App.run events s = s.
Proof.
  intros H. induction events as [|e events IH]; [reflexivity|].
  cbn [App.run fold_left]. unfold App.step at 2.
  destruct (App.view s) eqn:V; [exact IH | exact IH | congruence].
Qed.

(** X17. A submit that fails the validation of [App] sets the error, and
    the component then renders the error panel alone, which has no
    control: whatever the user does next, the state stays as it is, with
    its error. *)
Theorem failed_submit_ends_on_the_error_panel :
  forall (uuid : string) (now : Date * Date) (events : list App.Event)
         (s : Stage2.State) (msg : string),
    App.view s = App.Main ->
    Stage2.validate (Stage2.formData s) = Some msg ->
    App.view (Stage2.setError (Some msg) s) = App.ErrorPanel msg
    /\ App.run (App.ClickSubmit uuid now :: events) s = Stage2.setError (Some msg) s.
Proof.
  intros uuid now events s msg Hview Hv.
  pose proof (validate_cases (Stage2.formData s)) as Hm. rewrite Hv in Hm.
  assert (Hl : Stage2.loading s = false).
  { unfold App.view in Hview. destruct (Stage2.loading s); [discriminate | reflexivity]. }
  assert (V : App.view (Stage2.setError (Some msg) s) = App.ErrorPanel msg).
  { destruct s. cbn in *. unfold App.view. cbn. rewrite Hl, Hm. reflexivity. }
  split; [exact V|].
  cbn [App.run fold_left]. fold (App.run events (App.step (App.ClickSubmit uuid now) s)).
  assert (E : App.step (App.ClickSubmit uuid now) s = Stage2.setError (Some msg) s).
  { unfold App.step. rewrite Hview. cbn [App.handle].
    unfold Stage2.updateTransaction, Stage2.addTransaction. rewrite Hv.
    destruct (Stage2.editingTransaction s); reflexivity. }
  rewrite E. apply run_without_main_view. rewrite V. discriminate.
Qed.
End AppHandlers.

Section AppAmounts.

Lemma positive_written (x : float) :
  (0 <? x)%float = true ->
  match Stage2.number_written (IO := F64.io) x with
  | Some y => (0 <? y)%float = true
  | None => True
  end.
Proof.
  intros H. unfold Stage2.number_written. cbn [isFinite F64.io ToBoolean F64.arith].
  destruct (is_finite x); [|exact I].
  destruct (positive_checks x H) as [Hn [_ Hz]].
  unfold F64.ToBoolean. rewrite Hn, Hz. exact H.
Qed.

Lemma handle_keeps_positive (e : App.Event) (s : Stage2.State (A := F64.arith)) :
  positive_amounts s -> positive_amounts (App.handle (IO := F64.io) e s).
Proof.
  intros [H1 H2]. destruct s as [st txs ld er op ed fm]. cbn in H1, H2.
  assert (Hfilter : forall (X : Type) (P : X -> Prop) (p : X -> bool) l,
            Forall P l -> Forall P (filter p l)).
  { intros X P p l H. apply Forall_forall. intros t Ht. apply filter_In in Ht.
    rewrite Forall_forall in H. apply H. tauto. }
  destruct e as [|t|id|name value|date| |uuid now]; cbn [App.handle].
  - split; assumption.
  - split; assumption.
  - unfold Stage2.deleteTransactionHandler, Stage2.mockApi_deleteTransaction. cbn.
    split; apply Hfilter; assumption.
  - destruct name; split; assumption.
  - split; assumption.
  - split; assumption.
  - cbn [Stage2.editingTransaction].
    pose proof (validate_cases (IO := F64.io) fm) as Hv.
    destruct ed as [t|].
    + unfold Stage2.updateTransaction. cbn [Stage2.formData].
      destruct (Stage2.validate fm) as [msg|]; [split; assumption|].
      destruct Hv as [Hn [Hl [d ->]]]. pose proof (positive_of_checks _ Hn Hl) as Hpos.
      unfold Stage2.mockApi_updateTransaction. cbn.
      destruct (find (Stage2.stored_has_id (Stage2.t_id t)) (Stage2.stored st)) as [found|];
        cbn; [|split; assumption].
      split.
      * apply Forall_map. eapply Forall_impl; [|exact H1]. intros x Hx.
        destruct (Stage2.has_id (Stage2.t_id t) x); [exact Hpos | exact Hx].
      * apply Forall_update_first; [exact H2 | intros _ _; exact (positive_written _ Hpos)].
    + unfold Stage2.addTransaction. cbn [Stage2.formData].
      destruct (Stage2.validate fm) as [msg|]; [split; assumption|].
      destruct Hv as [Hn [Hl [d ->]]]. pose proof (positive_of_checks _ Hn Hl) as Hpos.
      cbn. split.
      * constructor; [exact Hpos | exact H1].
      * apply Forall_app. split; [exact H2|].
        constructor; [exact (positive_written _ Hpos) | constructor].
Qed.

(** The amount "Infinity" passes the validation of [App]; the list then
    holds an infinite amount and the store [null]. *)
Lemma infinite_amount_is_stored_as_null :
  let s := Stage2.addTransaction (IO := F64.io) "id-1" (7, 8) (CreateSession.dialog "Infinity") in
  map Stage2.t_amount (Stage2.transactions s) = [infinity]
  /\ map Stage2.s_amount (Stage2.stored (Stage2.storage s)) = [None].
Proof. split; reflexivity. Qed.

(** X18. Whatever the user does in [App], every transaction of the list
    has an amount above 0 and every stored amount is above 0 or [null],
    if it was so at the start: an amount that is not a number, zero or
    negative is refused by the addition and by the update, and an
    infinite amount, which they accept, is stored as [null]. *)
Theorem amounts_stay_positive :
  forall (events : list App.Event) (s : Stage2.State (A := F64.arith)),
    positive_amounts s -> positive_amounts (App.run (IO := F64.io) events s).
Proof.
  intros events. induction events as [|e events IH]; intros s H; [exact H|].
  cbn [App.run fold_left]. apply IH. unfold App.step.
  destruct (App.view s); [exact H | exact H | apply handle_keeps_positive; exact H].
Qed.
End AppAmounts.

Lemma list_and_store_stay_in_sync_witness :
  in_sync (IO := F64.io) (App.step (IO := F64.io) (App.ClickSubmit "id-1" (0, 0))
             (App.handleDateChange (Some 0)
                (App.handleInputChange App.Description "Groceries"
                   (App.handleInputChange App.Amount "50"
                      (App.openModal (IO := F64.io) None (App.mounted (A := F64.arith))))))).
Proof.
  apply (list_and_store_stay_in_sync (IO := F64.io)).
  - split; [constructor | constructor].
  - intros uuid now _ _ H. destruct H.
Defined.

Lemma failed_submit_ends_on_the_error_panel_witness :
  App.run (IO := F64.io)
    [App.ClickSubmit "id-1" (0, 0); App.ClickCancel; App.ClickAddTransaction]
    (App.openModal (IO := F64.io) None (App.mounted (A := F64.arith)))
  = Stage2.setError (Some "Please fill in all fields."%string)
      (App.openModal (IO := F64.io) None (App.mounted (A := F64.arith))).
Proof.
  apply (failed_submit_ends_on_the_error_panel (IO := F64.io) "id-1" (0, 0)
           [App.ClickCancel; App.ClickAddTransaction]
           (App.openModal (IO := F64.io) None (App.mounted (A := F64.arith)))
           "Please fill in all fields."%string);
    reflexivity.
Defined.

Lemma amounts_stay_positive_witness :
  positive_amounts
    (App.run (IO := F64.io)
       [App.ClickAddTransaction; App.Type_ App.Amount "50";
        App.Type_ App.Description "Groceries"; App.PickDate (Some 0);
        App.ClickSubmit "id-1" (0, 0)]
       (App.mounted (A := F64.arith))).
Proof.
  apply amounts_stay_positive. split; constructor.
Defined.

(** ** The chart of [App] *)

Section Chart.
Context {A : Arith}.
Variable tz : Z.

Local Abbreviation day := (fun t : Stage2.Transaction => DashboardText.formatDate tz (Stage2.t_date t)).

Lemma groupedData_assigned (txs : list Stage2.Transaction) :
  App.groupedData tz txs = assigned day (chart_amount tz) [] txs.
Proof.
  unfold App.groupedData, assigned. apply fold_left_pointwise. intros o t.
  unfold chart_amount. cbv zeta.
  destruct (Obj.get o (DashboardText.formatDate tz (Stage2.t_date t))) as [x|];
    [destruct (ToBoolean x)|]; reflexivity.
Qed.

Lemma day_not_index (d : Date) : is_index (DashboardText.formatDate tz d) = false.
Proof.
  unfold DashboardText.formatDate, Text.padStart0. cbv zeta. apply dashed_not_index.
Qed.

Lemma dates_of_entries (o : Obj.t num) :
  map App.c_date (map (fun '(date, amount) => App.mkChartPoint date amount) (Obj.entries o))
  = map fst o.
Proof.
  rewrite map_map. apply map_ext. intros [c x]. reflexivity.
Qed.

(** X19. [prepareChartData] gives the chart one point per day, in local
    time, that a transaction is dated, in the order in which the days
    first occur in the list of the component, and no point for an empty
    list. *)
Theorem chart_has_a_point_per_day :
  forall txs : list Stage2.Transaction,
    let dates := map App.c_date (App.prepareChartData tz txs) in
    dates = first_occurrences (map day txs) /\ NoDup dates.
Proof.
  intros txs dates. subst dates.
  assert (E : map App.c_date (App.prepareChartData tz txs) = first_occurrences (map day txs)).
  { destruct txs as [|t txs]; [reflexivity|]. unfold App.prepareChartData.
    rewrite dates_of_entries, groupedData_assigned.
    apply keys_assigned_in_order. intros x _. apply day_not_index. }
  rewrite E. split; [reflexivity | apply NoDup_first_occurrences].
Qed.

End Chart.

Section ChartAmounts.
Variable tz : Z.

Local Abbreviation day :=
  (fun t : Stage2.Transaction (A := F64.arith) =>
     DashboardText.formatDate tz (Stage2.t_date t)).

(** X20. On binary64 numbers, the amount of every point of the chart is
    the result of accumulating the amounts of the transactions of its
    day by [if (total) total += amount; else total = amount], not
    rounded; it is the sum of these amounts, up to the sign of a zero,
    whenever that sum is not NaN. *)
Theorem chart_amounts_are_sums :
  forall txs : list (Stage2.Transaction (A := F64.arith)),
    Forall (fun p =>
              let amounts :=
                map Stage2.t_amount
                    (filter (fun t => (day t =? App.c_date p)%string) txs) in
              App.c_amount p = sum_reset amounts
              /\ (is_nan (sum amounts) = false -> zeroish (App.c_amount p) (sum amounts)))
           (App.prepareChartData tz txs).
Proof.
  intros txs. apply Forall_forall. intros p Hp. cbv zeta.
  destruct txs as [|t0 txs]; [destruct Hp|]. unfold App.prepareChartData in Hp.
  rewrite groupedData_assigned in Hp.
  apply in_map_iff in Hp. destruct Hp as [[c x] [<- Hin]].
  cbn [App.c_amount App.c_date].
  rewrite (entry_sum_reset day Stage2.t_amount (t0 :: txs) c x Hin).
  split; [reflexivity|]. intros Hn. apply sum_reset_is_sum, Hn.
Qed.
End ChartAmounts.

(** ** Loading the stored transactions in [App] *)

Section Loading.
Import Persistence Reload.

Lemma parsed_is_no_date (v : value) : parsed v -> forall t, v <> VDate t.
Proof.
  intros [key [doc ->]] t. destruct doc; discriminate.
Qed.

Lemma get_of_parsed (l : list (string * json)) (k : string) (v : value) :
  Obj.get (map (fun kx => (fst kx, revive (fun _ v => v) (fst kx) (snd kx))) l) k = Some v ->
  parsed v.
Proof.
  induction l as [|[k' j] l IH]; cbn [map Obj.get fst snd]; [discriminate|].
  destruct (k' =? k)%string; [|exact IH].
  intros E. injection E as <-. exists k', j. reflexivity.
Qed.

(** The comparator throws on every value read from a document: its date,
    if it has one, is not a [Date]. *)
Lemma comparator_throws (a b : value) : parsed b -> byDateDescending a b = Throws.
Proof.
  intros [key [doc ->]]. unfold byDateDescending.
  destruct doc as [|x|x|x|l|l]; cbn [revive get_date bind call_getTime]; try reflexivity.
  destruct (Obj.get _ "date"%string) as [v|] eqn:G; [|reflexivity].
  pose proof (parsed_is_no_date v (get_of_parsed l _ v G)) as Hv.
  destruct v; try reflexivity. exfalso. exact (Hv t eq_refl).
Qed.

Lemma sort_of_parsed (l : list value) :
  Forall parsed l -> l <> [] ->
  (exists v, l = [v] /\ sort_with byDateDescending l = Returns l)
  \/ sort_with byDateDescending l = Throws.
Proof.
  induction 1 as [|x l Hx Hl IH]; intros Hne; [congruence|].
  destruct l as [|y l]; [left; exists x; split; reflexivity|].
  right. cbn [sort_with] in IH |- *.
  destruct IH as [[v [E R]]|R]; [discriminate | | rewrite R; reflexivity].
  rewrite R. cbn [bind insert_with].
  inversion Hl as [|? ? Hy _]; subst. rewrite (comparator_throws x y Hy). reflexivity.
Qed.

Lemma parsed_elements (l : list json) (i : nat) :
  Forall parsed (mapi (fun i x => revive (fun _ v => v) (Text.decimal (Z.of_nat i)) x) i l).
Proof.
  revert i. induction l as [|j l IH]; intros i; cbn [mapi]; constructor; [|apply IH].
  exists (Text.decimal (Z.of_nat i)), j. reflexivity.
Qed.

Lemma length_mapi {X Y : Type} (f : nat -> X -> Y) (l : list X) (i : nat) :
  List.length (mapi f i l) = List.length l.
Proof.
  revert i. induction l as [|x l IH]; intros i; [reflexivity|].
  cbn [mapi List.length]. f_equal. apply IH.
Qed.

(** X21. When the store holds two or more transactions, the effect of
    [App] that loads them ends with an error and an empty list:
    [JSON.parse] gives the dates back as text, the comparator of the sort
    calls [getTime] on it and throws, and the error is caught and shown.
    This is so for every document that holds an array of two or more
    values, and so for the documents [mockApi] writes. With one stored
    transaction or none the load succeeds. *)
Theorem stored_transactions_fail_to_load :
  forall (message : string) (docs : list json) (s : State),
    (2 <= List.length docs)%nat ->
    fetchTransactions message (Some (JArray docs)) s
    = Returns (mkState (transactions s) false
                 (Some (if nonempty message then message
                        else "Failed to fetch transactions"%string)))
    /\ (forall l : list (Stage2.Transaction (A := F64.arith)),
          (2 <= List.length l)%nat ->
          fetchTransactions message (stored_document l) s
          = Returns (mkState (transactions s) false
                       (Some (if nonempty message then message
                              else "Failed to fetch transactions"%string))))
    /\ (forall doc,
          fetchTransactions message (Some (JArray [doc])) s
          = Returns (mkState [BudgetStorage.parse doc] false None))
    /\ fetchTransactions message None s = Returns (mkState [] false None).
Proof.
  intros message docs s Hlen.
  assert (Hthrow : forall js, (2 <= List.length js)%nat ->
            fetchTransactions message (Some (JArray js)) s
            = Returns (mkState (transactions s) false
                         (Some (if nonempty message then message
                                else "Failed to fetch transactions"%string)))).
  { intros js Hjs. unfold fetchTransactions, getTransactions, BudgetStorage.parse.
    cbn [revive sorted].
    set (l := mapi _ O js).
    assert (Hl : List.length l = List.length js) by apply length_mapi.
    destruct (sort_of_parsed l (parsed_elements js O)) as [[v [E _]]|R].
    - intros E. rewrite E in Hl. cbn in Hl. lia.
    - rewrite E in Hl. cbn in Hl. lia.
    - rewrite R. reflexivity. }
  split; [exact (Hthrow docs Hlen)|]. split.
  - intros l Hl. unfold stored_document. cbn [stringify]. apply Hthrow.
    rewrite !length_map. exact Hl.
  - split; [|reflexivity]. intros doc.
    unfold fetchTransactions, getTransactions, BudgetStorage.parse.
    destruct doc; reflexivity.
Qed.
End Loading.

Lemma stored_transactions_fail_to_load_witness :
  Reload.fetchTransactions "b.date.getTime is not a function"
    (Reload.stored_document
       [Stage2.mkTransaction (A := F64.arith) "id-1" 50%float 0 "Groceries" (Stage2.AsDate 0) 0;
        Stage2.mkTransaction (A := F64.arith) "id-2" 25%float 0 "Gas" (Stage2.AsDate 0) 0])
    (Reload.mkState [] true None)
  = Reload.Returns
      (Reload.mkState [] false (Some "b.date.getTime is not a function"%string)).
Proof.
  destruct (stored_transactions_fail_to_load "b.date.getTime is not a function"
              [Persistence.JNull; Persistence.JNull] (Reload.mkState [] true None))
    as [_ [H _]].
  - cbn. lia.
  - apply H. cbn. lia.
Defined.

(** ** Dates as the keys of the totals *)

Section DateKeys.

Lemma ndigits_fuel_le (f : nat) (n : Z) (k : nat) :
  (1 <= k)%nat -> 0 <= n < 10 ^ Z.of_nat k -> (Text.ndigits_fuel f n <= k)%nat.
Proof.
  revert n k. induction f as [|f IH]; intros n k Hk Hn; cbn [Text.ndigits_fuel]; [exact Hk|].
  destruct (Z.ltb_spec n 10) as [Hlt|Hge]; [exact Hk|].
  destruct k as [|k]; [lia|]. apply le_n_S.
  rewrite Nat2Z.inj_succ, Z.pow_succ_r in Hn by lia.
  destruct k as [|k]; [cbn in Hn; lia|].
  apply IH; [lia|]. split; [apply Z.div_pos; lia|].
  apply Z.div_lt_upper_bound; lia.
Qed.

Lemma padStart0_fixed (w : nat) (n : Z) :
  (1 <= w)%nat -> 0 <= n < 10 ^ Z.of_nat w -> Text.padStart0 w n = Text.fixed_digits w n.
Proof.
  intros Hw Hn. unfold Text.padStart0, Text.ndigits.
  rewrite Nat.max_l by (apply ndigits_fuel_le; assumption). reflexivity.
Qed.

Lemma append_empty (s : string) : (s ++ "")%string = s.
Proof.
  induction s as [|c s IH]; [reflexivity|]. cbn [append]. rewrite IH. reflexivity.
Qed.

Lemma fixed_digits_same (w : nat) (a b : Z) (r1 r2 : string) :
  0 <= a < 10 ^ Z.of_nat w -> 0 <= b < 10 ^ Z.of_nat w ->
  (Text.fixed_digits w a ++ r1)%string = (Text.fixed_digits w b ++ r2)%string ->
  a = b /\ r1 = r2.
Proof.
  intros Ha Hb E. apply (f_equal (Persistence.read_digits w 0)) in E.
  rewrite (read_fixed w a r1 Ha), (read_fixed w b r2 Hb) in E.
  injection E as -> ->. split; reflexivity.
Qed.

Lemma dash_same (a b : string) : ("-" ++ a)%string = ("-" ++ b)%string -> a = b.
Proof. cbn [append]. intros E. injection E as E. exact E. Qed.

Lemma fields_of_time (t : Z) :
  exists y m d,
    Calendar.civil_from_days (Calendar.Day t) = (y, m, d)
    /\ Calendar.YearFromTime t = y /\ Calendar.MonthFromTime t + 1 = m
    /\ Calendar.DateFromTime t = d /\ 1 <= m <= 12 /\ 1 <= d <= 31.
Proof.
  unfold Calendar.YearFromTime, Calendar.MonthFromTime, Calendar.DateFromTime.
  destruct (Calendar.civil_from_days (Calendar.Day t)) as [[y m] d] eqn:E.
  destruct (civil_from_days_inverse _ _ _ _ E) as [_ [Hm Hd]].
  exists y, m, d. cbn [fst snd]. repeat split; lia.
Qed.

(** X22. Within the years 1 to 9999, the text [formatDate] gives to two
    dates is the same exactly when the dates fall on the same day in
    local time, and the month key of [monthlyExpenses] is the same exactly
    when they fall in the same month of the same year: the points of the
    chart and the entries of the monthly totals stand for days and for
    months. *)
Theorem formatDate_tells_days_apart :
  forall (tz : Z) (d1 d2 : Date),
    1 <= Calendar.YearFromTime (getTime d1 + tz) <= 9999 ->
    1 <= Calendar.YearFromTime (getTime d2 + tz) <= 9999 ->
    (DashboardText.formatDate tz d1 = DashboardText.formatDate tz d2
     <-> Calendar.Day (getTime d1 + tz) = Calendar.Day (getTime d2 + tz))
    /\ (Dashboard.format_yyyy_MM tz d1 = Dashboard.format_yyyy_MM tz d2
        <-> Calendar.YearFromTime (getTime d1 + tz) = Calendar.YearFromTime (getTime d2 + tz)
            /\ Calendar.MonthFromTime (getTime d1 + tz)
               = Calendar.MonthFromTime (getTime d2 + tz)).
Proof.
  intros tz d1 d2 H1 H2.
  unfold DashboardText.formatDate, Dashboard.format_yyyy_MM. cbv zeta.
  destruct (fields_of_time (getTime d1 + tz)) as [y1 [m1 [a1 [E1 [Y1 [M1 [D1 [Hm1 Ha1]]]]]]]].
  destruct (fields_of_time (getTime d2 + tz)) as [y2 [m2 [a2 [E2 [Y2 [M2 [D2 [Hm2 Ha2]]]]]]]].
  rewrite Y1 in H1. rewrite Y2 in H2. rewrite Y1, Y2, M1, M2, D1, D2.
  clear Y1 Y2 D1 D2.
  assert (P1 : (0 <? y1) = true) by (apply Z.ltb_lt; lia).
  assert (P2 : (0 <? y2) = true) by (apply Z.ltb_lt; lia).
  rewrite P1, P2.
  rewrite !(padStart0_fixed 4), !(padStart0_fixed 2) by (cbn; lia).
  split; split.
  - intros E.
    apply (fixed_digits_same 4 y1 y2) in E; [|cbn; lia|cbn; lia]. destruct E as [Ey E].
    apply dash_same in E.
    apply (fixed_digits_same 2 m1 m2) in E; [|cbn; lia|cbn; lia]. destruct E as [Em E].
    apply dash_same in E.
    rewrite <- (append_empty (Text.fixed_digits 2 a1)),
            <- (append_empty (Text.fixed_digits 2 a2)) in E.
    apply (fixed_digits_same 2 a1 a2) in E; [|cbn; lia|cbn; lia]. destruct E as [Ea _].
    destruct (civil_from_days_inverse _ _ _ _ E1) as [R1 _].
    destruct (civil_from_days_inverse _ _ _ _ E2) as [R2 _].
    rewrite <- R1, <- R2, Ey, Em, Ea. reflexivity.
  - intros E. rewrite E in E1. rewrite E1 in E2. injection E2 as <- <- <-. reflexivity.
  - intros E.
    apply (fixed_digits_same 4 y1 y2) in E; [|cbn; lia|cbn; lia]. destruct E as [Ey E].
    apply dash_same in E.
    rewrite <- (append_empty (Text.fixed_digits 2 m1)),
            <- (append_empty (Text.fixed_digits 2 m2)) in E.
    apply (fixed_digits_same 2 m1 m2) in E; [|cbn; lia|cbn; lia]. destruct E as [Em _].
    split; [exact Ey | lia].
  - intros [Ey Em]. assert (Hm : m1 = m2) by lia. rewrite Ey, Hm. reflexivity.
Qed.

(** Outside these years two days can share a text: the year 0 is
    written as the year 1. *)
Lemma formatDate_merges_eras :
  DashboardText.formatDate 0 (Scenario.localMidnight 0 0 3 1) = "0001-03-01"%string
  /\ DashboardText.formatDate 0 (Scenario.localMidnight 0 1 3 1) = "0001-03-01"%string.
Proof. split; reflexivity. Qed.
End DateKeys.

Lemma formatDate_tells_days_apart_witness :
  DashboardText.formatDate 0 (Scenario.localMidnight 0 2024 1 10)
  = DashboardText.formatDate 0 (Scenario.localMidnight 0 2024 1 10 + 3600000)
  <-> Calendar.Day (getTime (Scenario.localMidnight 0 2024 1 10) + 0)
      = Calendar.Day (getTime (Scenario.localMidnight 0 2024 1 10 + 3600000) + 0).
Proof.
  apply (formatDate_tells_days_apart 0 (Scenario.localMidnight 0 2024 1 10)
           (Scenario.localMidnight 0 2024 1 10 + 3600000)).
  - vm_compute. split; discriminate.
  - vm_compute. split; discriminate.
Defined.

(** ** The categories of the budgets *)

Section DistinctBudgets.
Context {A : Arith} {IO : NumberIO A}.

Lemma step_keeps_distinct (e : BudgetTab.Event) (s : Dashboard.State) :
  NoDup (map b_category (Dashboard.budgets s)) -> editing_own_category s ->
  match e with
  | BudgetTab.SelectCategory _ => Dashboard.truthy_id (Dashboard.editingBudgetId s) = false
  | _ => True
  end ->
  NoDup (map b_category (Dashboard.budgets (BudgetTab.step e s)))
  /\ editing_own_category (BudgetTab.step e s).
Proof.
  intros Hnd Hown Hok. destruct e as [| |c|a| |c|c]; cbn [BudgetTab.step].
  - destruct s. split; [exact Hnd|]. intros e He. discriminate.
  - destruct s. split; [exact Hnd|]. intros e He. discriminate.
  - destruct s as [txs bs ia et fd fc fde fa bc ba ib eb]. split; [exact Hnd|].
    unfold editing_own_category. cbn in *. intros e He Hne. subst eb.
    cbn in Hok. rewrite Hne in Hok. discriminate.
  - destruct s. split; [exact Hnd|]. exact Hown.
  - split.
    + apply handleAddBudget_keeps_distinct; [exact Hnd|].
      destruct (Dashboard.editingBudgetId s) as [e|] eqn:Ee; [|left; reflexivity].
      destruct (nonempty e) eqn:Ne; [|left; exact Ne].
      right; left. rewrite (Hown e Ee Ne). reflexivity.
    + destruct s as [txs bs ia et fd fc fde fa bc ba ib eb].
      unfold Dashboard.handleAddBudget. cbn.
      destruct (negb (nonempty bc) || (negb (nonempty ba) || isNaN (Number_ ba) || lez (Number_ ba)));
        cbn; [exact Hown|].
      intros e He. destruct eb as [k|]; [destruct (nonempty k)|];
        try destruct (findIndex_found _ bs); discriminate.
  - destruct s as [txs bs ia et fd fc fde fa bc ba ib eb].
    unfold Dashboard.handleEditBudget. cbn.
    destruct (find (fun b => (b_category b =? c)%string) bs) as [b|] eqn:F; cbn;
      [|split; assumption].
    split; [exact Hnd|]. intros e He _. injection He as <-.
    apply find_some in F. destruct F as [_ F]. apply String.eqb_eq in F. exact F.
  - split; [apply handleDeleteBudget_keeps_distinct; exact Hnd|].
    destruct s. intros e He. discriminate.
Qed.

(** X23. As long as the category of the form is not changed while a
    budget is being edited, the budgets keep distinct categories,
    whatever the user does on the budget tab: two budgets of one category
    can only come from an edit that changes the category. *)
Theorem budgets_stay_distinct_without_recategorising :
  forall (events : list BudgetTab.Event) (s : Dashboard.State),
    NoDup (map b_category (Dashboard.budgets s)) ->
    editing_own_category s ->
    keeps_edited_category events s ->
    NoDup (map b_category (Dashboard.budgets (BudgetTab.run events s))).
Proof.
  intros events. induction events as [|e events IH]; intros s Hnd Hown Hk; [exact Hnd|].
  cbn [BudgetTab.run fold_left]. cbn [keeps_edited_category] in Hk. destruct Hk as [Hok Hk].
  destruct (step_keeps_distinct e s Hnd Hown Hok) as [Hnd' Hown'].
  exact (IH _ Hnd' Hown' Hk).
Qed.
End DistinctBudgets.

Lemma budgets_stay_distinct_without_recategorising_witness :
  NoDup (map b_category
           (Dashboard.budgets
              (BudgetTab.run (IO := F64.io)
                 [BudgetTab.ClickAddBudget; BudgetTab.SelectCategory "Food";
                  BudgetTab.TypeAmount "100"; BudgetTab.ClickSave;
                  BudgetTab.ClickAddBudget; BudgetTab.SelectCategory "Food";
                  BudgetTab.TypeAmount "150"; BudgetTab.ClickSave;
                  BudgetTab.ClickEdit "Food"; BudgetTab.TypeAmount "120";
                  BudgetTab.ClickSave]
                 (Dashboard.initial (A := F64.arith))))).
Proof.
  apply (budgets_stay_distinct_without_recategorising (IO := F64.io)).
  - constructor.
  - intros e He. discriminate.
  - cbn. repeat split.
Defined.

(** ** The transactions [DashboardPage] starts with *)

Section FetchedTransactions.

Lemma localDate_order (tz y m d y' m' d' : Z) :
  getTime (Stage2Page.localDate tz y m d) - getTime (Stage2Page.localDate tz y' m' d')
  = getTime (Stage2Page.localDate 0 y m d) - getTime (Stage2Page.localDate 0 y' m' d').
Proof. unfold getTime, Stage2Page.localDate. lia. Qed.

Lemma sort_of_sorted {X : Type} (key : X -> Z) (l : list X) :
  StronglySorted (before key) l -> sort (desc key) l = l.
Proof.
  intros H. apply (stable_sorted_unique key); [apply sort_sorted | exact H |].
  intros d. apply sort_stable.
Qed.

(** X24. A list of transactions that is already in the order of the
    dates, latest first, is left as it is by the sort of
    [recentTransactions] of Dashboard.tsx, so that the two components
    show the same recent transactions: on such a list the first five of
    Stage2.tsx are the five latest of Dashboard.tsx. *)
Theorem recent_of_a_list_by_date :
  forall {A : Arith} (txs : list Transaction),
    StronglySorted (before (fun t : Transaction => getTime (tx_date t))) txs ->
    Dashboard.sortedByDate txs = txs
    /\ Dashboard.recentTransactions txs = DashboardPage.recentTransactions txs.
Proof.
  intros A txs H.
  assert (E : Dashboard.sortedByDate txs = txs).
  { rewrite sortedByDate_eq. apply sort_of_sorted. exact H. }
  split; [exact E|].
  unfold Dashboard.recentTransactions, Dashboard.recent, DashboardPage.recentTransactions.
  rewrite E. reflexivity.
Qed.

(** C5, at the transactions [DashboardPage] of Stage2.tsx starts with.
    The ten transactions [fetchTransactions] resolves to are not in the
    order of the dates, and [recentTransactions] of Stage2.tsx, commented
    "Get the 5 most recent", takes the first five as listed: Groceries,
    Gas, Dinner, Movie and Utilities, dated from January 5th to February
    12th. The five most recent, which [recentTransactions] of
    Dashboard.tsx gives for the same list, are the last five, latest
    first, in any time zone. *)
Theorem fetched_recent_are_not_the_latest :
  forall tz : Z,
    map tx_description (DashboardPage.recentTransactions (Stage2Page.fetchTransactions tz))
    = ["Groceries"; "Gas"; "Dinner"; "Movie"; "Utilities"]%string
    /\ map tx_description (Dashboard.recentTransactions (Stage2Page.fetchTransactions tz))
       = ["Internet"; "Concert"; "Bus Fare"; "Lunch"; "Clothes"]%string.
Proof.
  intros tz. split; [reflexivity|].
  unfold Dashboard.recentTransactions, Dashboard.recent, Dashboard.sortedByDate,
    Stage2Page.fetchTransactions.
  cbn [sort].
  repeat (cbn [insert tx_date];
          rewrite (localDate_order tz);
          match goal with
          | |- context [(?a <=? 0)%Z] =>
              let b := eval vm_compute in (a <=? 0)%Z in
              change (a <=? 0)%Z with b; cbv iota
          end).
  reflexivity.
Qed.
End FetchedTransactions.

Lemma recent_of_a_list_by_date_witness :
  Dashboard.sortedByDate (rev (Scenario.transactions 0)) = rev (Scenario.transactions 0)
  /\ Dashboard.recentTransactions (rev (Scenario.transactions 0))
     = DashboardPage.recentTransactions (rev (Scenario.transactions 0)).
Proof.
  apply recent_of_a_list_by_date.
  repeat constructor; unfold before; cbn; lia.
Defined.

(** ** An update in [App] finds its transaction *)

Section UpdateInSync.
Context {A : Arith} {IO : NumberIO A}.

Lemma find_written (l : list Stage2.Transaction) (t : Stage2.Transaction) :
  NoDup (map Stage2.t_id l) -> In t l ->
  find (Stage2.stored_has_id (Stage2.t_id t)) (map Stage2.written l)
  = Some (Stage2.written t).
Proof.
  intros Hnd Hin. induction l as [|x l IH]; [destruct Hin|].
  cbn [map] in Hnd. inversion Hnd as [|? ? Hx Hnd']; subst.
  cbn [map find].
  change (Stage2.stored_has_id (Stage2.t_id t) (Stage2.written x))
    with (Stage2.has_id (Stage2.t_id t) x).
  unfold Stage2.has_id. destruct (String.eqb_spec (Stage2.t_id x) (Stage2.t_id t)) as [E|N].
  - destruct Hin as [->|Hin]; [reflexivity|].
    exfalso. apply Hx. rewrite E. apply in_map. exact Hin.
  - destruct Hin as [->|Hin]; [congruence|]. exact (IH Hnd' Hin).
Qed.

(** The first entry of an id is the same in two arrangements of a list
    of distinct ids. *)
Lemma find_in_arrangement (id : string) (l1 l2 : list Stage2.Stored) :
  Permutation l1 l2 -> NoDup (map Stage2.s_id l1) ->
  find (Stage2.stored_has_id id) l2 = find (Stage2.stored_has_id id) l1.
Proof.
  intros Hp Hnd.
  assert (Hnd2 : NoDup (map Stage2.s_id l2))
    by exact (Permutation_NoDup (Permutation_map Stage2.s_id Hp) Hnd).
  assert (U : forall l x y, NoDup (map Stage2.s_id l) -> In x l -> In y l ->
                            Stage2.s_id x = Stage2.s_id y -> x = y).
  { clear. intros l x y Hnd Hx Hy E. induction l as [|z l IH]; [destruct Hx|].
    cbn [map] in Hnd. inversion Hnd as [|? ? Hz Hnd']; subst.
    destruct Hx as [->|Hx], Hy as [->|Hy]; try reflexivity.
    - exfalso. apply Hz. rewrite E. apply in_map. exact Hy.
    - exfalso. apply Hz. rewrite <- E. apply in_map. exact Hx.
    - exact (IH Hnd' Hx Hy). }
  destruct (find (Stage2.stored_has_id id) l1) as [x|] eqn:F1;
    destruct (find (Stage2.stored_has_id id) l2) as [y|] eqn:F2; try reflexivity.
  - apply find_some in F1, F2. destruct F1 as [Hx Ex], F2 as [Hy Ey].
    unfold Stage2.stored_has_id in Ex, Ey. apply String.eqb_eq in Ex, Ey.
    f_equal. apply (U l1); [exact Hnd | | exact Hx | congruence].
    exact (Permutation_in y (Permutation_sym Hp) Hy).
  - exfalso. apply find_some in F1. destruct F1 as [Hx Ex].
    pose proof (find_none _ _ F2 x (Permutation_in x Hp Hx)) as N. congruence.
  - exfalso. apply find_some in F2. destruct F2 as [Hy Ey].
    pose proof (find_none _ _ F1 y (Permutation_in y (Permutation_sym Hp) Hy)) as N.
    congruence.
Qed.

(** X25. When the store holds the stored forms of the transactions of
    the list of [App], saving the dialog opened on a listed transaction
    always finds it in the store: the entry of its id is replaced, in the
    list, by the transaction with the same id, the amount, the date and
    the description of the form, the creation date of the stored entry,
    as text, and the update date [new Date()], and in the store by the
    stored form of that transaction; no error is set and the dialog
    closes. The message "Transaction not found." does not arise. *)
Theorem update_finds_the_listed_transaction :
  forall (uuid : string) (now : Date * Date) (s : Stage2.State) (t : Stage2.Transaction)
         (d : Date),
    in_sync s ->
    App.view s = App.Main ->
    Stage2.editingTransaction s = Some t ->
    In t (Stage2.transactions s) ->
    Stage2.validate (Stage2.formData s) = None ->
    Stage2.f_date (Stage2.formData s) = Some d ->
    let updated :=
      Stage2.mkTransaction (Stage2.t_id t) (Number_ (Stage2.f_amount (Stage2.formData s)))
        d (Stage2.f_description (Stage2.formData s))
        (Stage2.AsText (Stage2.stamp_written (Stage2.t_createdAt t))) (fst now) in
    let s' := App.step (App.ClickSubmit uuid now) s in
    Stage2.transactions s'
    = map (fun x => if Stage2.has_id (Stage2.t_id t) x then updated else x)
          (Stage2.transactions s)
    /\ Stage2.stored (Stage2.storage s')
       = map (fun x => if Stage2.stored_has_id (Stage2.t_id t) x
                       then Stage2.written updated else x)
             (Stage2.stored (Stage2.storage s))
    /\ In updated (Stage2.transactions s')
    /\ Stage2.error s' = None
    /\ Stage2.isDialogOpen s' = false.
Proof.
  intros uuid now s t d [Hp Hnd] Hview Hed Hin Hv Hd. cbv zeta.
  assert (Hst : NoDup (map Stage2.s_id (Stage2.stored (Stage2.storage s)))).
  { apply (Permutation_NoDup (Permutation_map Stage2.s_id Hp)).
    rewrite stored_ids. exact Hnd. }
  assert (F : find (Stage2.stored_has_id (Stage2.t_id t)) (Stage2.stored (Stage2.storage s))
              = Some (Stage2.written t)).
  { rewrite (find_in_arrangement _ _ _ Hp) by (rewrite stored_ids; exact Hnd).
    apply find_written; assumption. }
  unfold App.step. rewrite Hview. cbn [App.handle]. rewrite Hed.
  unfold Stage2.updateTransaction. rewrite Hv, Hd.
  unfold Stage2.mockApi_updateTransaction.
  destruct s as [st txs ld er op ed fm].
  cbn [Stage2.storage Stage2.transactions Stage2.formData Stage2.setLoading Stage2.setError]
    in *.
  rewrite F.
  rewrite update_first_is_map by (cbn; auto).
  cbn.
  split; [reflexivity|]. split; [reflexivity|]. split.
  - apply in_map_iff. exists t. split; [|exact Hin].
    unfold Stage2.has_id. rewrite String.eqb_refl. reflexivity.
  - split; reflexivity.
Qed.
End UpdateInSync.

(** ** The two views of the spending by category *)

Section TwoViews.

(** X26. On binary64 numbers, with budgets of distinct categories and
    when no category names a member of [Object.prototype], the two views
    of the spending by category agree wherever the sum of the amounts of
    the category is not NaN: the [actual] of a row of [budgetComparison]
    is then the total of the entry of [categoryExpenses] for the same
    category. A row whose category has no such entry, a budget without a
    transaction, has the actual [round2 0]. *)
Theorem comparison_actual_is_the_category_total :
  forall (txs : list (Transaction (A := F64.arith))) (budgets : list (Budget (A := F64.arith))),
    NoDup (map b_category budgets) ->
    ordinary tx_category txs ->
    Forall (fun r =>
              (forall e, In e (Dashboard.categoryExpenses txs) ->
                         Dashboard.category e = Dashboard.r_category r ->
                         is_nan (sum (amounts_of (Dashboard.r_category r) txs)) = false ->
                         Dashboard.actual r = Dashboard.total e)
              /\ (~ In (Dashboard.r_category r)
                       (map Dashboard.category (Dashboard.categoryExpenses txs)) ->
                  Dashboard.actual r = round2 n0))
           (Dashboard.budgetComparison txs budgets).
Proof.
  intros txs budgets Hnd _. apply Forall_forall. intros r Hr.
  rewrite (budgetComparison_rows txs budgets F64_sum_start_law Hnd) in Hr.
  apply in_map_iff in Hr. destruct Hr as [c [<- _]]. cbn [Dashboard.r_category Dashboard.actual].
  split.
  - intros e He Hc Hn.
    unfold Dashboard.categoryExpenses in He. rewrite categoryTotals_assigned in He.
    apply In_category_entry in He. destruct He as [x [Hx ->]].
    rewrite (entry_sum_or0 tx_category tx_amount txs _ x Hx), Hc.
    symmetry. apply zeroish_round2, sum_or0_is_sum, Hn.
  - intros Hout.
    assert (Hno : ~ In c (map tx_category txs)).
    { intros H. apply Hout. unfold Dashboard.categoryExpenses.
      rewrite categories_of_entries, categoryTotals_assigned.
      apply (keys_assigned tx_category (add_to tx_category tx_amount) txs). exact H. }
    assert (E : amounts_of c txs = []).
    { unfold amounts_of. clear - Hno. induction txs as [|t txs IH]; [reflexivity|].
      cbn [map In filter] in *. destruct (String.eqb_spec (tx_category t) c); [tauto|].
      apply IH. tauto. }
    rewrite E. reflexivity.
Qed.
End TwoViews.

(** Where the sum is NaN the two views differ: for the amounts Infinity,
    -Infinity and 5 the row shows NaN and the entry 5. *)
Lemma views_differ_on_NaN :
  map Dashboard.actual
      (Dashboard.budgetComparison Undefined.transactions [mkBudget (A := F64.arith) "Food" 120%float])
  = [nan]
  /\ map Dashboard.total (Dashboard.categoryExpenses Undefined.transactions) = [5%float].
Proof. split; reflexivity. Qed.

Lemma update_finds_the_listed_transaction_witness :
  Stage2.transactions AppScenario.saved = [AppScenario.updated]
  /\ Stage2.stored (Stage2.storage AppScenario.saved)
     = [Stage2.mkStored (A := F64.arith) "id-1" (Some 50%float) "1970-01-01T00:00:00.000Z"
          "Groceries" "1970-01-01T00:00:00.000Z" "1970-01-01T00:00:00.007Z"]
  /\ In AppScenario.updated (Stage2.transactions AppScenario.saved)
  /\ Stage2.error AppScenario.saved = None
  /\ Stage2.isDialogOpen AppScenario.saved = false.
Proof.
  apply (update_finds_the_listed_transaction (IO := F64.io) "id-2" (7, 7)
           AppScenario.editing AppScenario.listed 0).
  - split; [apply Permutation_refl | repeat constructor; intros H; destruct H].
  - reflexivity.
  - reflexivity.
  - left. reflexivity.
  - vm_compute. reflexivity.
  - reflexivity.
Defined.

Lemma comparison_actual_is_the_category_total_witness :
  Forall (fun r =>
            (forall e, In e (Dashboard.categoryExpenses (Scenario.transactions 0)) ->
                       Dashboard.category e = Dashboard.r_category r ->
                       is_nan (sum (amounts_of (Dashboard.r_category r)
                                      (Scenario.transactions 0))) = false ->
                       Dashboard.actual r = Dashboard.total e)
            /\ (~ In (Dashboard.r_category r)
                     (map Dashboard.category
                        (Dashboard.categoryExpenses (Scenario.transactions 0))) ->
                Dashboard.actual r = round2 n0))
         (Dashboard.budgetComparison (Scenario.transactions 0) Scenario.budgets).
Proof.
  apply (comparison_actual_is_the_category_total (Scenario.transactions 0) Scenario.budgets).
  - repeat constructor. intros [].
  - exact (scenario_is_ordinary 0).
Defined.
